(** * agorder: order-file upload, mapping, generation and download routes

    A shallow embedding of [server.js] and of the order routes (the router
    mounted under [/api/orders]), and the properties of the
    upload -> mapping -> generate -> download pipeline.

    The routes exist in two versions. The one modelled here chooses its
    directories by [NODE_ENV] and makes the uploads directory when it is
    loaded. The older one has the same handlers and always uses the
    directories next to the routes module, the case [production = false];
    its middleware stores an upload in the directory [uploads/] of the
    working directory, which is the same directory when the server is
    started from the directory above the routes.

    JavaScript strings are sequences of UTF-16 code units, objects used as
    dictionaries are finite maps of their own properties, the file system
    is a finite map from normalized absolute paths to nodes, and a call that
    can throw returns a [result]. The modules [utils/validation] and
    [utils/converter], the workbook reader of ExcelJS and [JSON] are
    parameters of the routes ([Host]). *)

From Stdlib Require Import ZArith NArith Lia List Ascii String DecimalN.
From stdpp Require Import base option list gmap fin_maps.

#[local] Set Warnings "-register-all,-clear-no-such-hyp".

Local Open Scope N_scope.

(** ** Strings *)

(** A JavaScript string: its UTF-16 code units. *)
Abbreviation jsstring := (list N).

Module JsString.

(** Source literals are written as UTF-8 text and decoded to code units. *)
Definition bytes_of (s : string) : list N :=
  map N_of_ascii (list_ascii_of_string s).

Definition cont (b : N) : N := N.land b 63.

Definition units_of_code_point (cp : N) : list N :=
  if cp <? 65536 then [cp]
  else let v := cp - 65536 in [55296 + N.shiftr v 10; 56320 + N.land v 1023].

Fixpoint utf16 (bs : list N) : list N :=
  match bs with
  | [] => []
  | b :: r =>
      if b <? 128 then b :: utf16 r
      else if b <? 224 then
        match r with
        | c1 :: r1 => (N.shiftl (N.land b 31) 6 + cont c1) :: utf16 r1
        | [] => [65533]
        end
      else if b <? 240 then
        match r with
        | c1 :: c2 :: r2 =>
            (N.shiftl (N.land b 15) 12 + N.shiftl (cont c1) 6 + cont c2) :: utf16 r2
        | _ => [65533]
        end
      else
        match r with
        | c1 :: c2 :: c3 :: r3 =>
            units_of_code_point
              (N.shiftl (N.land b 7) 18 + N.shiftl (cont c1) 12
               + N.shiftl (cont c2) 6 + cont c3) ++ utf16 r3
        | _ => [65533]
        end
  end.

Definition js (s : string) : jsstring := utf16 (bytes_of s).

(** [WhiteSpace] and [LineTerminator] of ECMAScript: what [trim] strips. *)
Definition is_space (c : N) : bool :=
  (c =? 9) || (c =? 10) || (c =? 11) || (c =? 12) || (c =? 13) || (c =? 32)
  || (c =? 160) || (c =? 5760) || ((8192 <=? c) && (c <=? 8202))
  || (c =? 8232) || (c =? 8233) || (c =? 8239) || (c =? 8287)
  || (c =? 12288) || (c =? 65279).

Fixpoint trimStart (s : jsstring) : jsstring :=
  match s with
  | c :: r => if is_space c then trimStart r else s
  | [] => []
  end.

Definition trimEnd (s : jsstring) : jsstring := rev (trimStart (rev s)).

(** [s.trim()] *)
Definition trim (s : jsstring) : jsstring := trimEnd (trimStart s).

(** [s.split(sep)] for a separator of one code unit: never empty. *)
Fixpoint split (sep : N) (s : jsstring) : list jsstring :=
  match s with
  | [] => [[]]
  | c :: r =>
      if c =? sep then [] :: split sep r
      else match split sep r with
           | field :: fields => (c :: field) :: fields
           | [] => [[c]]
           end
  end.

(** A string is truthy when it is not empty. *)
Definition truthy (s : jsstring) : Prop := s ≠ [].

#[global] Instance truthy_dec s : Decision (truthy s).
Proof. unfold truthy. apply _. Defined.

(** ASCII part of [toLowerCase]. The other case mappings of Unicode never
    yield an ASCII letter other than [i] and [k], so a comparison of the
    result with [".csv"], or a search in it for [xlsx], [xls] or [csv],
    is decided by this part alone. *)
Definition lower_unit (c : N) : N :=
  if (65 <=? c) && (c <=? 90) then c + 32 else c.

Definition toLowerCase (s : jsstring) : jsstring := map lower_unit s.

Fixpoint starts_with (p s : jsstring) : bool :=
  match p, s with
  | [], _ => true
  | a :: p', b :: s' => (a =? b) && starts_with p' s'
  | _ :: _, [] => false
  end.

(** [s.includes(p)]: [p] occurs in [s]. *)
Fixpoint includes (p s : jsstring) : bool :=
  starts_with p s || match s with
                     | [] => false
                     | _ :: s' => includes p s'
                     end.

(** Decimal digits of a natural number, as a template literal prints an
    integer. *)
Fixpoint uint_units (d : Decimal.uint) : jsstring :=
  match d with
  | Decimal.Nil => []
  | Decimal.D0 d => 48 :: uint_units d
  | Decimal.D1 d => 49 :: uint_units d
  | Decimal.D2 d => 50 :: uint_units d
  | Decimal.D3 d => 51 :: uint_units d
  | Decimal.D4 d => 52 :: uint_units d
  | Decimal.D5 d => 53 :: uint_units d
  | Decimal.D6 d => 54 :: uint_units d
  | Decimal.D7 d => 55 :: uint_units d
  | Decimal.D8 d => 56 :: uint_units d
  | Decimal.D9 d => 57 :: uint_units d
  end.

Definition decimal (n : N) : jsstring := uint_units (N.to_uint n).

Definition decimalZ (z : Z) : jsstring :=
  if (z <? 0)%Z then 45 :: decimal (Z.abs_N z) else decimal (Z.abs_N z).

End JsString.

Import JsString.

Definition comma : N := 44.
Definition newline : N := 10.
Definition slash : N := 47.
Definition dot : N := 46.


(** ** Exceptions *)

Inductive error :=
  | ENOENT (p : list jsstring)
  | EISDIR (p : list jsstring)
  | ENOTDIR (p : list jsstring)
  | ERR_INVALID_ARG_VALUE
  | SyntaxError
  | LibraryError (message : jsstring)
  | LIMIT_FILE_SIZE
  | LIMIT_UNEXPECTED_FILE
  | PlainError (message : jsstring).

(** The outcome of a call that can throw. *)
Inductive result (A : Type) :=
  | Ok (a : A)
  | Throw (e : error).
Arguments Ok {A} a.
Arguments Throw {A} e.

Definition bind {A B} (r : result A) (k : A -> result B) : result B :=
  match r with
  | Ok a => k a
  | Throw e => Throw e
  end.

Notation "x <- r ;; k" := (bind r (fun x => k))
  (at level 100, r at next level, right associativity).

(** ** Paths ([path]) *)

Module Path.

(** A normalized absolute POSIX path: its segments below the root. A last
    segment that is empty stands for a trailing slash. *)
Abbreviation t := (list jsstring).

Definition has_trailing_slash (p : t) : bool :=
  match last p with
  | Some [] => true
  | _ => false
  end.

Definition strip (p : t) : t :=
  if has_trailing_slash p then removelast p else p.

Definition segment_step (p : t) (seg : jsstring) : t :=
  if decide (seg = []) then p
  else if decide (seg = [dot]) then p
  else if decide (seg = [dot; dot]) then removelast p
  else p ++ [seg].

(** [path.join(base, rel)] for an absolute [base]: the segments of [rel]
    are appended, [.] and empty segments dropped, [..] resolved, and a slash
    at the end is kept. *)
Definition join (base : t) (rel : jsstring) : t :=
  match last rel with
  | None => base
  | Some c =>
      let p := fold_left segment_step (split slash rel) (strip base) in
      if (c =? slash) && negb (bool_decide (p = [])) then p ++ [[]] else p
  end.

(** [path.dirname] *)
Definition parent (p : t) : t := removelast (strip p).

Fixpoint drop_slashes (units : jsstring) : jsstring :=
  match units with
  | c :: rest => if c =? slash then drop_slashes rest else units
  | [] => []
  end.

(** [path.basename(p)]: the last component of [p], slashes at its end set
    aside. *)
Definition basename (p : jsstring) : jsstring :=
  default [] (last (split slash (rev (drop_slashes (rev p))))).

(** The loop of [path.extname], from the last code unit down to the first. *)
Record ext_state := {
  startDot : option nat;
  startPart : nat;
  end_ : option nat;
  matchedSlash : bool;
  preDotState : Z
}.

Fixpoint ext_loop (units_rev : jsstring) (i : nat) (st : ext_state) : ext_state :=
  match units_rev with
  | [] => st
  | code :: rest =>
      if code =? slash then
        if negb (matchedSlash st)
        then {| startDot := startDot st; startPart := i + 1; end_ := end_ st;
                matchedSlash := matchedSlash st; preDotState := preDotState st |}
        else ext_loop rest (pred i) st
      else
        let st1 :=
          match end_ st with
          | None => {| startDot := startDot st; startPart := startPart st;
                       end_ := Some (i + 1)%nat; matchedSlash := false;
                       preDotState := preDotState st |}
          | Some _ => st
          end in
        let st2 :=
          if code =? dot then
            match startDot st1 with
            | None => {| startDot := Some i; startPart := startPart st1;
                         end_ := end_ st1; matchedSlash := matchedSlash st1;
                         preDotState := preDotState st1 |}
            | Some _ =>
                if negb (preDotState st1 =? 1)%Z
                then {| startDot := startDot st1; startPart := startPart st1;
                        end_ := end_ st1; matchedSlash := matchedSlash st1;
                        preDotState := 1 |}
                else st1
            end
          else
            match startDot st1 with
            | Some _ => {| startDot := startDot st1; startPart := startPart st1;
                           end_ := end_ st1; matchedSlash := matchedSlash st1;
                           preDotState := (-1) |}
            | None => st1
            end in
        ext_loop rest (pred i) st2
  end.

(** [path.extname(p)] *)
Definition extname (p : jsstring) : jsstring :=
  let st := ext_loop (rev p) (pred (length p))
              {| startDot := None; startPart := 0; end_ := None;
                 matchedSlash := true; preDotState := 0 |} in
  match startDot st, end_ st with
  | Some sd, Some e =>
      if (preDotState st =? 0)%Z
         || ((preDotState st =? 1)%Z && Nat.eqb sd (e - 1) && Nat.eqb sd (startPart st + 1))
      then []
      else take (e - sd) (drop sd p)
  | _, _ => []
  end.

End Path.

(** ** The file system ([fs]) *)

Module Fs.

Inductive node :=
  | File (data : jsstring)
  | Dir.

(** The nodes below the root, by path. A file's data is its text, as
    [readFileSync(path, 'utf8')] returns it. *)
Abbreviation t := (gmap (list jsstring) node).

(** A path with a NUL unit is refused by every call. *)
Definition valid (p : Path.t) : bool :=
  forallb (fun seg => negb (existsb (N.eqb 0) seg)) p.

Definition plain_node (fs : t) (p : Path.t) : option node :=
  match p with
  | [] => Some Dir
  | _ => fs !! p
  end.

(** What [stat] finds at [p]: with a trailing slash, only a directory. *)
Definition node_at (fs : t) (p : Path.t) : option node :=
  if negb (valid p) then None
  else if Path.has_trailing_slash p then
    match plain_node fs (removelast p) with
    | Some Dir => Some Dir
    | _ => None
    end
  else plain_node fs p.

Definition existsSync (fs : t) (p : Path.t) : bool :=
  match node_at fs p with
  | Some _ => true
  | None => false
  end.

Definition readFileSync (fs : t) (p : Path.t) : result jsstring :=
  if negb (valid p) then Throw ERR_INVALID_ARG_VALUE
  else
    match node_at fs p with
    | Some (File data) => Ok data
    | Some Dir => Throw (EISDIR p)
    | None => Throw (ENOENT p)
    end.

(** Creates or replaces the file at [p]; its directory must exist. *)
Definition writeFileSync (fs : t) (p : Path.t) (data : jsstring) : result t :=
  if negb (valid p) then Throw ERR_INVALID_ARG_VALUE
  else if Path.has_trailing_slash p then Throw (EISDIR p)
  else
    match node_at fs p with
    | Some Dir => Throw (EISDIR p)
    | _ =>
        match node_at fs (Path.parent p) with
        | Some Dir => Ok (<[p := File data]> fs)
        | Some (File _) => Throw (ENOTDIR p)
        | None => Throw (ENOENT p)
        end
    end.

(** [mkdirSync(p, { recursive: true })]: [done] exists, [todo] is created
    below it segment by segment. *)
Fixpoint mkdir_below (fs : t) (done : Path.t) (todo : list jsstring) : result t :=
  match todo with
  | [] => Ok fs
  | seg :: rest =>
      let d := done ++ [seg] in
      match node_at fs d with
      | Some (File _) => Throw (ENOTDIR d)
      | Some Dir => mkdir_below fs d rest
      | None => mkdir_below (<[d := Dir]> fs) d rest
      end
  end.

Definition mkdirSync_recursive (fs : t) (p : Path.t) : result t :=
  if negb (valid p) then Throw ERR_INVALID_ARG_VALUE
  else mkdir_below fs [] (Path.strip p).

End Fs.

(** ** JSON values *)

Inductive json :=
  | JNull
  | JBool (b : bool)
  | JNum (n : Z)
  | JStr (s : jsstring)
  | JArr (items : list json)
  | JObj (props : list (jsstring * json)).

(** [v[key]] of a value read by [JSON.parse]: the property of an object
    by name, [undefined] when there is none. *)
Definition property (key : jsstring) (v : json) : option json :=
  match v with
  | JObj props => snd <$> List.find (fun kv => bool_decide (fst kv = key)) props
  | _ => None
  end.

(** An object literal as [JSON.stringify] sees it: a property whose value
    is [undefined] is left out. *)
Fixpoint object_of (props : list (jsstring * option json)) : list (jsstring * json) :=
  match props with
  | [] => []
  | (k, Some v) :: rest => (k, v) :: object_of rest
  | (_, None) :: rest => object_of rest
  end.

(** ** Numbers *)

Module Number.

(** The Number nearest to a natural number: a significand of 53 bits, ties
    to the even one. Up to 2^53 every natural number is a Number. *)
Definition nearest (m : N) : N :=
  let bits := N.size m in
  if bits <=? 53 then m
  else
    let e := bits - 53 in
    let q := N.shiftr m e in
    let r := m - N.shiftl q e in
    let half := N.shiftl 1 (e - 1) in
    N.shiftl (if (half <? r) || ((r =? half) && N.odd q) then q + 1 else q) e.

(** From 2^1024 on the nearest Number is [Infinity]. *)
Definition overflows (m : N) : bool := 2 ^ 1024 <=? nearest m.

(** The digits [Number::toString] prints for the Number [x], as the natural
    number they denote: one with the fewest significant digits among those
    whose nearest Number is [x], and the closest to [x] among these. The
    last [todo] digits are zeros. *)
Fixpoint shortest_from (x : N) (todo : nat) : N :=
  match todo with
  | O => x
  | S todo' =>
      let p := 10 ^ N.of_nat todo in
      let lo := (x / p) * p in
      let hi := lo + p in
      let lo_ok := (nearest lo =? x) && negb (lo =? 0) in
      let hi_ok := nearest hi =? x in
      if lo_ok && hi_ok then
        if x - lo <? hi - x then lo
        else if hi - x <? x - lo then hi
        else if N.even (lo / p) then lo else hi
      else if lo_ok then lo
      else if hi_ok then hi
      else shortest_from x todo'
  end.

Definition shortest (x : N) : N := shortest_from x (length (decimal x) - 1).

Fixpoint strip_zeros (digits_rev : jsstring) : jsstring :=
  match digits_rev with
  | 48 :: rest => strip_zeros rest
  | _ => digits_rev
  end.

(** [Number::toString] of a positive Number that is an integer: all the
    digits up to 21 of them, the exponent form from 1e21 on. *)
Definition positive_toString (x : N) : jsstring :=
  let digits := decimal (shortest x) in
  let n := length digits in
  if (n <=? 21)%nat then digits
  else
    match rev (strip_zeros (rev digits)) with
    | [] => digits
    | [d] => d :: js "e+" ++ decimal (N.of_nat (n - 1))
    | d :: more => d :: js "." ++ more ++ js "e+" ++ decimal (N.of_nat (n - 1))
    end.

Definition magnitude_toString (m : N) : jsstring :=
  if overflows m then js "Infinity" else positive_toString (nearest m).

(** [Number(z).toString()] for an integer [z]: the string of the Number
    nearest to [z]. *)
Definition toString (z : Z) : jsstring :=
  match z with
  | Z0 => js "0"
  | Zpos p => magnitude_toString (Npos p)
  | Zneg p => js "-" ++ magnitude_toString (Npos p)
  end.

End Number.

(** ** Workbooks (ExcelJS) *)

Module Excel.

(** The value of a cell. [CNumber z] is the Number nearest to the integer
    [z] ([z] itself up to 2^53); [COther] is any other value that is truthy
    (a date, a formula, rich text, a hyperlink, an error, a number with a
    fraction), with the string its [toString()] gives. *)
Inductive CellValue :=
  | CNull
  | CNumber (n : Z)
  | CString (s : jsstring)
  | CBool (b : bool)
  | COther (repr : jsstring).

(** A row: its cells from column 1 on, [CNull] where there is none. *)
Abbreviation Row := (list CellValue).

(** A worksheet: its rows from row 1 to [rowCount]. *)
Abbreviation Worksheet := (list Row).

(** A workbook: its worksheets with their ids. *)
Abbreviation Workbook := (list (N * Worksheet)).

Definition getWorksheet (wb : Workbook) (id : N) : option Worksheet :=
  snd <$> List.find (fun ws => fst ws =? id) wb.

Definition rowCount (ws : Worksheet) : nat := length ws.

(** [worksheet.getRow(n)], [n] from 1 *)
Definition getRow (ws : Worksheet) (n : nat) : Row :=
  match n with
  | O => []
  | S i => default [] (ws !! i)
  end.

(** [row.getCell(n).value], [n] from 1 *)
Definition getCell (row : Row) (n : nat) : CellValue :=
  match n with
  | O => CNull
  | S i => default CNull (row !! i)
  end.

Definition is_null (v : CellValue) : bool :=
  match v with
  | CNull => true
  | _ => false
  end.

(** [row.eachCell(f)], without [includeEmpty]: [f] is called on the cells
    that are not null, in column order, with their column number. *)
Fixpoint eachCell_from {A} (cells : Row) (colNumber : N)
    (f : A -> CellValue -> N -> A) (acc : A) : A :=
  match cells with
  | [] => acc
  | cell :: rest =>
      eachCell_from rest (colNumber + 1) f
        (if is_null cell then acc else f acc cell colNumber)
  end.

Definition eachCell {A} (row : Row) (f : A -> CellValue -> N -> A) (acc : A) : A :=
  eachCell_from row 1 f acc.

(** The cells [eachCell] visits, with their column numbers. *)
Fixpoint visited_from (cells : Row) (colNumber : N) : list (N * CellValue) :=
  match cells with
  | [] => []
  | cell :: rest =>
      if is_null cell then visited_from rest (colNumber + 1)
      else (colNumber, cell) :: visited_from rest (colNumber + 1)
  end.

Definition visited (row : Row) : list (N * CellValue) := visited_from row 1.

(** Truthiness of [cell.value]. *)
Definition truthy (v : CellValue) : bool :=
  match v with
  | CNull => false
  | CNumber n => negb (n =? 0)%Z
  | CString s => bool_decide (s ≠ [])
  | CBool b => b
  | COther _ => true
  end.

(** [cell.value.toString()] *)
Definition toString (v : CellValue) : jsstring :=
  match v with
  | CNull => []
  | CNumber n => Number.toString n
  | CString s => s
  | CBool true => js "true"
  | CBool false => js "false"
  | COther repr => repr
  end.

End Excel.

(** ** Tabular reader: the preview of an uploaded file *)

(** A preview row: the object [rowData], its own properties by name, as
    [res.json] serializes it. *)
Abbreviation RowData := (gmap jsstring jsstring).

Module Reader.

(** [lines.slice(from, to)] *)
Definition slice {A} (from to : nat) (l : list A) : list A :=
  take (to - from) (drop from l).

(** [values[index] || ''] *)
Definition value_or_empty (values : list jsstring) (index : nat) : jsstring :=
  match values !! index with
  | Some v => if decide (truthy v) then v else []
  | None => []
  end.

(** [rowData[name] = value] on an object made by [{}], for a string
    [value]: the name becomes an own property, except [__proto__], which
    the object inherits as an accessor whose setter ignores a string and
    leaves the object as it is. *)
Definition assign (rowData : RowData) (name value : jsstring) : RowData :=
  if decide (name = js "__proto__") then rowData
  else <[name := value]> rowData.

(** [headers.forEach((header, index) => { rowData[header] = cell(index) })],
    from position [index] on. *)
Fixpoint forEach_assign (cell : nat -> jsstring) (headers : list jsstring)
    (index : nat) (rowData : RowData) : RowData :=
  match headers with
  | [] => rowData
  | header :: rest =>
      forEach_assign cell rest (S index) (assign rowData header (cell index))
  end.

Definition csv_row (headers : list jsstring) (line : jsstring) : RowData :=
  let values := map trim (split comma line) in
  forEach_assign (value_or_empty values) headers 0 ∅.

(** [csvData.split('\n').filter(line => line.trim())] *)
Definition csv_lines (csvData : jsstring) : list jsstring :=
  filter (fun line => truthy (trim line)) (split newline csvData).

(** The CSV branch of the upload route: headers and preview rows. *)
Definition csv_preview (csvData : jsstring) : list jsstring * list RowData :=
  let lines := csv_lines csvData in
  match lines with
  | [] => ([], [])
  | first :: _ =>
      let headers := map trim (split comma first) in
      (headers, map (csv_row headers) (slice 1 21 lines))
  end.

(** The header list as the specification words it: the first line that is
    not blank, split on commas, each value trimmed; none when every line
    is blank. *)
Definition csv_headers (csvData : jsstring) : list jsstring :=
  match csv_lines csvData with
  | [] => []
  | first :: _ => map trim (split comma first)
  end.

(** The label of a header cell whose value is falsy. *)
Definition column_label (colNumber : N) : jsstring :=
  js "컬럼" ++ decimal colNumber.

Definition excel_headers (firstRow : Excel.Row) : list jsstring :=
  Excel.eachCell firstRow
    (fun headers cell colNumber =>
       headers ++ [if Excel.truthy cell then Excel.toString cell
                   else column_label colNumber])
    [].

Definition excel_row (headers : list jsstring) (row : Excel.Row) : RowData :=
  forEach_assign
    (fun index =>
       let cell := Excel.getCell row (index + 1) in
       if Excel.truthy cell then Excel.toString cell else [])
    headers 0 ∅.

(** The Excel branch of the upload route. *)
Definition excel_preview (workbook : Excel.Workbook) : list jsstring * list RowData :=
  match Excel.getWorksheet workbook 1 with
  | Some worksheet =>
      let headers := excel_headers (Excel.getRow worksheet 1) in
      let rowNumbers := seq 2 (Nat.min 21 (Excel.rowCount worksheet) - 1) in
      (headers, map (fun rowNumber => excel_row headers (Excel.getRow worksheet rowNumber)) rowNumbers)
  | None => ([], [])
  end.

End Reader.

(** ** Requests, responses and the collaborators of the routes *)

Record Part := {
  fieldname : jsstring;
  originalname : jsstring;
  mimetype : jsstring;
  filesize : N;
  data : jsstring
}.

(** [req.file] *)
Record MulterFile := {
  file_originalname : jsstring;
  file_filename : jsstring;
  file_path : Path.t;
  file_size : N
}.

Record ConversionResult := {
  fileName : jsstring;
  processedRows : json;
  errors : json
}.

(** What the routes take from their environment: the directory of the
    routes module, the mode, and the functions of other modules. *)
Record Host := {
  dirname : Path.t;
  production : bool;
  validateOrderData : list RowData -> list jsstring -> json;
  xlsx_load : jsstring -> result Excel.Workbook;
  JSON_stringify : json -> jsstring;
  JSON_parse : jsstring -> result json;
  convertToStandardFormat :
    Fs.t -> Path.t -> Path.t -> json -> result ConversionResult * Fs.t
}.

Inductive message :=
  | Text (s : jsstring)
  | MessageOf (e : error).

Record UploadResult := {
  success : bool;
  upload_fileName : jsstring;
  fileId : jsstring;
  headers : list jsstring;
  previewData : list RowData;
  totalRows : nat;
  validation : json;
  upload_message : jsstring
}.

Inductive response :=
  | UploadJson (r : UploadResult)
  | MappingJson (ok : bool) (msg : jsstring) (mappingId : jsstring)
  | GenerateJson (ok : bool) (generatedFile downloadUrl : jsstring)
      (processed errs : json) (msg : jsstring)
  | Attachment (name : jsstring) (content : jsstring)
  | ErrorJson (status : N) (err : message) (details : option message).

Definition status_of (r : response) : N :=
  match r with
  | ErrorJson status _ _ => status
  | _ => 200
  end.

(** The body of an answer of the upload route, when it is one. *)
Definition upload_result (r : response) : option UploadResult :=
  match r with
  | UploadJson result => Some result
  | _ => None
  end.

Record MappingBody := {
  mappingName : jsstring;
  sourceFields : option json;
  targetFields : option json;
  mappingRules : option json
}.

(** A definition that was loaded is the one a request asked to save: it
    has the name, the creation time, the source fields, the target fields
    and the rules of that request, a field the request left out being
    absent. *)
Definition holds_request (loaded : json) (createdAt : jsstring) (body : MappingBody)
    : Prop :=
  property (js "name") loaded = Some (JStr (mappingName body))
  ∧ property (js "createdAt") loaded = Some (JStr createdAt)
  ∧ property (js "sourceFields") loaded = sourceFields body
  ∧ property (js "targetFields") loaded = targetFields body
  ∧ property (js "rules") loaded = mappingRules body.

Record GenerateBody := {
  body_fileId : jsstring;
  body_mappingId : jsstring;
  templateType : option json
}.

(** ** Upload middleware ([multer]) *)

Module Multer.

Record Options := {
  fileFilter : Part -> result unit;
  fileSize : option N
}.

(** The name [diskStorage] gives the stored file:
    [fieldname + '-' + Date.now() + '-' + Math.round(Math.random() * 1E9)
     + path.extname(originalname)]. *)
Definition filename (part : Part) (now random : N) : jsstring :=
  let uniqueSuffix := decimal now ++ js "-" ++ decimal random in
  fieldname part ++ js "-" ++ uniqueSuffix ++ Path.extname (originalname part).

(** The limit [fileSize] is reported once the bytes received reach it. *)
Definition exceeds (limit : option N) (n : N) : bool :=
  match limit with
  | Some max => max <=? n
  | None => false
  end.

(** [multer(opts).single(name)] with disk storage under [destination]: a
    part without a file name is passed over, the filter is asked first, the
    size is checked while the file is stored, and [req.file] describes the
    stored file. *)
Definition single (opts : Options) (name : jsstring) (destination : Path.t)
    (now random : N) (file : option Part) (fs : Fs.t)
    : result (option MulterFile * Fs.t) :=
  match file with
  | None => Ok (None, fs)
  | Some part =>
      if decide (originalname part = []) then Ok (None, fs)
      else if decide (fieldname part = name) then
        _ <- fileFilter opts part ;;
        if exceeds (fileSize opts) (filesize part) then Throw LIMIT_FILE_SIZE
        else
          let stored := filename part now random in
          let p := Path.join destination stored in
          fs' <- Fs.writeFileSync fs p (data part) ;;
          Ok (Some {| file_originalname := originalname part;
                      file_filename := stored;
                      file_path := p;
                      file_size := filesize part |}, fs')
      else Throw LIMIT_UNEXPECTED_FILE
  end.

End Multer.

(** ** server.js *)

Module Server.

(** [/xlsx|xls|csv/.test(s)] *)
Definition allowedTypes_test (s : jsstring) : bool :=
  includes (js "xlsx") s || includes (js "xls") s || includes (js "csv") s.

Definition unsupported_message : jsstring :=
  js "파일 형식이 지원되지 않습니다. Excel(.xlsx, .xls) 또는 CSV 파일만 업로드 가능합니다.".

Definition fileFilter (file : Part) : result unit :=
  let extname := allowedTypes_test (toLowerCase (Path.extname (originalname file))) in
  let mimetype :=
    allowedTypes_test (mimetype file)
    || bool_decide (mimetype file =
         js "application/vnd.openxmlformats-officedocument.spreadsheetml.sheet")
    || bool_decide (mimetype file = js "application/vnd.ms-excel")
    || bool_decide (mimetype file = js "text/csv") in
  if mimetype && extname then Ok tt
  else Throw (PlainError unsupported_message).

Definition size_limit : N := 10 * 1024 * 1024.

(** The [upload] of server.js: filter and size limit. *)
Definition upload : Multer.Options :=
  {| Multer.fileFilter := fileFilter; Multer.fileSize := Some size_limit |}.

Definition too_large_message : jsstring :=
  js "파일 크기가 너무 큽니다. 10MB 이하의 파일을 업로드해주세요.".

(** The error-handling middleware. *)
Definition error_handler (e : error) : response :=
  match e with
  | LIMIT_FILE_SIZE => ErrorJson 400 (Text too_large_message) None
  | _ => ErrorJson 500 (MessageOf e) None
  end.

End Server.

(** ** The order routes *)

Section Routes.

Context (host : Host).

Definition uploadsDir : Path.t :=
  if production host then Path.join (Path.join [] (js "/tmp")) (js "uploads")
  else Path.join (dirname host) (js "../uploads").

(** The module makes sure the uploads directory exists when it is loaded. *)
Definition load_module (fs : Fs.t) : result Fs.t :=
  if negb (Fs.existsSync fs uploadsDir) then Fs.mkdirSync_recursive fs uploadsDir
  else Ok fs.

(** The [upload] of the routes: [multer({ storage: storage })]. *)
Definition upload : Multer.Options :=
  {| Multer.fileFilter := fun _ => Ok tt; Multer.fileSize := None |}.

Definition no_file_message : jsstring := js "파일이 업로드되지 않았습니다.".
Definition processing_failed_message : jsstring := js "파일 처리 중 오류가 발생했습니다.".

Definition uploaded_message (rows : nat) : jsstring :=
  js "파일이 성공적으로 업로드되었습니다. " ++ decimal (N.of_nat rows)
  ++ js "행의 데이터를 확인했습니다.".

(** Headers and preview rows of the stored file, by its extension. *)
Definition read_preview (fs : Fs.t) (file : MulterFile)
    : result (list jsstring * list RowData) :=
  let filePath := file_path file in
  let fileExtension := toLowerCase (Path.extname (file_originalname file)) in
  if decide (fileExtension = js ".csv") then
    csvData <- Fs.readFileSync fs filePath ;;
    Ok (Reader.csv_preview csvData)
  else
    content <- Fs.readFileSync fs filePath ;;
    workbook <- xlsx_load host content ;;
    Ok (Reader.excel_preview workbook).

(** The handler of [POST /upload], after the middleware. *)
Definition upload_handler (fs : Fs.t) (req_file : option MulterFile) : response :=
  match req_file with
  | None => ErrorJson 400 (Text no_file_message) None
  | Some file =>
      match read_preview fs file with
      | Ok (headers, previewData) =>
          let validation := validateOrderData host previewData headers in
          UploadJson
            {| success := true;
               upload_fileName := file_originalname file;
               fileId := file_filename file;
               headers := headers;
               previewData := previewData;
               totalRows := length previewData;
               validation := validation;
               upload_message := uploaded_message (length previewData) |}
      | Throw e => ErrorJson 500 (Text processing_failed_message) (Some (MessageOf e))
      end
  end.

(** [POST /upload] with a given middleware configuration: an error of the
    middleware goes to the error handler of server.js. *)
Definition post_upload_with (opts : Multer.Options) (now random : N)
    (file : option Part) (fs : Fs.t) : response * Fs.t :=
  match Multer.single opts (js "orderFile") uploadsDir now random file fs with
  | Ok (req_file, fs') => (upload_handler fs' req_file, fs')
  | Throw e => (Server.error_handler e, fs)
  end.

(** [POST /upload] as the router mounts it. *)
Definition post_upload := post_upload_with upload.

Definition mappingsDir : Path.t :=
  if production host then Path.join (Path.join [] (js "/tmp")) (js "mappings")
  else Path.join (dirname host) (js "../file/mappings").

Definition mapping_file (name : jsstring) : Path.t :=
  Path.join mappingsDir (name ++ js ".json").

Definition mappingData (createdAt : jsstring) (body : MappingBody) : json :=
  JObj (object_of
    [ (js "name", Some (JStr (mappingName body)));
      (js "createdAt", Some (JStr createdAt));
      (js "sourceFields", sourceFields body);
      (js "targetFields", targetFields body);
      (js "rules", mappingRules body) ]).

Definition mapping_saved_message : jsstring := js "매핑 규칙이 저장되었습니다.".
Definition mapping_failed_message : jsstring := js "매핑 저장 중 오류가 발생했습니다.".

(** [POST /mapping]; [createdAt] is [new Date().toISOString()]. *)
Definition post_mapping (createdAt : jsstring) (body : MappingBody) (fs : Fs.t)
    : response * Fs.t :=
  let failed e := ErrorJson 500 (Text mapping_failed_message) (Some (MessageOf e)) in
  let mappingPath := mappingsDir in
  match (if negb (Fs.existsSync fs mappingPath)
         then Fs.mkdirSync_recursive fs mappingPath else Ok fs) with
  | Throw e => (failed e, fs)
  | Ok fs1 =>
      match Fs.writeFileSync fs1 (mapping_file (mappingName body))
              (JSON_stringify host (mappingData createdAt body)) with
      | Throw e => (failed e, fs1)
      | Ok fs2 => (MappingJson true mapping_saved_message (mappingName body), fs2)
      end
  end.

(** The mapping the generate route works with:
    [let mappingRules = {}; if (fs.existsSync(mappingPath)) mappingRules =
     JSON.parse(fs.readFileSync(mappingPath, 'utf8'))]. *)
Definition load_mapping (fs : Fs.t) (mappingId : jsstring) : result json :=
  let mappingPath := mapping_file mappingId in
  if Fs.existsSync fs mappingPath then
    text <- Fs.readFileSync fs mappingPath ;;
    JSON_parse host text
  else Ok (JObj []).

Definition templatePath : Path.t :=
  Path.join (dirname host) (js "../file/porder_template.xlsx").

Definition upload_missing_message : jsstring := js "업로드된 파일을 찾을 수 없습니다.".
Definition generate_failed_message : jsstring := js "발주서 생성 중 오류가 발생했습니다.".
Definition generated_message : jsstring := js "발주서가 성공적으로 생성되었습니다.".

(** The answer of the generate route to the outcome of the conversion. *)
Definition generate_reply (outcome : result ConversionResult) : response :=
  match outcome with
  | Ok converted =>
      GenerateJson true (fileName converted)
        (js "/api/orders/download/" ++ fileName converted)
        (processedRows converted) (errors converted) generated_message
  | Throw e => ErrorJson 500 (Text generate_failed_message) (Some (MessageOf e))
  end.

(** [POST /generate] *)
Definition post_generate (body : GenerateBody) (fs : Fs.t) : response * Fs.t :=
  let uploadedFilePath := Path.join uploadsDir (body_fileId body) in
  if negb (Fs.existsSync fs uploadedFilePath) then
    (ErrorJson 404 (Text upload_missing_message) None, fs)
  else
    match load_mapping fs (body_mappingId body) with
    | Throw e => (generate_reply (Throw e), fs)
    | Ok rules =>
        let '(outcome, fs') :=
          convertToStandardFormat host fs uploadedFilePath templatePath rules in
        (generate_reply outcome, fs')
    end.

Definition file_missing_message : jsstring := js "파일을 찾을 수 없습니다.".
Definition download_failed_message : jsstring := js "파일 다운로드 중 오류가 발생했습니다.".

(** A dot file, which [res.download] does not send: with the options of
    the route ([dotfiles] left out) a path is refused when the name of its
    last segment starts with a dot. *)
Definition is_dot_file (p : Path.t) : bool :=
  match last (Path.strip p) with
  | Some (c :: _) => c =? dot
  | _ => false
  end.

(** [GET /download/:fileName]: [res.download] sends the file under the base
    name of [fileName], and reports an error to its callback when the path
    is a dot file or there is no regular file to send. *)
Definition get_download (name : jsstring) (fs : Fs.t) : response :=
  let filePath := Path.join uploadsDir name in
  if negb (Fs.existsSync fs filePath) then
    ErrorJson 404 (Text file_missing_message) None
  else if is_dot_file filePath then
    ErrorJson 500 (Text download_failed_message) None
  else
    match Fs.readFileSync fs filePath with
    | Ok content => Attachment (Path.basename name) content
    | Throw _ => ErrorJson 500 (Text download_failed_message) None
    end.

(** *** The router as a whole *)

Inductive request :=
  | PostUpload (now random : N) (file : option Part)
  | PostMapping (createdAt : jsstring) (body : MappingBody)
  | PostGenerate (body : GenerateBody)
  | GetDownload (name : jsstring).

Definition handle (req : request) (fs : Fs.t) : response * Fs.t :=
  match req with
  | PostUpload now random file => post_upload now random file fs
  | PostMapping createdAt body => post_mapping createdAt body fs
  | PostGenerate body => post_generate body fs
  | GetDownload name => (get_download name fs, fs)
  end.

(** The responses to a sequence of requests, and the file system after. *)
Fixpoint serve (reqs : list request) (fs : Fs.t) : list response * Fs.t :=
  match reqs with
  | [] => ([], fs)
  | req :: rest =>
      let '(r, fs1) := handle req fs in
      let '(rs, fs2) := serve rest fs1 in
      (r :: rs, fs2)
  end.


End Routes.

(** ** Converter *)

Module Converter.

(** One entry of [mapping.rules]: the source field and the target position
    it is copied to. *)
Record Rule := {
  source : jsstring;
  target : jsstring
}.

Record RowError := {
  rowIndex : nat;
  reason : jsstring
}.

Record Conversion := {
  written : list RowData;
  processedRows : nat;
  errors : list RowError
}.

(** Modelled from the spec: the module [utils/converter] is not part of
    the sources. One source row is mapped by copying, for each rule in
    turn, the value found under the source field to the target position;
    the row cannot be mapped when a source field of a rule is absent from
    it, and the absent field is the reason. *)
Fixpoint map_row (rules : list Rule) (row : RowData) (out : RowData)
    : jsstring + RowData :=
  match rules with
  | [] => inr out
  | rule :: rest =>
      match row !! source rule with
      | Some v => map_row rest row (<[target rule := v]> out)
      | None => inl (source rule)
      end
  end.

(** Modelled from the spec: the rows are processed in order, from row 1;
    a row that cannot be mapped is recorded in the error list with its
    1-based index and the reason, and processing continues with the next
    row. *)
Fixpoint convert_from (rules : list Rule) (rows : list RowData) (index : nat)
    (acc : Conversion) : Conversion :=
  match rows with
  | [] => acc
  | row :: rest =>
      convert_from rules rest (S index)
        match map_row rules row ∅ with
        | inr out =>
            {| written := written acc ++ [out];
               processedRows := S (processedRows acc);
               errors := errors acc |}
        | inl why =>
            {| written := written acc;
               processedRows := processedRows acc;
               errors := errors acc ++ [{| rowIndex := index; reason := why |}] |}
        end
  end.

(** Modelled from the spec: the conversion of all source rows, the part of
    [convert] that maps rows and counts. *)
Definition convert (rules : list Rule) (rows : list RowData) : Conversion :=
  convert_from rules rows 1 {| written := []; processedRows := 0; errors := [] |}.

(** A row lacks a required source field. *)
Definition lacks_field (rules : list Rule) (row : RowData) : Prop :=
  ∃ rule, rule ∈ rules ∧ row !! source rule = None.

Definition complete (rules : list Rule) (row : RowData) : Prop :=
  ∀ rule, rule ∈ rules → is_Some (row !! source rule).

End Converter.

(** ** A host to run the routes on *)

Module Sample.

(** *** [JSON.stringify(value, null, 2)] and [JSON.parse], for integers as
    the only numbers *)

Definition hex_digit (n : N) : N := if n <? 10 then 48 + n else 87 + n.

Definition escape_unit (c : N) : jsstring :=
  if c =? 34 then [92; 34]
  else if c =? 92 then [92; 92]
  else if c =? 8 then [92; 98]
  else if c =? 12 then [92; 102]
  else if c =? 10 then [92; 110]
  else if c =? 13 then [92; 114]
  else if c =? 9 then [92; 116]
  else if c <? 32 then [92; 117; 48; 48; hex_digit (c / 16); hex_digit (c mod 16)]
  else [c].

Definition quote (s : jsstring) : jsstring :=
  34 :: flat_map escape_unit s ++ [34].

Fixpoint join_with (sep : jsstring) (parts : list jsstring) : jsstring :=
  match parts with
  | [] => []
  | [part] => part
  | part :: rest => part ++ sep ++ join_with sep rest
  end.

Definition block (open close : N) (indent : nat) (entries : list jsstring) : jsstring :=
  match entries with
  | [] => [open; close]
  | _ =>
      [open; 10]
      ++ join_with [comma; 10] (List.map (fun e => repeat 32 (2 + indent)%nat ++ e) entries)
      ++ [10] ++ repeat 32 indent ++ [close]
  end.

Fixpoint stringify_at (indent : nat) (v : json) : jsstring :=
  match v with
  | JNull => js "null"
  | JBool true => js "true"
  | JBool false => js "false"
  | JNum n => decimalZ n
  | JStr s => quote s
  | JArr items =>
      block 91 93 indent (List.map (stringify_at (2 + indent)) items)
  | JObj props =>
      block 123 125 indent
        (List.map (fun kv => quote (fst kv) ++ js ": " ++ stringify_at (2 + indent) (snd kv))
           props)
  end.

Definition stringify (v : json) : jsstring := stringify_at 0 v.

Definition is_json_space (c : N) : bool :=
  (c =? 32) || (c =? 10) || (c =? 13) || (c =? 9).

Fixpoint skip_ws (s : jsstring) : jsstring :=
  match s with
  | c :: r => if is_json_space c then skip_ws r else s
  | [] => []
  end.

Definition hex_value (c : N) : option N :=
  if (48 <=? c) && (c <=? 57) then Some (c - 48)
  else if (97 <=? c) && (c <=? 102) then Some (c - 87)
  else if (65 <=? c) && (c <=? 70) then Some (c - 55)
  else None.

(** The units of a string literal after its opening quote, and the rest. *)
Fixpoint parse_chars (s : jsstring) : option (jsstring * jsstring) :=
  match s with
  | [] => None
  | 34 :: r => Some ([], r)
  | 92 :: 117 :: a :: b :: c :: d :: r =>
      match hex_value a, hex_value b, hex_value c, hex_value d, parse_chars r with
      | Some a, Some b, Some c, Some d, Some (units, rest) =>
          Some ((((a * 16 + b) * 16 + c) * 16 + d) :: units, rest)
      | _, _, _, _, _ => None
      end
  | 92 :: e :: r =>
      let unit :=
        if e =? 34 then Some 34 else if e =? 92 then Some 92
        else if e =? 47 then Some 47 else if e =? 98 then Some 8
        else if e =? 102 then Some 12 else if e =? 110 then Some 10
        else if e =? 114 then Some 13 else if e =? 116 then Some 9
        else None in
      match unit, parse_chars r with
      | Some u, Some (units, rest) => Some (u :: units, rest)
      | _, _ => None
      end
  | c :: r =>
      if c <? 32 then None
      else match parse_chars r with
           | Some (units, rest) => Some (c :: units, rest)
           | None => None
           end
  end.

Fixpoint parse_digits (s : jsstring) (acc : N) : N * jsstring :=
  match s with
  | c :: r => if (48 <=? c) && (c <=? 57) then parse_digits r (acc * 10 + (c - 48))
              else (acc, s)
  | [] => (acc, [])
  end.

Definition is_digit (c : N) : bool := (48 <=? c) && (c <=? 57).

Fixpoint parse_value (fuel : nat) (s : jsstring) : option (json * jsstring) :=
  match fuel with
  | O => None
  | S fuel' =>
      match skip_ws s with
      | 110 :: 117 :: 108 :: 108 :: r => Some (JNull, r)
      | 116 :: 114 :: 117 :: 101 :: r => Some (JBool true, r)
      | 102 :: 97 :: 108 :: 115 :: 101 :: r => Some (JBool false, r)
      | 34 :: r =>
          match parse_chars r with
          | Some (units, rest) => Some (JStr units, rest)
          | None => None
          end
      | 91 :: r =>
          match skip_ws r with
          | 93 :: rest => Some (JArr [], rest)
          | _ => match parse_items fuel' r with
                 | Some (items, rest) => Some (JArr items, rest)
                 | None => None
                 end
          end
      | 123 :: r =>
          match skip_ws r with
          | 125 :: rest => Some (JObj [], rest)
          | _ => match parse_props fuel' r with
                 | Some (props, rest) => Some (JObj props, rest)
                 | None => None
                 end
          end
      | 45 :: c :: r =>
          if is_digit c
          then let '(n, rest) := parse_digits (c :: r) 0 in Some (JNum (- Z.of_N n), rest)
          else None
      | c :: r =>
          if is_digit c
          then let '(n, rest) := parse_digits (c :: r) 0 in Some (JNum (Z.of_N n), rest)
          else None
      | [] => None
      end
  end
with parse_items (fuel : nat) (s : jsstring) : option (list json * jsstring) :=
  match fuel with
  | O => None
  | S fuel' =>
      match parse_value fuel' s with
      | Some (v, r) =>
          match skip_ws r with
          | 44 :: r1 =>
              match parse_items fuel' r1 with
              | Some (vs, rest) => Some (v :: vs, rest)
              | None => None
              end
          | 93 :: rest => Some ([v], rest)
          | _ => None
          end
      | None => None
      end
  end
with parse_props (fuel : nat) (s : jsstring)
    : option (list (jsstring * json) * jsstring) :=
  match fuel with
  | O => None
  | S fuel' =>
      match skip_ws s with
      | 34 :: r =>
          match parse_chars r with
          | Some (key, r1) =>
              match skip_ws r1 with
              | 58 :: r2 =>
                  match parse_value fuel' r2 with
                  | Some (v, r3) =>
                      match skip_ws r3 with
                      | 44 :: r4 =>
                          match parse_props fuel' r4 with
                          | Some (kvs, rest) => Some ((key, v) :: kvs, rest)
                          | None => None
                          end
                      | 125 :: rest => Some ([(key, v)], rest)
                      | _ => None
                      end
                  | None => None
                  end
              | _ => None
              end
          | None => None
          end
      | _ => None
      end
  end.

Definition parse (s : jsstring) : result json :=
  match parse_value (2 + length s) s with
  | Some (v, rest) =>
      match skip_ws rest with
      | [] => Ok v
      | _ => Throw SyntaxError
      end
  | None => Throw SyntaxError
  end.

(** *** Collaborators *)

(** A workbook whose header row has no cell in column 2. *)
Definition gap_workbook : Excel.Workbook :=
  [ (1, [ [Excel.CString (js "id"); Excel.CNull; Excel.CString (js "qty")];
          [Excel.CNumber 1; Excel.CString (js "x"); Excel.CNumber 5] ]) ].

Definition gap_xlsx : jsstring := js "PK gap.xlsx".

Definition xlsx_reader (content : jsstring) : result Excel.Workbook :=
  if decide (content = gap_xlsx) then Ok gap_workbook
  else Throw (LibraryError (js "Can't find end of central directory")).

Definition validate (rows : list RowData) (headers : list jsstring) : json :=
  JObj [(js "isValid", JBool (bool_decide (headers ≠ [])))].

(** A converter that writes one file next to the uploaded one. *)
Definition converter (fs : Fs.t) (uploaded template : Path.t) (rules : json)
    : result ConversionResult * Fs.t :=
  match Fs.writeFileSync fs (Path.parent uploaded ++ [js "porder-1.xlsx"]) (js "PK porder") with
  | Ok fs' => (Ok {| fileName := js "porder-1.xlsx"; processedRows := JNum 0;
                     errors := JArr [] |}, fs')
  | Throw e => (Throw e, fs)
  end.

Definition host : Host :=
  {| dirname := [js "srv"; js "routes"];
     production := false;
     validateOrderData := validate;
     xlsx_load := xlsx_reader;
     JSON_stringify := stringify;
     JSON_parse := parse;
     convertToStandardFormat := converter |}.

(** The file system once the routes module is loaded. *)
Definition booted : Fs.t :=
  match load_module host ∅ with
  | Ok fs => fs
  | Throw _ => ∅
  end.

(** *** Uploads *)

Definition orders_csv : Part :=
  {| fieldname := js "orderFile";
     originalname := js "orders.csv";
     mimetype := js "text/csv";
     filesize := 15;
     data := js "id,qty" ++ [newline] ++ js "1,5" ++ [newline] ++ js "2,7" ++ [newline] |}.

Definition blank_csv : Part :=
  {| fieldname := js "orderFile";
     originalname := js "empty.CSV";
     mimetype := js "text/csv";
     filesize := 5;
     data := [32; 13; newline; 9; newline] |}.

Definition report_pdf : Part :=
  {| fieldname := js "orderFile";
     originalname := js "report.pdf";
     mimetype := js "application/pdf";
     filesize := 8;
     data := js "%PDF-1.4" |}.

Definition gap_upload : Part :=
  {| fieldname := js "orderFile";
     originalname := js "gap.xlsx";
     mimetype := js "application/vnd.openxmlformats-officedocument.spreadsheetml.sheet";
     filesize := 11;
     data := gap_xlsx |}.

(** The workbook of [gap.xlsx] under the name of a PDF. *)
Definition renamed_pdf : Part :=
  {| fieldname := js "orderFile";
     originalname := js "orders.pdf";
     mimetype := js "application/pdf";
     filesize := 11;
     data := gap_xlsx |}.

(** An upload of 11 MiB: one line of that many letters. *)
Definition big_csv : Part :=
  {| fieldname := js "orderFile";
     originalname := js "big.csv";
     mimetype := js "text/csv";
     filesize := 11 * 1024 * 1024;
     data := repeat 120 (N.to_nat (11 * 1024 * 1024)) |}.

Definition now : N := 1700000000000.
Definition random : N := 123456789.

(** [req.file] for an upload at [now] with the draw [random]. *)
Definition stored_file (part : Part) : MulterFile :=
  {| file_originalname := originalname part;
     file_filename := Multer.filename part now random;
     file_path := Path.join (uploadsDir host) (Multer.filename part now random);
     file_size := filesize part |}.

Definition stored (part : Part) (fs : Fs.t) : Fs.t :=
  <[Path.join (uploadsDir host) (Multer.filename part now random) := Fs.File (data part)]> fs.

(** The file system after [orders.csv] was uploaded. *)
Definition uploaded : Fs.t := stored orders_csv booted.

Definition generate_orders (mappingId : jsstring) : GenerateBody :=
  {| body_fileId := Multer.filename orders_csv now random;
     body_mappingId := mappingId;
     templateType := None |}.

(** *** Mappings *)

Definition created1 : jsstring := js "2025-01-01T00:00:00.000Z".
Definition created2 : jsstring := js "2025-01-02T00:00:00.000Z".


Definition shop_mapping : MappingBody :=
  {| mappingName := js "shopA";
     sourceFields := Some (JArr [JStr (js "주문번호"); JStr (js "qty")]);
     targetFields := Some (JArr [JStr (js "id"); JStr (js "수량")]);
     mappingRules := Some (JObj [(js "id", JStr (js "주문번호")); (js "수량", JStr (js "qty"))]) |}.

Definition shop_mapping2 : MappingBody :=
  {| mappingName := js "shopA";
     sourceFields := Some (JArr [JStr (js "qty")]);
     targetFields := Some (JArr [JStr (js "수량")]);
     mappingRules := None |}.

(** *** Source rows for a conversion *)

Definition order_rules : list Converter.Rule :=
  [ {| Converter.source := js "id"; Converter.target := js "주문번호" |};
    {| Converter.source := js "qty"; Converter.target := js "수량" |} ].

Definition order_rows : list RowData :=
  [ {[ js "id" := js "1"; js "qty" := js "5" ]};
    {[ js "id" := js "2" ]};
    {[ js "id" := js "3"; js "qty" := js "9" ]} ].

End Sample.

(** ** Further cases to run the routes on *)

Module Cases.

(** A workbook whose only worksheet has the id 2. *)
Definition sheetless_workbook : Excel.Workbook :=
  [ (2, [ [Excel.CString (js "id")]; [Excel.CNumber 1] ]) ].

(** A host whose workbook reader finds [sheetless_workbook] in any file. *)
Definition sheetless_host : Host :=
  {| dirname := [js "srv"; js "routes"];
     production := false;
     validateOrderData := Sample.validate;
     xlsx_load := fun _ => Ok sheetless_workbook;
     JSON_stringify := Sample.stringify;
     JSON_parse := Sample.parse;
     convertToStandardFormat := Sample.converter |}.

(** A header row in which column 2 holds the empty string and column 3 the
    number 0. *)
Definition falsy_row : Excel.Row :=
  [Excel.CString (js "id"); Excel.CString []; Excel.CNumber 0; Excel.CNull;
   Excel.CString (js "qty")].

(** A text made of lines, each followed by the line terminator [eol]. *)
Definition text_of (eol : jsstring) (lines : list jsstring) : jsstring :=
  flat_map (fun line => line ++ eol) lines.

(** The number of commas of a line. *)
Definition commas (line : jsstring) : nat :=
  length (filter (fun c => c = comma) line).

(** What the loop of [path.extname] has established about [p] once the
    units from index [n] on are scanned: the end of the last component, the
    units without a slash before it, and the place of the dot. *)
Definition ext_scanned (p : jsstring) (n : nat) (st : Path.ext_state) : Prop :=
  match Path.end_ st with
  | None => Path.startDot st = None ∧ Path.matchedSlash st = true
  | Some e =>
      Path.matchedSlash st = false
      ∧ (n < e)%nat
      ∧ (∀ j, n ≤ j < e → p !! j ≠ Some slash)%nat
      ∧ (∀ sd, Path.startDot st = Some sd → n ≤ sd < e)%nat
  end.

(** A CSV file whose second column has the header [__proto__]. *)
Definition proto_csv : Part :=
  {| fieldname := js "orderFile";
     originalname := js "proto.csv";
     mimetype := js "text/csv";
     filesize := 17;
     data := js "id,__proto__" ++ [newline] ++ js "1,2" ++ [newline] |}.

(** A CSV file whose first and third column have the header [__proto__]. *)
Definition repeated_proto_csv : Part :=
  {| fieldname := js "orderFile";
     originalname := js "proto2.csv";
     mimetype := js "text/csv";
     filesize := 30;
     data := js "__proto__,qty,__proto__" ++ [newline] ++ js "1,5,9" ++ [newline] |}.

(** A CSV file whose first and third column have the header [id], with a
    row that has both cells and a row that ends after the second. *)
Definition repeated_csv : Part :=
  {| fieldname := js "orderFile";
     originalname := js "repeat.csv";
     mimetype := js "text/csv";
     filesize := 20;
     data := js "id,qty,id" ++ [newline] ++ js "1,5,9" ++ [newline]
             ++ js "2,7" ++ [newline] |}.

(** A workbook whose header row names a column [__proto__] and whose data
    row holds the number 10^21. *)
Definition proto_workbook : Excel.Workbook :=
  [ (1, [ [Excel.CString (js "id"); Excel.CString (js "__proto__");
           Excel.CString (js "qty")];
          [Excel.CNumber 1; Excel.CString (js "x");
           Excel.CNumber 1000000000000000000000] ]) ].

(** A host whose workbook reader finds [proto_workbook] in any file. *)
Definition proto_host : Host :=
  {| dirname := [js "srv"; js "routes"];
     production := false;
     validateOrderData := Sample.validate;
     xlsx_load := fun _ => Ok proto_workbook;
     JSON_stringify := Sample.stringify;
     JSON_parse := Sample.parse;
     convertToStandardFormat := Sample.converter |}.

(** The file system after [orders.csv] was uploaded, with the dot file
    [.env] in the uploads directory. *)
Definition dotted_fs : Fs.t :=
  <[uploadsDir Sample.host ++ [js ".env"] := Fs.File (js "KEY=1")]> Sample.uploaded.

(** The file system after [orders.csv] was uploaded, with a record for the
    mapping [bad] that is not a JSON document. *)
Definition corrupt_fs : Fs.t :=
  <[mapping_file Sample.host (js "bad") := Fs.File (js "{oops")]> Sample.uploaded.

End Cases.

(** * Properties *)

(** ** Building a row object *)

Lemma assign_lookup (rowData : RowData) (name value h : jsstring) :
  Reader.assign rowData name value !! h
  = if decide (h = name ∧ name ≠ js "__proto__") then Some value else rowData !! h.
Proof.
  unfold Reader.assign.
  destruct (decide (name = js "__proto__")) as [Hproto|Hproto].
  - by rewrite decide_False by (intros [_ Hne]; done).
  - destruct (decide (h = name)) as [->|Hne].
    + rewrite decide_True by done. apply lookup_insert_eq.
    + rewrite decide_False by (intros [Heq _]; done).
      by apply lookup_insert_ne.
Qed.

Section RowObject.

Context (cell : nat -> jsstring).

(** The own keys of a row object: the headers other than [__proto__]. *)
Lemma forEach_assign_dom (headers : list jsstring) (index : nat) (rowData : RowData) :
  dom (Reader.forEach_assign cell headers index rowData)
  = list_to_set (filter (fun h => h ≠ js "__proto__") headers) ∪ dom rowData.
Proof.
  revert index rowData.
  induction headers as [|header rest IH]; intros index rowData; simpl.
  - set_solver.
  - rewrite IH. unfold Reader.assign.
    destruct (decide (header = js "__proto__")) as [Hproto|Hproto].
    + by rewrite filter_cons_False by (intros Hne; done).
    + rewrite filter_cons_True by done. rewrite dom_insert_L. set_solver.
Qed.

Lemma forEach_assign_other (headers : list jsstring) (index : nat) (rowData : RowData) h :
  h ∉ headers →
  Reader.forEach_assign cell headers index rowData !! h = rowData !! h.
Proof.
  revert index rowData.
  induction headers as [|header rest IH]; intros index rowData Hnot; simpl.
  - done.
  - rewrite IH by set_solver. rewrite assign_lookup.
    apply decide_False. intros [-> _]. set_solver.
Qed.

(** No header makes an entry under [__proto__]. *)
Lemma forEach_assign_proto (headers : list jsstring) (index : nat) (rowData : RowData) :
  Reader.forEach_assign cell headers index rowData !! js "__proto__"
  = rowData !! js "__proto__".
Proof.
  revert index rowData.
  induction headers as [|header rest IH]; intros index rowData; simpl; [done|].
  rewrite IH, assign_lookup. apply decide_False. intros [-> Hne]. done.
Qed.

(** The value under a name is the cell of its last position. *)
Lemma forEach_assign_last (headers : list jsstring) (index : nat) (rowData : RowData) h i :
  h ≠ js "__proto__" →
  headers !! i = Some h →
  (∀ j, i < j → headers !! j ≠ Some h)%nat →
  Reader.forEach_assign cell headers index rowData !! h = Some (cell (index + i)%nat).
Proof.
  intros Hproto. revert index rowData i.
  induction headers as [|header rest IH]; intros index rowData i Hi Hlast; simpl.
  - done.
  - destruct i as [|i]; simpl in Hi.
    + injection Hi as ->.
      rewrite forEach_assign_other.
      * rewrite assign_lookup, decide_True by done. f_equal. f_equal. lia.
      * intros [j Hj]%list_elem_of_lookup.
        apply (Hlast (S j)); [lia | done].
    + rewrite (IH (S index) _ i Hi).
      * f_equal. f_equal. lia.
      * intros j Hj. apply (Hlast (S j)). lia.
Qed.

End RowObject.

Lemma size_add_le (x : jsstring) (X : gset jsstring) :
  (size ({[x]} ∪ X) ≤ S (size X))%nat.
Proof.
  rewrite size_union_alt, size_singleton.
  pose proof (subseteq_size (X ∖ {[x]}) X ltac:(set_solver)). lia.
Qed.

Lemma list_to_set_size_le (l : list jsstring) :
  (size (list_to_set l : gset jsstring) ≤ length l)%nat.
Proof.
  induction l as [|x l IH].
  - rewrite list_to_set_nil, size_empty. simpl. lia.
  - rewrite list_to_set_cons. simpl.
    pose proof (size_add_le x (list_to_set l)). lia.
Qed.

(** A name at two positions makes the set of names smaller than the list. *)
Lemma list_to_set_size_lt (l : list jsstring) i j h :
  (i < j)%nat → l !! i = Some h → l !! j = Some h →
  (size (list_to_set l : gset jsstring) < length l)%nat.
Proof.
  revert i j. induction l as [|x l IH]; intros i j Hij Hi Hj; [done|].
  rewrite list_to_set_cons. simpl.
  destruct j as [|j]; [lia|]. simpl in Hj.
  destruct i as [|i]; simpl in Hi.
  - injection Hi as ->.
    assert (h ∈ (list_to_set l : gset jsstring)) as Hin.
    { apply elem_of_list_to_set, list_elem_of_lookup. eauto. }
    replace ({[h]} ∪ list_to_set l : gset jsstring) with (list_to_set l : gset jsstring)
      by set_solver.
    pose proof (list_to_set_size_le l). lia.
  - pose proof (IH i j ltac:(lia) Hi Hj) as Hlt.
    pose proof (size_add_le x (list_to_set l)). lia.
Qed.

Lemma slice_length {A} (from to : nat) (l : list A) :
  length (Reader.slice from to l) = Nat.min (to - from) (length l - from).
Proof. unfold Reader.slice. by rewrite length_take, length_drop. Qed.

Lemma slice_lookup {A} (from to : nat) (l : list A) k :
  (k < to - from)%nat → Reader.slice from to l !! k = l !! (from + k)%nat.
Proof. intros Hk. unfold Reader.slice. by rewrite lookup_take_lt, lookup_drop. Qed.

(** ** The CSV reader *)

Lemma csv_row_dom (headers : list jsstring) (line : jsstring) :
  dom (Reader.csv_row headers line)
  = list_to_set (filter (fun h => h ≠ js "__proto__") headers).
Proof.
  unfold Reader.csv_row. rewrite forEach_assign_dom, dom_empty_L. set_solver.
Qed.

(** [values[index] || '']: the value, the empty string when there is none. *)
Lemma value_or_empty_default (values : list jsstring) (i : nat) :
  Reader.value_or_empty values i = default [] (values !! i).
Proof.
  unfold Reader.value_or_empty. destruct (values !! i) as [v|]; [|done].
  simpl. destruct (decide (truthy v)) as [|Hempty]; [done|].
  destruct v as [|c v]; [done|]. exfalso. by apply Hempty.
Qed.

Lemma csv_row_last (headers : list jsstring) (line : jsstring) h i :
  h ≠ js "__proto__" →
  headers !! i = Some h →
  (∀ j, i < j → headers !! j ≠ Some h)%nat →
  Reader.csv_row headers line !! h
  = Some (default [] (map trim (split comma line) !! i)).
Proof.
  intros Hproto Hi Hlast. unfold Reader.csv_row.
  by rewrite (forEach_assign_last _ headers 0 ∅ h i Hproto Hi Hlast),
    value_or_empty_default.
Qed.

Lemma csv_row_size (headers : list jsstring) (line : jsstring) :
  (size (Reader.csv_row headers line)
   ≤ size (list_to_set headers : gset jsstring))%nat.
Proof.
  rewrite <- size_dom, csv_row_dom. apply subseteq_size.
  intros h. rewrite !elem_of_list_to_set, list_elem_of_filter. tauto.
Qed.

Lemma csv_preview_headers (csvData : jsstring) :
  fst (Reader.csv_preview csvData) = Reader.csv_headers csvData.
Proof.
  unfold Reader.csv_preview, Reader.csv_headers.
  by destruct (Reader.csv_lines csvData).
Qed.

Lemma csv_preview_length (csvData : jsstring) :
  length (snd (Reader.csv_preview csvData))
  = Nat.min (length (Reader.csv_lines csvData) - 1) 20.
Proof.
  unfold Reader.csv_preview.
  destruct (Reader.csv_lines csvData) as [|first rest] eqn:Hlines; simpl snd.
  - reflexivity.
  - rewrite length_map, slice_length. lia.
Qed.

(** Preview row [k] is made from line [k + 1]. *)
Lemma csv_preview_row (csvData : jsstring) (k : nat) (row : RowData) :
  snd (Reader.csv_preview csvData) !! k = Some row →
  ∃ line, Reader.csv_lines csvData !! S k = Some line
          ∧ row = Reader.csv_row (Reader.csv_headers csvData) line.
Proof.
  unfold Reader.csv_preview, Reader.csv_headers.
  destruct (Reader.csv_lines csvData) as [|first rest] eqn:Hlines; simpl snd.
  - by rewrite lookup_nil.
  - rewrite list_lookup_fmap. intros Hrow.
    destruct (Reader.slice 1 21 (first :: rest) !! k) as [line|] eqn:Hline;
      [|done].
    injection Hrow as <-. exists line. split; [|done].
    assert (k < 21 - 1)%nat as Hk.
    { apply lookup_lt_Some in Hline. rewrite slice_length in Hline. lia. }
    by rewrite slice_lookup in Hline.
Qed.

(** ** Reading what was written *)

Lemma node_at_root (fs : Fs.t) : Fs.node_at fs [] = Some Fs.Dir.
Proof. reflexivity. Qed.

Lemma node_at_insert (fs : Fs.t) (p : Path.t) (n : Fs.node) :
  Fs.valid p = true → Path.has_trailing_slash p = false → p ≠ [] →
  Fs.node_at (<[p := n]> fs) p = Some n.
Proof.
  intros Hvalid Hslash Hne. unfold Fs.node_at. rewrite Hvalid, Hslash. simpl.
  destruct p; [done|]. apply lookup_insert_eq.
Qed.

Lemma write_then_read (fs fs' : Fs.t) (p : Path.t) (text : jsstring) :
  Fs.writeFileSync fs p text = Ok fs' →
  fs' = <[p := Fs.File text]> fs
  ∧ Fs.existsSync fs' p = true
  ∧ Fs.readFileSync fs' p = Ok text.
Proof.
  unfold Fs.writeFileSync.
  destruct (Fs.valid p) eqn:Hvalid; [|done].
  destruct (Path.has_trailing_slash p) eqn:Hslash; [done|]. simpl.
  destruct (decide (p = [])) as [->|Hne]; [done|].
  assert (∀ fs1, fs1 = <[p := Fs.File text]> fs →
            fs1 = <[p := Fs.File text]> fs
            ∧ Fs.existsSync fs1 p = true ∧ Fs.readFileSync fs1 p = Ok text) as Hdone.
  { intros fs1 ->. unfold Fs.existsSync, Fs.readFileSync.
    rewrite Hvalid, (node_at_insert fs p _ Hvalid Hslash Hne). done. }
  destruct (Fs.node_at fs p) as [[|]|];
    destruct (Fs.node_at fs (Path.parent p)) as [[|]|]; try done;
    intros [= <-]; by apply Hdone.
Qed.

(** ** The upload middleware *)

(** What the middleware stored is what the handler reads. *)
Lemma single_stored opts name destination now random part fs file fs' :
  Multer.single opts name destination now random (Some part) fs = Ok (Some file, fs') →
  Fs.readFileSync fs' (file_path file) = Ok (data part)
  ∧ file_originalname file = originalname part
  ∧ file_filename file = Multer.filename part now random
  ∧ file_path file = Path.join destination (Multer.filename part now random).
Proof.
  unfold Multer.single, bind.
  destruct (decide (originalname part = [])); [done|].
  destruct (decide (fieldname part = name)); [|done].
  destruct (Multer.fileFilter opts part); [|done].
  destruct (Multer.exceeds _ _); [done|].
  destruct (Fs.writeFileSync _ _ _) as [fs1|] eqn:Hwrite; [|done].
  intros [= <- <-]. simpl.
  by destruct (write_then_read _ _ _ _ Hwrite) as (_ & _ & ->).
Qed.

Section UploadRoute.

Context (host : Host).

Lemma upload_handler_csv fs file csvData :
  toLowerCase (Path.extname (file_originalname file)) = js ".csv" →
  Fs.readFileSync fs (file_path file) = Ok csvData →
  upload_handler host fs (Some file)
  = UploadJson
      {| success := true;
         upload_fileName := file_originalname file;
         fileId := file_filename file;
         headers := fst (Reader.csv_preview csvData);
         previewData := snd (Reader.csv_preview csvData);
         totalRows := length (snd (Reader.csv_preview csvData));
         validation := validateOrderData host (snd (Reader.csv_preview csvData))
                         (fst (Reader.csv_preview csvData));
         upload_message := uploaded_message (length (snd (Reader.csv_preview csvData))) |}.
Proof.
  intros Hext Hread. unfold upload_handler, read_preview.
  rewrite Hext. rewrite decide_True by done.
  rewrite Hread. simpl. by destruct (Reader.csv_preview csvData).
Qed.

(** A stored CSV upload is answered with the preview of its data. *)
Lemma post_upload_csv now random part fs file fs' :
  toLowerCase (Path.extname (originalname part)) = js ".csv" →
  Multer.single upload (js "orderFile") (uploadsDir host) now random (Some part) fs
    = Ok (Some file, fs') →
  ∃ r, post_upload host now random (Some part) fs = (UploadJson r, fs')
       ∧ success r = true
       ∧ headers r = Reader.csv_headers (data part)
       ∧ previewData r = snd (Reader.csv_preview (data part))
       ∧ totalRows r = length (previewData r).
Proof.
  intros Hext Hstore.
  destruct (single_stored _ _ _ _ _ _ _ _ _ Hstore) as (Hread & Hname & _ & _).
  unfold post_upload, post_upload_with. rewrite Hstore.
  rewrite (upload_handler_csv fs' file (data part)); [|by rewrite Hname|done].
  eexists. split; [reflexivity|]. simpl.
  by rewrite csv_preview_headers.
Qed.

Lemma post_upload_csv_id now random part fs file fs' :
  toLowerCase (Path.extname (originalname part)) = js ".csv" →
  Multer.single upload (js "orderFile") (uploadsDir host) now random (Some part) fs
    = Ok (Some file, fs') →
  ∃ r, post_upload host now random (Some part) fs = (UploadJson r, fs')
       ∧ fileId r = Multer.filename part now random.
Proof.
  intros Hext Hstore.
  destruct (single_stored _ _ _ _ _ _ _ _ _ Hstore) as (Hread & Hname & Hid & _).
  unfold post_upload, post_upload_with. rewrite Hstore.
  rewrite (upload_handler_csv fs' file (data part)); [|by rewrite Hname|done].
  eexists. split; [reflexivity|]. done.
Qed.

End UploadRoute.

(** ** Preview of a CSV upload *)

(** C1 on the code: the header line [id,__proto__] gives two headers, but
    the preview row of the line [1,2] has the key [id] only. The assignment
    under the name [__proto__] reaches the accessor that the row object
    inherits and makes no entry, so the key set of the row is not the header
    list. *)
Lemma proto_header_makes_no_key :
  let answer := upload_result (fst (post_upload Sample.host Sample.now Sample.random
                                      (Some Cases.proto_csv) Sample.booted)) in
  headers <$> answer = Some [js "id"; js "__proto__"]
  ∧ previewData <$> answer = Some [ {[ js "id" := js "1" ]} ]
  ∧ dom ({[ js "id" := js "1" ]} : RowData)
    ≠ list_to_set [js "id"; js "__proto__"].
Proof.
  split; [reflexivity|]. split; [reflexivity|].
  intros Heq.
  assert (js "__proto__" ∈ dom ({[ js "id" := js "1" ]} : RowData)) as Hin
    by (rewrite Heq; set_solver).
  rewrite dom_singleton_L in Hin. apply elem_of_singleton in Hin.
  vm_compute in Hin. discriminate Hin.
Qed.

(** X28. A CSV upload that the middleware stored, with N lines after the
    header line among its lines that are not blank, is answered with a
    preview of min(N, 20) rows; the header list is the first such line split
    on commas with the values trimmed; the keys of every preview row are
    exactly the headers other than [__proto__]; and such a header whose cell
    is absent from the end of the line has the empty string as its value. *)
Theorem csv_upload_preview (host : Host) now random part fs file fs' :
  toLowerCase (Path.extname (originalname part)) = js ".csv" →
  Multer.single upload (js "orderFile") (uploadsDir host) now random (Some part) fs
    = Ok (Some file, fs') →
  ∃ r, post_upload host now random (Some part) fs = (UploadJson r, fs')
    ∧ length (previewData r)
      = Nat.min (length (Reader.csv_lines (data part)) - 1) 20
    ∧ headers r = Reader.csv_headers (data part)
    ∧ ∀ k row, previewData r !! k = Some row →
        dom row = list_to_set (filter (fun h => h ≠ js "__proto__") (headers r))
        ∧ ∃ line, Reader.csv_lines (data part) !! S k = Some line
            ∧ ∀ i h, headers r !! i = Some h →
                h ≠ js "__proto__" →
                (∀ j, i < j → headers r !! j ≠ Some h)%nat →
                (length (split comma line) ≤ i)%nat →
                row !! h = Some [].
Proof.
  intros Hext Hstore.
  destruct (post_upload_csv host _ _ _ _ _ _ Hext Hstore)
    as (r & Hr & _ & Hheaders & Hrows & _).
  exists r. split; [done|]. rewrite Hrows, Hheaders.
  split; [apply csv_preview_length|]. split; [done|].
  intros k row Hrow.
  destruct (csv_preview_row _ _ _ Hrow) as (line & Hline & ->).
  split; [apply csv_row_dom|].
  exists line. split; [done|].
  intros i h Hi Hproto Hlast Hshort.
  rewrite (csv_row_last _ line h i Hproto Hi Hlast).
  by rewrite lookup_ge_None_2 by (by rewrite length_map).
Qed.

Lemma csv_upload_preview_witness :
  toLowerCase (Path.extname (originalname Sample.orders_csv)) = js ".csv"
  ∧ Multer.single upload (js "orderFile") (uploadsDir Sample.host) Sample.now
      Sample.random (Some Sample.orders_csv) Sample.booted
    = Ok (Some (Sample.stored_file Sample.orders_csv),
          Sample.stored Sample.orders_csv Sample.booted)
  ∧ ∃ r, post_upload Sample.host Sample.now Sample.random (Some Sample.orders_csv)
           Sample.booted
         = (UploadJson r, Sample.stored Sample.orders_csv Sample.booted)
       ∧ length (previewData r) = 2%nat
       ∧ headers r = [js "id"; js "qty"].
Proof.
  assert (toLowerCase (Path.extname (originalname Sample.orders_csv)) = js ".csv")
    as Hext by (reflexivity).
  assert (Multer.single upload (js "orderFile") (uploadsDir Sample.host) Sample.now
            Sample.random (Some Sample.orders_csv) Sample.booted
          = Ok (Some (Sample.stored_file Sample.orders_csv),
                Sample.stored Sample.orders_csv Sample.booted))
    as Hstore by (reflexivity).
  split; [exact Hext|]. split; [exact Hstore|].
  destruct (csv_upload_preview Sample.host _ _ _ _ _ _ Hext Hstore)
    as (r & Hr & Hlen & Hheaders & _).
  exists r. split; [exact Hr|]. split.
  - rewrite Hlen. reflexivity.
  - rewrite Hheaders. reflexivity.
Defined.

(** The scenario of [orders.csv]: header [id,qty] and rows [1,5] and
    [2,7]. *)
Example orders_csv_scenario :
  let answer := upload_result (fst (post_upload Sample.host Sample.now Sample.random
                                      (Some Sample.orders_csv) Sample.booted)) in
  headers <$> answer = Some [js "id"; js "qty"]
  ∧ previewData <$> answer
    = Some [ {[ js "id" := js "1"; js "qty" := js "5" ]};
             {[ js "id" := js "2"; js "qty" := js "7" ]} ]
  ∧ totalRows <$> answer = Some 2%nat.
Proof. repeat split; reflexivity. Qed.

Lemma csv_lines_blank (csvData : jsstring) :
  Forall (fun line => trim line = []) (split newline csvData) →
  Reader.csv_lines csvData = [].
Proof.
  intros Hblank. unfold Reader.csv_lines.
  induction Hblank as [|line lines Hline _ IH]; [done|].
  rewrite filter_cons_False; [done|]. unfold truthy. intros Hne. by apply Hne.
Qed.

(** C9. A CSV upload that the middleware stored and in which every line is
    blank is answered with success: the success flag is true, the header
    list and the preview are empty, and totalRows is 0. *)
Theorem blank_csv_upload_succeeds (host : Host) now random part fs file fs' :
  toLowerCase (Path.extname (originalname part)) = js ".csv" →
  Multer.single upload (js "orderFile") (uploadsDir host) now random (Some part) fs
    = Ok (Some file, fs') →
  Forall (fun line => trim line = []) (split newline (data part)) →
  ∃ r, post_upload host now random (Some part) fs = (UploadJson r, fs')
    ∧ success r = true
    ∧ headers r = []
    ∧ previewData r = []
    ∧ totalRows r = 0%nat.
Proof.
  intros Hext Hstore Hblank.
  destruct (post_upload_csv host _ _ _ _ _ _ Hext Hstore)
    as (r & Hr & Hok & Hheaders & Hrows & Htotal).
  exists r. split; [done|]. split; [done|].
  apply csv_lines_blank in Hblank.
  unfold Reader.csv_headers, Reader.csv_preview in *. rewrite Hblank in *.
  simpl in Hrows. rewrite Htotal, Hrows. done.
Qed.

Lemma blank_csv_upload_succeeds_witness :
  ∃ r, post_upload Sample.host Sample.now Sample.random (Some Sample.blank_csv)
         Sample.booted
       = (UploadJson r, Sample.stored Sample.blank_csv Sample.booted)
     ∧ success r = true ∧ headers r = [] ∧ previewData r = [] ∧ totalRows r = 0%nat.
Proof.
  apply (blank_csv_upload_succeeds Sample.host Sample.now Sample.random
           Sample.blank_csv Sample.booted (Sample.stored_file Sample.blank_csv)).
  - reflexivity.
  - reflexivity.
  - vm_compute. repeat constructor.
Defined.

(** C10 on the code: the header line [__proto__,qty,__proto__] names a
    column twice, but the preview row of the line [1,5,9] has no entry for
    that name, where the claim expects one entry with the value [9]: neither
    assignment under [__proto__] makes an entry. *)
Lemma repeated_proto_header_has_no_entry :
  let answer := upload_result (fst (post_upload Sample.host Sample.now Sample.random
                                      (Some Cases.repeated_proto_csv) Sample.booted)) in
  headers <$> answer = Some [js "__proto__"; js "qty"; js "__proto__"]
  ∧ previewData <$> answer = Some [ {[ js "qty" := js "5" ]} ]
  ∧ ({[ js "qty" := js "5" ]} : RowData) !! js "__proto__" = None.
Proof. repeat split; reflexivity. Qed.

(** X29. When a header name other than [__proto__] stands at two or more
    positions of the header line of a stored CSV upload, every preview row
    has one entry for that name; its value is the trimmed cell at the last
    of these positions, the empty string when the line has no such cell; and
    the row has fewer entries than the header list has names. *)
Theorem csv_duplicate_header_last_wins (host : Host) now random part fs file fs'
    (i j : nat) (h : jsstring) :
  toLowerCase (Path.extname (originalname part)) = js ".csv" →
  Multer.single upload (js "orderFile") (uploadsDir host) now random (Some part) fs
    = Ok (Some file, fs') →
  h ≠ js "__proto__" →
  (i < j)%nat →
  Reader.csv_headers (data part) !! i = Some h →
  Reader.csv_headers (data part) !! j = Some h →
  (∀ j', j < j' → Reader.csv_headers (data part) !! j' ≠ Some h)%nat →
  ∃ r, post_upload host now random (Some part) fs = (UploadJson r, fs')
    ∧ headers r = Reader.csv_headers (data part)
    ∧ ∀ k row, previewData r !! k = Some row →
        ∃ line, Reader.csv_lines (data part) !! S k = Some line
          ∧ row !! h = Some (default [] (map trim (split comma line) !! j))
          ∧ (size row < length (headers r))%nat.
Proof.
  intros Hext Hstore Hproto Hij Hi Hj Hlast.
  destruct (post_upload_csv host _ _ _ _ _ _ Hext Hstore)
    as (r & Hr & _ & Hheaders & Hrows & _).
  exists r. split; [done|]. split; [done|].
  rewrite Hrows, Hheaders. intros k row Hrow.
  destruct (csv_preview_row _ _ _ Hrow) as (line & Hline & ->).
  exists line. split; [done|]. split.
  - by apply csv_row_last.
  - pose proof (csv_row_size (Reader.csv_headers (data part)) line) as Hle.
    pose proof (list_to_set_size_lt _ i j h Hij Hi Hj) as Hlt. lia.
Qed.

Lemma csv_duplicate_header_last_wins_witness :
  ∃ r, post_upload Sample.host Sample.now Sample.random (Some Cases.repeated_csv)
         Sample.booted
       = (UploadJson r, Sample.stored Cases.repeated_csv Sample.booted)
     ∧ headers r = [js "id"; js "qty"; js "id"]
     ∧ (∀ row, previewData r !! 0%nat = Some row →
          row !! js "id" = Some (js "9") ∧ (size row < 3)%nat)
     ∧ (∀ row, previewData r !! 1%nat = Some row →
          row !! js "id" = Some [] ∧ (size row < 3)%nat).
Proof.
  destruct (csv_duplicate_header_last_wins Sample.host Sample.now Sample.random
              Cases.repeated_csv Sample.booted
              (Sample.stored_file Cases.repeated_csv)
              (Sample.stored Cases.repeated_csv Sample.booted)
              0%nat 2%nat (js "id"))
    as (r & Hr & Hheaders & Hrows).
  - reflexivity.
  - reflexivity.
  - discriminate.
  - lia.
  - reflexivity.
  - reflexivity.
  - intros j' Hj'. destruct j' as [|[|[|j']]]; try lia.
    vm_compute. discriminate.
  - exists r. split; [exact Hr|].
    assert (headers r = [js "id"; js "qty"; js "id"]) as Hh
      by (rewrite Hheaders; reflexivity).
    split; [exact Hh|]. split.
    + intros row Hrow.
      destruct (Hrows 0%nat row Hrow) as (line & Hline & Hval & Hsize).
      assert (line = js "1,5,9") as ->
        by (vm_compute in Hline; injection Hline as <-; reflexivity).
      split.
      * rewrite Hval. reflexivity.
      * rewrite Hh in Hsize. exact Hsize.
    + intros row Hrow.
      destruct (Hrows 1%nat row Hrow) as (line & Hline & Hval & Hsize).
      assert (line = js "2,7") as ->
        by (vm_compute in Hline; injection Hline as <-; reflexivity).
      split.
      * rewrite Hval. reflexivity.
      * rewrite Hh in Hsize. exact Hsize.
Defined.

(** ** The mapping store *)

Section MappingStore.

Context (host : Host).

(** A save that is answered with success has written the record. *)
Lemma post_mapping_saved createdAt body fs r fs' :
  post_mapping host createdAt body fs = (r, fs') →
  status_of r = 200 →
  ∃ fs1, Fs.writeFileSync fs1 (mapping_file host (mappingName body))
           (JSON_stringify host (mappingData createdAt body)) = Ok fs'.
Proof.
  unfold post_mapping.
  destruct (if negb (Fs.existsSync fs (mappingsDir host))
            then Fs.mkdirSync_recursive fs (mappingsDir host) else Ok fs)
    as [fs1|e]; [|by intros [= <- <-]].
  destruct (Fs.writeFileSync fs1 _ _) as [fs2|e] eqn:Hwrite;
    intros [= <- <-]; [|done].
  intros _. by exists fs1.
Qed.

(** Loading after a successful save parses what was written. *)
Lemma load_after_save createdAt body fs r fs' :
  post_mapping host createdAt body fs = (r, fs') →
  status_of r = 200 →
  load_mapping host fs' (mappingName body)
  = JSON_parse host (JSON_stringify host (mappingData createdAt body)).
Proof.
  intros Hsave Hok.
  destruct (post_mapping_saved _ _ _ _ _ Hsave Hok) as (fs1 & Hwrite).
  destruct (write_then_read _ _ _ _ Hwrite) as (_ & Hexists & Hread).
  unfold load_mapping. by rewrite Hexists, Hread.
Qed.

End MappingStore.

(** The object the mapping route serializes has the fields of the request. *)
Lemma mappingData_holds_request (createdAt : jsstring) (body : MappingBody) :
  holds_request (mappingData createdAt body) createdAt body.
Proof.
  unfold holds_request, mappingData.
  destruct (sourceFields body), (targetFields body), (mappingRules body);
    repeat split; reflexivity.
Qed.

(** C2. Saving a mapping under a name and then loading that name, as the
    generate route does, returns a definition with the name, the creation
    time, the source fields, the target fields and the rules of the request
    that saved it; and after a second save under the same name the load
    returns the definition of the second request. [JSON.parse] is taken to
    read back the documents [JSON.stringify] wrote. *)
Theorem mapping_save_load (host : Host) created1 body1 created2 body2
    fs r1 fs1 r2 fs2 :
  post_mapping host created1 body1 fs = (r1, fs1) →
  status_of r1 = 200 →
  JSON_parse host (JSON_stringify host (mappingData created1 body1))
    = Ok (mappingData created1 body1) →
  mappingName body2 = mappingName body1 →
  post_mapping host created2 body2 fs1 = (r2, fs2) →
  status_of r2 = 200 →
  JSON_parse host (JSON_stringify host (mappingData created2 body2))
    = Ok (mappingData created2 body2) →
  (∃ loaded, load_mapping host fs1 (mappingName body1) = Ok loaded
             ∧ holds_request loaded created1 body1)
  ∧ (∃ loaded, load_mapping host fs2 (mappingName body1) = Ok loaded
               ∧ holds_request loaded created2 body2).
Proof.
  intros Hsave1 Hok1 Hcodec1 Hname Hsave2 Hok2 Hcodec2. split.
  - exists (mappingData created1 body1). split.
    + by rewrite (load_after_save host _ _ _ _ _ Hsave1 Hok1).
    + apply mappingData_holds_request.
  - exists (mappingData created2 body2). split.
    + rewrite <- Hname. by rewrite (load_after_save host _ _ _ _ _ Hsave2 Hok2).
    + apply mappingData_holds_request.
Qed.

Lemma mapping_save_load_witness :
  let saved1 := post_mapping Sample.host Sample.created1 Sample.shop_mapping
                  Sample.booted in
  let saved2 := post_mapping Sample.host Sample.created2 Sample.shop_mapping2
                  (snd saved1) in
  (∃ loaded, load_mapping Sample.host (snd saved1) (js "shopA") = Ok loaded
             ∧ holds_request loaded Sample.created1 Sample.shop_mapping)
  ∧ (∃ loaded, load_mapping Sample.host (snd saved2) (js "shopA") = Ok loaded
               ∧ holds_request loaded Sample.created2 Sample.shop_mapping2).
Proof.
  intros saved1 saved2.
  apply (mapping_save_load Sample.host Sample.created1 Sample.shop_mapping
           Sample.created2 Sample.shop_mapping2 Sample.booted
           (fst saved1) (snd saved1) (fst saved2) (snd saved2)).
  - symmetry. apply surjective_pairing.
  - reflexivity.
  - reflexivity.
  - reflexivity.
  - symmetry. apply surjective_pairing.
  - reflexivity.
  - reflexivity.
Defined.

(** The scenario of the mapping [shopA]: what the generate route loads
    after the first save and after the second. *)
Example shop_mapping_scenario :
  let fs1 := snd (post_mapping Sample.host Sample.created1 Sample.shop_mapping
                    Sample.booted) in
  let fs2 := snd (post_mapping Sample.host Sample.created2 Sample.shop_mapping2 fs1) in
  load_mapping Sample.host fs1 (js "shopA")
  = Ok (JObj [ (js "name", JStr (js "shopA"));
               (js "createdAt", JStr (js "2025-01-01T00:00:00.000Z"));
               (js "sourceFields", JArr [JStr (js "주문번호"); JStr (js "qty")]);
               (js "targetFields", JArr [JStr (js "id"); JStr (js "수량")]);
               (js "rules", JObj [ (js "id", JStr (js "주문번호"));
                                   (js "수량", JStr (js "qty")) ]) ])
  ∧ load_mapping Sample.host fs2 (js "shopA")
    = Ok (JObj [ (js "name", JStr (js "shopA"));
                 (js "createdAt", JStr (js "2025-01-02T00:00:00.000Z"));
                 (js "sourceFields", JArr [JStr (js "qty")]);
                 (js "targetFields", JArr [JStr (js "수량")]) ]).
Proof. split; reflexivity. Qed.

(** ** Generating with a mapping that was never saved *)

(** C3, as stated, fails: no record exists for the mapping [nope], yet
    loading it gives the empty object and not an error, and the generate
    route goes on to the conversion and answers 200. *)
Lemma missing_mapping_is_not_an_error :
  Fs.existsSync Sample.uploaded (mapping_file Sample.host (js "nope")) = false
  ∧ load_mapping Sample.host Sample.uploaded (js "nope") = Ok (JObj [])
  ∧ status_of (fst (post_generate Sample.host (Sample.generate_orders (js "nope"))
                      Sample.uploaded)) = 200.
Proof. repeat split; reflexivity. Qed.

(** C3, amended. When no record exists for a mapping name, loading it does
    not fail: it gives the empty object, the generate route passes that to
    the converter and answers with the outcome of the conversion, which is
    never a 404. *)
Theorem missing_mapping_loads_empty (host : Host) (fs : Fs.t) (body : GenerateBody) :
  Fs.existsSync fs (mapping_file host (body_mappingId body)) = false →
  Fs.existsSync fs (Path.join (uploadsDir host) (body_fileId body)) = true →
  load_mapping host fs (body_mappingId body) = Ok (JObj [])
  ∧ post_generate host body fs
    = (let '(outcome, fs') :=
         convertToStandardFormat host fs
           (Path.join (uploadsDir host) (body_fileId body)) (templatePath host)
           (JObj []) in
       (generate_reply outcome, fs'))
  ∧ status_of (fst (post_generate host body fs)) ≠ 404.
Proof.
  intros Hmissing Hupload.
  assert (load_mapping host fs (body_mappingId body) = Ok (JObj [])) as Hload
    by (unfold load_mapping; by rewrite Hmissing).
  assert (post_generate host body fs
          = (let '(outcome, fs') :=
               convertToStandardFormat host fs
                 (Path.join (uploadsDir host) (body_fileId body)) (templatePath host)
                 (JObj []) in
             (generate_reply outcome, fs'))) as Hgen
    by (unfold post_generate; by rewrite Hupload, Hload).
  split; [done|]. split; [done|].
  rewrite Hgen.
  destruct (convertToStandardFormat host fs _ _ _) as [[converted|e] fs']; simpl; lia.
Qed.

Lemma missing_mapping_loads_empty_witness :
  load_mapping Sample.host Sample.uploaded (js "nope") = Ok (JObj [])
  ∧ status_of (fst (post_generate Sample.host (Sample.generate_orders (js "nope"))
                      Sample.uploaded)) ≠ 404.
Proof.
  destruct (missing_mapping_loads_empty Sample.host Sample.uploaded
              (Sample.generate_orders (js "nope")))
    as (Hload & _ & Hstatus).
  - reflexivity.
  - reflexivity.
  - split; [exact Hload | exact Hstatus].
Defined.

(** ** Download *)


Lemma get_download_cases (host : Host) (name : jsstring) (fs : Fs.t) :
  get_download host name fs
  = match Fs.node_at fs (Path.join (uploadsDir host) name) with
    | None => ErrorJson 404 (Text file_missing_message) None
    | Some (Fs.File content) =>
        if is_dot_file (Path.join (uploadsDir host) name)
        then ErrorJson 500 (Text download_failed_message) None
        else Attachment (Path.basename name) content
    | Some Fs.Dir => ErrorJson 500 (Text download_failed_message) None
    end.
Proof.
  unfold get_download, Fs.existsSync, Fs.readFileSync, Fs.node_at.
  destruct (Fs.valid _); simpl; [|done].
  destruct (Path.has_trailing_slash _);
    destruct (Fs.plain_node fs _) as [[|]|]; simpl; try done;
    by destruct (is_dot_file _).
Qed.

(** A dot file in the uploads directory exists for the route and is not
    sent; a name with a slash is sent under its base name. *)
Example download_of_dot_file :
  get_download Sample.host (js ".env") Cases.dotted_fs
  = ErrorJson 500 (Text download_failed_message) None
  ∧ get_download Sample.host
      (js "sub/../" ++ Multer.filename Sample.orders_csv Sample.now Sample.random)
      Sample.uploaded
    = Attachment (Multer.filename Sample.orders_csv Sample.now Sample.random)
        (data Sample.orders_csv).
Proof. split; reflexivity. Qed.

(** ** Type and size limits of an upload *)

(** The middleware of the routes asks no filter and has no size limit: it
    fails only when the file cannot be stored, or comes under another
    field. *)
Lemma routes_upload_errors destination now random part fs e :
  Multer.single upload (js "orderFile") destination now random (Some part) fs = Throw e →
  e ≠ LIMIT_FILE_SIZE ∧ ∀ message, e ≠ PlainError message.
Proof.
  unfold Multer.single, bind, upload. simpl.
  destruct (decide (originalname part = [])); [done|].
  destruct (decide _); [|by intros [= <-]].
  unfold Fs.writeFileSync.
  destruct (Fs.valid _); simpl; [|by intros [= <-]].
  destruct (Path.has_trailing_slash _); [by intros [= <-]|].
  destruct (Fs.node_at fs _) as [[|]|];
    try destruct (Fs.node_at fs (Path.parent _)) as [[|]|];
    by intros [= <-].
Qed.

(** The filter of server.js looks for [xlsx], [xls] or [csv] anywhere in the
    extension and in the declared type. *)
Example server_filter_examples :
  Server.fileFilter Sample.orders_csv = Ok tt
  ∧ Server.fileFilter Sample.gap_upload = Ok tt
  ∧ Server.fileFilter Sample.report_pdf = Throw (PlainError Server.unsupported_message)
  ∧ Server.fileFilter
      {| fieldname := js "orderFile"; originalname := js "macro.xlsm";
         mimetype := js "application/vnd.ms-excel"; filesize := 0; data := [] |}
    = Ok tt.
Proof. repeat split; reflexivity. Qed.

(** C4 on the code: [report.pdf] is not rejected by the upload route. It is
    stored and handed to the workbook reader, whose failure is answered with
    the 500 of the handler; a workbook under the name [orders.pdf] is
    answered with its preview. The [upload] of server.js, which no route
    uses, rejects both before anything is read. *)
Lemma pdf_upload_reaches_the_workbook_reader :
  fst (post_upload Sample.host Sample.now Sample.random (Some Sample.report_pdf)
         Sample.booted)
  = ErrorJson 500 (Text processing_failed_message)
      (Some (MessageOf (LibraryError (js "Can't find end of central directory"))))
  ∧ status_of (fst (post_upload Sample.host Sample.now Sample.random
                      (Some Sample.renamed_pdf) Sample.booted)) = 200
  ∧ post_upload_with Sample.host Server.upload Sample.now Sample.random
      (Some Sample.report_pdf) Sample.booted
    = (ErrorJson 500 (MessageOf (PlainError Server.unsupported_message)) None,
       Sample.booted)
  ∧ post_upload_with Sample.host Server.upload Sample.now Sample.random
      (Some Sample.renamed_pdf) Sample.booted
    = (ErrorJson 500 (MessageOf (PlainError Server.unsupported_message)) None,
       Sample.booted).
Proof. repeat split; reflexivity. Qed.

(** C5 on the code: an upload above 10 MiB (a named file in the field
    [orderFile]) is not answered with a 400 by the upload route, and when
    it is a CSV file that could be stored it is answered with its preview. The [upload] of server.js, which no route
    uses, answers it with the 400 of the error handler. *)
Theorem oversized_upload_is_not_rejected (host : Host) now random part fs :
  Server.size_limit < filesize part →
  fieldname part = js "orderFile" →
  originalname part ≠ [] →
  status_of (fst (post_upload host now random (Some part) fs)) ≠ 400
  ∧ (∀ file fs',
       toLowerCase (Path.extname (originalname part)) = js ".csv" →
       Multer.single upload (js "orderFile") (uploadsDir host) now random
         (Some part) fs = Ok (Some file, fs') →
       status_of (fst (post_upload host now random (Some part) fs)) = 200)
  ∧ (Server.fileFilter part = Ok tt →
     post_upload_with host Server.upload now random (Some part) fs
     = (ErrorJson 400 (Text Server.too_large_message) None, fs)).
Proof.
  intros Hsize Hfield Hnamed. split; [|split].
  - unfold post_upload, post_upload_with.
    destruct (Multer.single _ _ _ _ _ _ _) as [[[file|] fs1]|e] eqn:Hstore; simpl.
    + unfold upload_handler.
      destruct (read_preview host fs1 file) as [[hs rows]|e]; simpl; lia.
    + revert Hstore. unfold Multer.single, bind.
      rewrite decide_False by done.
      rewrite decide_True by done. simpl.
      by destruct (Fs.writeFileSync _ _ _).
    + destruct (routes_upload_errors _ _ _ _ _ _ Hstore) as [Hlimit _].
      destruct e; simpl; (done || lia).
  - intros file fs' Hext Hstore.
    destruct (post_upload_csv host _ _ _ _ _ _ Hext Hstore) as (r & -> & _).
    done.
  - intros Hfilter. unfold post_upload_with, Multer.single, bind.
    rewrite decide_False by done.
    rewrite decide_True by done. simpl. rewrite Hfilter.
    unfold Multer.exceeds. simpl.
    by rewrite (proj2 (N.leb_le _ _) (N.lt_le_incl _ _ Hsize)).
Qed.

Lemma oversized_upload_is_not_rejected_witness :
  Server.size_limit < filesize Sample.big_csv
  ∧ status_of (fst (post_upload Sample.host Sample.now Sample.random
                      (Some Sample.big_csv) Sample.booted)) ≠ 400
  ∧ post_upload_with Sample.host Server.upload Sample.now Sample.random
      (Some Sample.big_csv) Sample.booted
    = (ErrorJson 400 (Text Server.too_large_message) None, Sample.booted).
Proof.
  assert (Server.size_limit < filesize Sample.big_csv) as Hsize by reflexivity.
  destruct (oversized_upload_is_not_rejected Sample.host Sample.now Sample.random
              Sample.big_csv Sample.booted Hsize eq_refl ltac:(discriminate))
    as (Hstatus & _ & Hserver).
  split; [exact Hsize|]. split; [exact Hstatus|].
  apply Hserver. reflexivity.
Defined.

(** ** Headers of a workbook *)

Lemma uint_units_inj (d1 d2 : Decimal.uint) :
  uint_units d1 = uint_units d2 → d1 = d2.
Proof.
  revert d2. induction d1; intros d2; destruct d2; simpl; try discriminate;
    try reflexivity; intros [= Heq]; f_equal; by apply IHd1.
Qed.

Lemma decimal_inj (a b : N) : decimal a = decimal b → a = b.
Proof.
  unfold decimal. intros Heq%uint_units_inj.
  rewrite <- (DecimalN.Unsigned.of_to a), <- (DecimalN.Unsigned.of_to b).
  by rewrite Heq.
Qed.

(** The labels of two columns are equal only for the same column. *)
Lemma column_label_inj (a b : N) :
  Reader.column_label a = Reader.column_label b → a = b.
Proof. unfold Reader.column_label. intros Heq%app_inv_head. by apply decimal_inj. Qed.

Lemma eachCell_from_visited {A} (cells : Excel.Row) (colNumber : N)
    (f : A → Excel.CellValue → N → A) (acc : A) :
  Excel.eachCell_from cells colNumber f acc
  = fold_left (fun acc visit => f acc (snd visit) (fst visit))
      (Excel.visited_from cells colNumber) acc.
Proof.
  revert colNumber acc. induction cells as [|cell rest IH]; intros colNumber acc.
  - reflexivity.
  - simpl. rewrite IH. by destruct (Excel.is_null cell).
Qed.

Lemma fold_left_push {A B} (g : A → B) (l : list A) (acc : list B) :
  fold_left (fun acc x => acc ++ [g x]) l acc = acc ++ map g l.
Proof.
  revert acc. induction l as [|x l IH]; intros acc; simpl.
  - by rewrite app_nil_r.
  - by rewrite IH, <- app_assoc.
Qed.

(** The header list has one name for each cell the iteration visits: the
    value of the cell, or the label of its column when the value is
    falsy. *)
Lemma excel_headers_visited (row : Excel.Row) :
  Reader.excel_headers row
  = map (fun visit => if Excel.truthy (snd visit) then Excel.toString (snd visit)
                      else Reader.column_label (fst visit))
      (Excel.visited row).
Proof.
  unfold Reader.excel_headers, Excel.eachCell, Excel.visited.
  rewrite eachCell_from_visited.
  apply (fold_left_push
           (fun visit => if Excel.truthy (snd visit) then Excel.toString (snd visit)
                         else Reader.column_label (fst visit))).
Qed.

Lemma visited_from_columns (cells : Excel.Row) (colNumber k : N) cell :
  (k, cell) ∈ Excel.visited_from cells colNumber → colNumber ≤ k.
Proof.
  revert colNumber. induction cells as [|c rest IH]; intros colNumber; simpl.
  - by intros ?%elem_of_nil.
  - destruct (Excel.is_null c).
    + intros Hin%IH. lia.
    + intros [[= -> _]|Hin%IH]%elem_of_cons; lia.
Qed.

Lemma visited_from_NoDup (cells : Excel.Row) (colNumber : N) :
  NoDup (map fst (Excel.visited_from cells colNumber)).
Proof.
  revert colNumber. induction cells as [|c rest IH]; intros colNumber; simpl.
  - constructor.
  - destruct (Excel.is_null c); [apply IH|]. simpl. constructor; [|apply IH].
    intros [[k cell] [Hk Hin]]%list_elem_of_fmap. simpl in Hk. subst k.
    apply visited_from_columns in Hin. lia.
Qed.

(** A cell that is not null and whose value is falsy is given the label of
    its column, and the labels given in one header row are distinct. *)
Lemma falsy_header_cells_are_labelled (row : Excel.Row) :
  (∀ i k cell, Excel.visited row !! i = Some (k, cell) →
     Excel.truthy cell = false →
     Reader.excel_headers row !! i = Some (Reader.column_label k))
  ∧ ∀ i j k1 k2 cell1 cell2,
      Excel.visited row !! i = Some (k1, cell1) →
      Excel.visited row !! j = Some (k2, cell2) →
      i ≠ j → Reader.column_label k1 ≠ Reader.column_label k2.
Proof.
  split.
  - intros i k cell Hi Hfalsy.
    rewrite excel_headers_visited, list_lookup_fmap, Hi. simpl. by rewrite Hfalsy.
  - intros i j k1 k2 cell1 cell2 Hi Hj Hne Heq%column_label_inj. subst k2.
    apply Hne.
    apply (NoDup_lookup (map fst (Excel.visited row)) i j k1).
    + apply visited_from_NoDup.
    + by rewrite list_lookup_fmap, Hi.
    + by rewrite list_lookup_fmap, Hj.
Qed.

(** C6 on the code: the header row of [gap.xlsx] has no cell in column 2.
    The header list has no label for that column: the iteration skips the
    cell, the list is [id, qty], and the preview reads the cells of [qty]
    from column 2. *)
Lemma blank_header_cell_is_skipped :
  let answer := upload_result (fst (post_upload Sample.host Sample.now Sample.random
                                      (Some Sample.gap_upload) Sample.booted)) in
  Reader.excel_headers
    [Excel.CString (js "id"); Excel.CNull; Excel.CString (js "qty")]
  = [js "id"; js "qty"]
  ∧ Reader.column_label 2 = js "컬럼2"
  ∧ headers <$> answer = Some [js "id"; js "qty"]
  ∧ previewData <$> answer = Some [ {[ js "id" := js "1"; js "qty" := js "x" ]} ].
Proof. repeat split; reflexivity. Qed.

(** ** Conversion with a row that cannot be mapped *)

Module ConverterFacts.

Import Converter.

Lemma map_row_complete (rules : list Rule) (row out : RowData) :
  complete rules row → ∃ out', map_row rules row out = inr out'.
Proof.
  revert out. induction rules as [|rule rest IH]; intros out Hall; simpl.
  - by exists out.
  - destruct (Hall rule) as [v Hv]; [set_solver|]. rewrite Hv.
    apply IH. intros r Hr. apply Hall. set_solver.
Qed.

Lemma map_row_lacks (rules : list Rule) (row out : RowData) :
  lacks_field rules row → ∃ why, map_row rules row out = inl why.
Proof.
  revert out. induction rules as [|rule rest IH]; intros out (r & Hr & Hnone); simpl.
  - set_solver.
  - destruct (row !! source rule) as [v|] eqn:Hv; [|by eexists].
    apply IH. exists r. split; [|done].
    apply elem_of_cons in Hr as [->|Hr]; [congruence|done].
Qed.

Lemma convert_from_app (rules : list Rule) (rows1 rows2 : list RowData)
    (index : nat) (acc : Conversion) :
  convert_from rules (rows1 ++ rows2) index acc
  = convert_from rules rows2 (index + length rows1)
      (convert_from rules rows1 index acc).
Proof.
  revert index acc. induction rows1 as [|row rows1 IH]; intros index acc; simpl.
  - f_equal. lia.
  - rewrite IH. f_equal. lia.
Qed.

(** Rows that all have the fields of the rules are all written. *)
Lemma convert_from_complete (rules : list Rule) (rows : list RowData)
    (index : nat) (acc : Conversion) :
  Forall (complete rules) rows →
  ∃ outs,
    Forall2 (fun row out => map_row rules row ∅ = inr out) rows outs
    ∧ convert_from rules rows index acc
      = {| written := written acc ++ outs;
           processedRows := processedRows acc + length rows;
           errors := errors acc |}.
Proof.
  intros Hall. revert index acc.
  induction Hall as [|row rows Hrow _ IH]; intros index acc; simpl.
  - exists []. split; [constructor|].
    destruct acc; simpl. f_equal; [by rewrite app_nil_r | lia].
  - destruct (map_row_complete rules row ∅ Hrow) as [out Hout]. rewrite Hout.
    destruct (IH (S index) {| written := written acc ++ [out];
                              processedRows := S (processedRows acc);
                              errors := errors acc |}) as (outs & Houts & ->).
    exists (out :: outs). split; [by constructor|]. simpl.
    f_equal; [by rewrite <- app_assoc | lia].
Qed.

End ConverterFacts.

(** C8. When exactly one of the source rows lacks a source field that the
    rules require, the conversion counts every other row as processed,
    records one error, which carries the 1-based index of that row, and
    writes each of the other rows. *)
Theorem one_bad_row_does_not_abort (rules : list Converter.Rule)
    (rows : list RowData) (i : nat) (bad : RowData) :
  rows !! i = Some bad →
  Converter.lacks_field rules bad →
  (∀ k row, rows !! k = Some row → k ≠ i → Converter.complete rules row) →
  let result := Converter.convert rules rows in
  Converter.processedRows result = (length rows - 1)%nat
  ∧ (∃ why, Converter.errors result
            = [{| Converter.rowIndex := S i; Converter.reason := why |}])
  ∧ Forall2 (fun row out => Converter.map_row rules row ∅ = inr out)
      (delete i rows) (Converter.written result).
Proof.
  intros Hbad Hlacks Hothers result. subst result.
  rewrite <- (take_drop_middle rows i bad Hbad).
  assert (Forall (Converter.complete rules) (take i rows)) as Hbefore.
  { apply Forall_lookup. intros k row Hk.
    apply lookup_take_Some in Hk as [Hk Hlt]. apply (Hothers k row Hk). lia. }
  assert (Forall (Converter.complete rules) (drop (S i) rows)) as Hafter.
  { apply Forall_lookup. intros k row Hk.
    rewrite lookup_drop in Hk. apply (Hothers _ row Hk). lia. }
  assert (length (take i rows) = i) as Hlen.
  { apply length_take_le. apply lookup_lt_Some in Hbad. lia. }
  unfold Converter.convert.
  rewrite ConverterFacts.convert_from_app.
  destruct (ConverterFacts.convert_from_complete rules (take i rows) 1
              {| Converter.written := []; Converter.processedRows := 0;
                 Converter.errors := [] |} Hbefore) as (outs1 & Houts1 & ->).
  simpl Converter.convert_from.
  destruct (ConverterFacts.map_row_lacks rules bad ∅ Hlacks) as [why Hwhy].
  rewrite Hwhy. simpl.
  match goal with
  | |- context [Converter.convert_from rules _ ?index ?acc] =>
      destruct (ConverterFacts.convert_from_complete rules (drop (S i) rows)
                  index acc Hafter) as (outs2 & Houts2 & ->)
  end.
  simpl. rewrite Hlen. split; [|split].
  - rewrite length_app. simpl. rewrite Hlen. lia.
  - exists why. done.
  - pose proof (delete_middle (take i rows) (drop (S i) rows) bad) as Hdel.
    rewrite Hlen in Hdel. rewrite Hdel. by apply Forall2_app.
Qed.

Lemma one_bad_row_does_not_abort_witness :
  let result := Converter.convert Sample.order_rules Sample.order_rows in
  Converter.processedRows result = 2%nat
  ∧ Converter.errors result
    = [{| Converter.rowIndex := 2; Converter.reason := js "qty" |}]
  ∧ length (Converter.written result) = 2%nat.
Proof.
  destruct (one_bad_row_does_not_abort Sample.order_rules Sample.order_rows 1
              {[ js "id" := js "2" ]})
    as (Hcount & (why & Hwhy) & Hwritten).
  - reflexivity.
  - exists {| Converter.source := js "qty"; Converter.target := js "수량" |}.
    split; [|reflexivity].
    apply list_elem_of_lookup. by exists 1%nat.
  - intros k row Hk Hne rule [n Hn]%list_elem_of_lookup.
    destruct k as [|[|[|k]]]; [| lia | |done];
      injection Hk as <-;
      (destruct n as [|[|n]]; [| |done]); injection Hn as <-;
      eexists; reflexivity.
  - intros result. split; [exact Hcount|]. split; [|reflexivity].
    subst result. rewrite Hwhy. f_equal. f_equal.
    assert (Converter.reason <$> Converter.errors
              (Converter.convert Sample.order_rules Sample.order_rows)
            = [js "qty"]) as Hreason by reflexivity.
    rewrite Hwhy in Hreason. by injection Hreason.
Defined.

(** * Further properties of the routes *)

(** ** Answers of the upload route *)

Lemma routes_single_cases (destination : Path.t) (now random : N) (file : option Part)
    (fs : Fs.t) :
  Multer.single upload (js "orderFile") destination now random file fs
  = match file with
    | None => Ok (None, fs)
    | Some part =>
        if decide (originalname part = []) then Ok (None, fs)
        else if decide (fieldname part = js "orderFile") then
          match Fs.writeFileSync fs
                  (Path.join destination (Multer.filename part now random))
                  (data part) with
          | Ok fs' =>
              Ok (Some {| file_originalname := originalname part;
                          file_filename := Multer.filename part now random;
                          file_path := Path.join destination
                                         (Multer.filename part now random);
                          file_size := filesize part |}, fs')
          | Throw e => Throw e
          end
        else Throw LIMIT_UNEXPECTED_FILE
    end.
Proof.
  destruct file as [part|]; [|reflexivity]. unfold Multer.single, bind, upload. simpl.
  destruct (decide (originalname part = [])); [reflexivity|].
  destruct (decide (fieldname part = js "orderFile")); [|reflexivity].
  by destruct (Fs.writeFileSync _ _ _).
Qed.

Lemma error_handler_status (e : error) :
  status_of (Server.error_handler e) = 400 ↔ e = LIMIT_FILE_SIZE.
Proof. destruct e; simpl; split; (done || lia). Qed.

Lemma upload_handler_status (host : Host) (fs : Fs.t) (file : MulterFile) :
  status_of (upload_handler host fs (Some file)) ≠ 400.
Proof.
  unfold upload_handler.
  destruct (read_preview host fs file) as [[hs rows]|e]; simpl; lia.
Qed.

Lemma excel_preview_length (workbook : Excel.Workbook) :
  (length (snd (Reader.excel_preview workbook)) ≤ 20)%nat.
Proof.
  unfold Reader.excel_preview.
  destruct (Excel.getWorksheet workbook 1) as [ws|]; cbn [snd]; [|simpl; lia].
  rewrite length_map, length_seq. lia.
Qed.

Lemma read_preview_length (host : Host) fs file hs rows :
  read_preview host fs file = Ok (hs, rows) → (length rows ≤ 20)%nat.
Proof.
  unfold read_preview, bind.
  destruct (decide _).
  - destruct (Fs.readFileSync fs _) as [csvData|]; [|done].
    intros [= Heq]. apply (f_equal snd) in Heq. simpl in Heq. subst rows.
    rewrite csv_preview_length. lia.
  - destruct (Fs.readFileSync fs _) as [content|]; [|done].
    destruct (xlsx_load host content) as [workbook|]; [|done].
    intros [= Heq]. apply (f_equal snd) in Heq. simpl in Heq. subst rows.
    apply excel_preview_length.
Qed.

(** X1. Whatever file is uploaded, an answer of the upload route that
    carries a preview reports success, names the original file and the
    stored file, has at most 20 preview rows, reports their number as
    totalRows and in its message, and carries the validation of exactly the
    headers and rows it returns. *)
Theorem upload_answer_is_consistent (host : Host) (now random : N)
    (file : option Part) (fs : Fs.t) (r : UploadResult) (fs' : Fs.t) :
  post_upload host now random file fs = (UploadJson r, fs') →
  ∃ part, file = Some part
    ∧ success r = true
    ∧ upload_fileName r = originalname part
    ∧ fileId r = Multer.filename part now random
    ∧ totalRows r = length (previewData r)
    ∧ (totalRows r ≤ 20)%nat
    ∧ validation r = validateOrderData host (previewData r) (headers r)
    ∧ upload_message r = uploaded_message (totalRows r).
Proof.
  unfold post_upload, post_upload_with. rewrite routes_single_cases.
  destruct file as [part|]; [|done].
  destruct (decide (originalname part = [])) as [Hnameless|Hnamed]; [done|].
  destruct (decide (fieldname part = js "orderFile")) as [Hfield|Hfield];
    [|by intros [= Habs _]].
  destruct (Fs.writeFileSync _ _ _) as [fs1|err];
    [|intros [= Habs _]; by destruct err].
  unfold upload_handler. simpl.
  destruct (read_preview host fs1 _) as [[hs rows]|err] eqn:Hread; [|done].
  intros [= <- <-]. exists part. simpl.
  repeat split. exact (read_preview_length host fs1 _ hs rows Hread).
Qed.

Lemma upload_answer_is_consistent_witness :
  ∃ r, post_upload Sample.host Sample.now Sample.random (Some Sample.orders_csv)
         Sample.booted = (UploadJson r, Sample.uploaded)
     ∧ fileId r = js "orderFile-1700000000000-123456789.csv"
     ∧ totalRows r = length (previewData r)
     ∧ (totalRows r ≤ 20)%nat.
Proof.
  destruct (post_upload_csv_id Sample.host Sample.now Sample.random
              Sample.orders_csv Sample.booted
              (Sample.stored_file Sample.orders_csv) Sample.uploaded)
    as (r & Hr & _); [reflexivity .. |].
  exists r. split; [exact Hr|].
  destruct (upload_answer_is_consistent Sample.host _ _ _ _ _ _ Hr)
    as (part & [= <-] & _ & _ & Hid & Htotal & Hle & _).
  split; [rewrite Hid; reflexivity|]. split; [exact Htotal | exact Hle].
Defined.

(** X2. The upload route answers with status 400 exactly when the request
    carries no file, or a file part without a name: an actual file is never
    answered with a 400, whatever its type or size. *)
Theorem upload_400_only_without_file (host : Host) (now random : N)
    (file : option Part) (fs : Fs.t) :
  status_of (fst (post_upload host now random file fs)) = 400
  ↔ file = None ∨ ∃ part, file = Some part ∧ originalname part = [].
Proof.
  unfold post_upload, post_upload_with. rewrite routes_single_cases.
  destruct file as [part|]; [|simpl; split; [by left | done]].
  destruct (decide (originalname part = [])) as [Hname|Hname].
  { simpl. split; [|done]. intros _. right. by exists part. }
  assert (¬ (Some part = None ∨ ∃ part', Some part = Some part' ∧ originalname part' = []))
    as Hnot by (intros [?|(part' & [= <-] & ?)]; done).
  destruct (decide (fieldname part = js "orderFile")) as [Hfield|Hfield].
  - destruct (Fs.writeFileSync _ _ _) as [fs1|err] eqn:Hwrite; simpl.
    + split; [|done]. intros Habs. by apply upload_handler_status in Habs.
    + split; [|done]. intros Habs%error_handler_status. subst err.
      revert Hwrite. unfold Fs.writeFileSync.
      destruct (Fs.valid _); simpl; [|done].
      destruct (Path.has_trailing_slash _); [done|].
      destruct (Fs.node_at fs _) as [[|]|];
        try destruct (Fs.node_at fs (Path.parent _)) as [[|]|]; done.
  - simpl. split; [lia | done].
Qed.

(** X3. An upload changes the file system at one path at most: the path
    under which the uploaded file is stored, which then holds the uploaded
    data. Every other file and directory is as before. *)
Theorem upload_changes_one_path (host : Host) (now random : N)
    (file : option Part) (fs : Fs.t) (r : response) (fs' : Fs.t) (q : Path.t) :
  post_upload host now random file fs = (r, fs') →
  fs' !! q ≠ fs !! q →
  ∃ part, file = Some part
    ∧ q = Path.join (uploadsDir host) (Multer.filename part now random)
    ∧ fs' !! q = Some (Fs.File (data part)).
Proof.
  unfold post_upload, post_upload_with. rewrite routes_single_cases.
  destruct file as [part|]; [|by intros [= _ <-]].
  destruct (decide (originalname part = [])) as [Hnameless|Hnamed];
    [by intros [= _ <-]|].
  destruct (decide (fieldname part = js "orderFile")) as [Hfield|Hfield];
    [|by intros [= _ <-]].
  destruct (Fs.writeFileSync _ _ _) as [fs1|err] eqn:Hwrite;
    [|by intros [= _ <-]].
  intros [= _ <-] Hchanged. exists part. split; [done|].
  destruct (write_then_read _ _ _ _ Hwrite) as (-> & _ & _).
  destruct (decide (q = Path.join (uploadsDir host) (Multer.filename part now random)))
    as [->|Hother].
  - split; [done|]. apply lookup_insert_eq.
  - by rewrite lookup_insert_ne in Hchanged.
Qed.

Lemma upload_changes_one_path_witness :
  let q := Path.join (uploadsDir Sample.host)
             (Multer.filename Sample.orders_csv Sample.now Sample.random) in
  Sample.uploaded !! q ≠ Sample.booted !! q
  ∧ Sample.uploaded !! q = Some (Fs.File (data Sample.orders_csv)).
Proof.
  intros q.
  assert (Sample.uploaded !! q ≠ Sample.booted !! q) as Hchanged.
  { intros Heq. vm_compute in Heq. discriminate. }
  split; [exact Hchanged|].
  destruct (upload_changes_one_path Sample.host Sample.now Sample.random
              (Some Sample.orders_csv) Sample.booted
              (fst (post_upload Sample.host Sample.now Sample.random
                      (Some Sample.orders_csv) Sample.booted))
              Sample.uploaded q)
    as (part & [= <-] & _ & Hq); [reflexivity | exact Hchanged | exact Hq].
Defined.

(** ** Preview of a workbook *)

Lemma excel_row_dom (headers : list jsstring) (row : Excel.Row) :
  dom (Reader.excel_row headers row)
  = list_to_set (filter (fun h => h ≠ js "__proto__") headers).
Proof.
  unfold Reader.excel_row. rewrite forEach_assign_dom, dom_empty_L. set_solver.
Qed.

Lemma excel_preview_sheet (workbook : Excel.Workbook) (ws : Excel.Worksheet) :
  Excel.getWorksheet workbook 1 = Some ws →
  Reader.excel_preview workbook
  = (Reader.excel_headers (Excel.getRow ws 1),
     map (fun rowNumber =>
            Reader.excel_row (Reader.excel_headers (Excel.getRow ws 1))
              (Excel.getRow ws rowNumber))
       (seq 2 (Nat.min 21 (Excel.rowCount ws) - 1))).
Proof. intros Hws. unfold Reader.excel_preview. by rewrite Hws. Qed.

Section WorkbookUpload.

Context (host : Host).

(** A stored upload that is not a CSV file and that the workbook reader
    accepts is answered with the preview of the workbook. *)
Lemma post_upload_excel (now random : N) (part : Part) (fs : Fs.t)
    (file : MulterFile) (fs' : Fs.t) (workbook : Excel.Workbook) :
  toLowerCase (Path.extname (originalname part)) ≠ js ".csv" →
  Multer.single upload (js "orderFile") (uploadsDir host) now random (Some part) fs
    = Ok (Some file, fs') →
  xlsx_load host (data part) = Ok workbook →
  ∃ r, post_upload host now random (Some part) fs = (UploadJson r, fs')
       ∧ success r = true
       ∧ headers r = fst (Reader.excel_preview workbook)
       ∧ previewData r = snd (Reader.excel_preview workbook)
       ∧ totalRows r = length (previewData r).
Proof.
  intros Hext Hstore Hload.
  destruct (single_stored _ _ _ _ _ _ _ _ _ Hstore) as (Hread & Hname & _ & _).
  unfold post_upload, post_upload_with. rewrite Hstore.
  unfold upload_handler, read_preview. rewrite Hname.
  rewrite decide_False by done. rewrite Hread. simpl. rewrite Hload. simpl.
  destruct (Reader.excel_preview workbook) as [hs rows]. simpl.
  eexists. split; [reflexivity|]. done.
Qed.

End WorkbookUpload.

(** X4. For a stored upload that is not a CSV file and whose workbook has a
    worksheet with the id 1, the preview has min(rowCount - 1, 20) rows,
    the header list comes from row 1, and the keys of every preview row are
    exactly the headers other than [__proto__]. *)
Theorem workbook_upload_preview (host : Host) (now random : N) (part : Part)
    (fs : Fs.t) (file : MulterFile) (fs' : Fs.t)
    (workbook : Excel.Workbook) (ws : Excel.Worksheet) :
  toLowerCase (Path.extname (originalname part)) ≠ js ".csv" →
  Multer.single upload (js "orderFile") (uploadsDir host) now random (Some part) fs
    = Ok (Some file, fs') →
  xlsx_load host (data part) = Ok workbook →
  Excel.getWorksheet workbook 1 = Some ws →
  ∃ r, post_upload host now random (Some part) fs = (UploadJson r, fs')
    ∧ headers r = Reader.excel_headers (Excel.getRow ws 1)
    ∧ length (previewData r) = Nat.min (Excel.rowCount ws - 1) 20
    ∧ ∀ row, row ∈ previewData r →
        dom row = list_to_set (filter (fun h => h ≠ js "__proto__") (headers r)).
Proof.
  intros Hext Hstore Hload Hws.
  destruct (post_upload_excel host _ _ _ _ _ _ _ Hext Hstore Hload)
    as (r & Hr & _ & Hheaders & Hrows & _).
  exists r. split; [done|].
  rewrite (excel_preview_sheet _ _ Hws) in Hheaders, Hrows.
  cbn [fst snd] in Hheaders, Hrows.
  rewrite Hheaders, Hrows. split; [done|]. split.
  - rewrite length_map, length_seq. lia.
  - intros row (rowNumber & -> & _)%list_elem_of_fmap. apply excel_row_dom.
Qed.

Lemma workbook_upload_preview_witness :
  ∃ r, post_upload Sample.host Sample.now Sample.random (Some Sample.gap_upload)
         Sample.booted
       = (UploadJson r, Sample.stored Sample.gap_upload Sample.booted)
     ∧ length (previewData r) = 1%nat
     ∧ ∀ row, row ∈ previewData r → dom row = {[ js "id"; js "qty" ]}.
Proof.
  destruct (workbook_upload_preview Sample.host Sample.now Sample.random
              Sample.gap_upload Sample.booted
              (Sample.stored_file Sample.gap_upload)
              (Sample.stored Sample.gap_upload Sample.booted)
              Sample.gap_workbook
              [ [Excel.CString (js "id"); Excel.CNull; Excel.CString (js "qty")];
                [Excel.CNumber 1; Excel.CString (js "x"); Excel.CNumber 5] ])
    as (r & Hr & Hheaders & Hlen & Hdom).
  - intros Heq. vm_compute in Heq. discriminate.
  - reflexivity.
  - reflexivity.
  - reflexivity.
  - exists r. split; [exact Hr|]. split; [exact Hlen|].
    intros row Hrow. rewrite (Hdom row Hrow), Hheaders.
    change (filter _ (Reader.excel_headers _)) with [js "id"; js "qty"].
    set_solver.
Defined.

(** The scenario of a workbook with a header [__proto__] and the number
    10^21 in a cell: the row has no entry for that header, and the number
    is printed in exponent form. *)
Example proto_workbook_scenario :
  let answer := upload_result (fst (post_upload Cases.proto_host Sample.now
                                      Sample.random (Some Sample.gap_upload)
                                      Sample.booted)) in
  headers <$> answer = Some [js "id"; js "__proto__"; js "qty"]
  ∧ previewData <$> answer
    = Some [ {[ js "id" := js "1"; js "qty" := js "1e+21" ]} ].
Proof. split; reflexivity. Qed.

(** Numbers as [toString] prints them: integers up to 2^53 digit by digit,
    larger ones as their nearest Number with the fewest digits, and from
    10^21 on in exponent form. *)
Example number_toString_examples :
  Excel.toString (Excel.CNumber 42) = js "42"
  ∧ Excel.toString (Excel.CNumber (-7)) = js "-7"
  ∧ Excel.toString (Excel.CNumber 9007199254740993) = js "9007199254740992"
  ∧ Excel.toString (Excel.CNumber 123456789012345678901)
    = js "123456789012345680000"
  ∧ Excel.toString (Excel.CNumber 1000000000000000000000) = js "1e+21"
  ∧ Excel.toString (Excel.CNumber 123456789012345678901234567890)
    = js "1.2345678901234568e+29".
Proof. repeat split; reflexivity. Qed.

(** X5. In the preview of a workbook, the value of a row under a header
    other than [__proto__] is read from the cell whose column number is the
    last position of that header in the header list, counted from 1, in
    preview row k from worksheet row k + 2; it is the string of the cell
    value, or the empty string when the value is falsy. *)
Theorem workbook_cells_by_header_position (host : Host) (now random : N)
    (part : Part) (fs : Fs.t) (file : MulterFile) (fs' : Fs.t)
    (workbook : Excel.Workbook) (ws : Excel.Worksheet) :
  toLowerCase (Path.extname (originalname part)) ≠ js ".csv" →
  Multer.single upload (js "orderFile") (uploadsDir host) now random (Some part) fs
    = Ok (Some file, fs') →
  xlsx_load host (data part) = Ok workbook →
  Excel.getWorksheet workbook 1 = Some ws →
  ∃ r, post_upload host now random (Some part) fs = (UploadJson r, fs')
    ∧ ∀ k row i h,
        previewData r !! k = Some row →
        headers r !! i = Some h →
        h ≠ js "__proto__" →
        (∀ j, i < j → headers r !! j ≠ Some h)%nat →
        row !! h
        = Some (let cell := Excel.getCell (Excel.getRow ws (k + 2)) (i + 1) in
                if Excel.truthy cell then Excel.toString cell else []).
Proof.
  intros Hext Hstore Hload Hws.
  destruct (post_upload_excel host _ _ _ _ _ _ _ Hext Hstore Hload)
    as (r & Hr & _ & Hheaders & Hrows & _).
  exists r. split; [done|].
  rewrite (excel_preview_sheet _ _ Hws) in Hheaders, Hrows.
  cbn [fst snd] in Hheaders, Hrows.
  rewrite Hheaders, Hrows.
  intros k row i h Hrow Hi Hproto Hlast.
  rewrite list_lookup_fmap in Hrow.
  destruct (seq 2 (Nat.min 21 (Excel.rowCount ws) - 1) !! k) as [rowNumber|] eqn:Hk;
    [|done].
  injection Hrow as <-.
  apply lookup_seq in Hk as [-> _].
  unfold Reader.excel_row.
  rewrite (forEach_assign_last _ _ 0 ∅ h i Hproto Hi Hlast).
  replace (k + 2)%nat with (2 + k)%nat by lia. reflexivity.
Qed.

Lemma workbook_cells_by_header_position_witness :
  ∃ r, post_upload Sample.host Sample.now Sample.random (Some Sample.gap_upload)
         Sample.booted
       = (UploadJson r, Sample.stored Sample.gap_upload Sample.booted)
     ∧ ∀ row, previewData r !! 0%nat = Some row → row !! js "qty" = Some (js "x").
Proof.
  destruct (workbook_cells_by_header_position Sample.host Sample.now Sample.random
              Sample.gap_upload Sample.booted
              (Sample.stored_file Sample.gap_upload)
              (Sample.stored Sample.gap_upload Sample.booted)
              Sample.gap_workbook
              [ [Excel.CString (js "id"); Excel.CNull; Excel.CString (js "qty")];
                [Excel.CNumber 1; Excel.CString (js "x"); Excel.CNumber 5] ])
    as (r & Hr & Hcells).
  - intros Heq. vm_compute in Heq. discriminate.
  - reflexivity.
  - reflexivity.
  - reflexivity.
  - exists r. split; [exact Hr|]. intros row Hrow.
    assert (headers r = [js "id"; js "qty"]) as Hheaders.
    { assert (headers <$> upload_result
                (fst (post_upload Sample.host Sample.now Sample.random
                        (Some Sample.gap_upload) Sample.booted))
              = Some [js "id"; js "qty"]) as Hh by reflexivity.
      rewrite Hr in Hh. by injection Hh. }
    rewrite (Hcells 0%nat row 1%nat (js "qty") Hrow).
    + reflexivity.
    + rewrite Hheaders. reflexivity.
    + discriminate.
    + intros j Hj. rewrite Hheaders. by destruct j as [|[|j]]; [lia..|].
Defined.

(** X6. When the workbook of a stored upload has no worksheet with the id 1,
    the upload is answered with success and an empty preview: no headers,
    no rows, totalRows 0. The other worksheets are not looked at. *)
Theorem workbook_without_first_sheet (host : Host) (now random : N) (part : Part)
    (fs : Fs.t) (file : MulterFile) (fs' : Fs.t) (workbook : Excel.Workbook) :
  toLowerCase (Path.extname (originalname part)) ≠ js ".csv" →
  Multer.single upload (js "orderFile") (uploadsDir host) now random (Some part) fs
    = Ok (Some file, fs') →
  xlsx_load host (data part) = Ok workbook →
  Excel.getWorksheet workbook 1 = None →
  ∃ r, post_upload host now random (Some part) fs = (UploadJson r, fs')
    ∧ success r = true ∧ headers r = [] ∧ previewData r = []
    ∧ totalRows r = 0%nat.
Proof.
  intros Hext Hstore Hload Hws.
  destruct (post_upload_excel host _ _ _ _ _ _ _ Hext Hstore Hload)
    as (r & Hr & Hok & Hheaders & Hrows & Htotal).
  exists r. unfold Reader.excel_preview in *. rewrite Hws in *.
  simpl in *. rewrite Htotal, Hrows. done.
Qed.

Lemma workbook_without_first_sheet_witness :
  ∃ r, post_upload Cases.sheetless_host Sample.now Sample.random
         (Some Sample.gap_upload) Sample.booted
       = (UploadJson r, Sample.stored Sample.gap_upload Sample.booted)
     ∧ success r = true ∧ headers r = [] ∧ previewData r = []
     ∧ totalRows r = 0%nat.
Proof.
  apply (workbook_without_first_sheet Cases.sheetless_host Sample.now Sample.random
           Sample.gap_upload Sample.booted (Sample.stored_file Sample.gap_upload)
           (Sample.stored Sample.gap_upload Sample.booted) Cases.sheetless_workbook).
  - intros Heq. vm_compute in Heq. discriminate.
  - reflexivity.
  - reflexivity.
  - reflexivity.
Defined.

(** X7. When the workbook reader fails on a stored upload that is not a CSV
    file, the route answers with status 500, the processing message and the
    error of the reader as details, and the stored file is not removed: it
    can still be read under the path it was stored at. *)
Theorem unreadable_upload_is_kept (host : Host) (now random : N) (part : Part)
    (fs : Fs.t) (file : MulterFile) (fs' : Fs.t) (e : error) :
  toLowerCase (Path.extname (originalname part)) ≠ js ".csv" →
  Multer.single upload (js "orderFile") (uploadsDir host) now random (Some part) fs
    = Ok (Some file, fs') →
  xlsx_load host (data part) = Throw e →
  post_upload host now random (Some part) fs
  = (ErrorJson 500 (Text processing_failed_message) (Some (MessageOf e)), fs')
  ∧ Fs.readFileSync fs'
      (Path.join (uploadsDir host) (Multer.filename part now random))
    = Ok (data part).
Proof.
  intros Hext Hstore Hload.
  destruct (single_stored _ _ _ _ _ _ _ _ _ Hstore) as (Hread & Hname & _ & Hpath).
  split; [|by rewrite <- Hpath].
  unfold post_upload, post_upload_with. rewrite Hstore.
  unfold upload_handler, read_preview. rewrite Hname.
  rewrite decide_False by done. rewrite Hread. simpl. by rewrite Hload.
Qed.

Lemma unreadable_upload_is_kept_witness :
  post_upload Sample.host Sample.now Sample.random (Some Sample.report_pdf)
    Sample.booted
  = (ErrorJson 500 (Text processing_failed_message)
       (Some (MessageOf (LibraryError (js "Can't find end of central directory")))),
     Sample.stored Sample.report_pdf Sample.booted)
  ∧ Fs.readFileSync (Sample.stored Sample.report_pdf Sample.booted)
      (Path.join (uploadsDir Sample.host)
         (Multer.filename Sample.report_pdf Sample.now Sample.random))
    = Ok (data Sample.report_pdf).
Proof.
  apply (unreadable_upload_is_kept Sample.host Sample.now Sample.random
           Sample.report_pdf Sample.booted (Sample.stored_file Sample.report_pdf)).
  - intros Heq. vm_compute in Heq. discriminate.
  - reflexivity.
  - reflexivity.
Defined.

(** X8. In the header row of a workbook, a cell that is not null and whose
    value is falsy (the empty string, zero, false) at column k is named by
    the label made of the word for column and the number k, at the place of
    that cell among the cells that are not null; and two such cells of one
    header row never get the same label. *)
Theorem falsy_header_cells_get_distinct_labels (row : Excel.Row) :
  (∀ i k cell, Excel.visited row !! i = Some (k, cell) →
     Excel.truthy cell = false →
     Reader.excel_headers row !! i = Some (js "컬럼" ++ decimal k))
  ∧ ∀ i j k1 k2 cell1 cell2,
      Excel.visited row !! i = Some (k1, cell1) →
      Excel.visited row !! j = Some (k2, cell2) →
      i ≠ j → js "컬럼" ++ decimal k1 ≠ js "컬럼" ++ decimal k2.
Proof.
  split.
  - intros i k cell Hi Hfalsy.
    rewrite excel_headers_visited, list_lookup_fmap, Hi. simpl. by rewrite Hfalsy.
  - intros i j k1 k2 cell1 cell2 Hi Hj Hne Heq%app_inv_head%decimal_inj. subst k2.
    apply Hne.
    apply (NoDup_lookup (map fst (Excel.visited row)) i j k1).
    + apply visited_from_NoDup.
    + by rewrite list_lookup_fmap, Hi.
    + by rewrite list_lookup_fmap, Hj.
Qed.

Lemma falsy_header_cells_get_distinct_labels_witness :
  Reader.excel_headers Cases.falsy_row = [js "id"; js "컬럼2"; js "컬럼3"; js "qty"]
  ∧ js "컬럼" ++ decimal 2 ≠ js "컬럼" ++ decimal 3.
Proof.
  destruct (falsy_header_cells_get_distinct_labels Cases.falsy_row) as [_ Hdistinct].
  split; [reflexivity|].
  apply (Hdistinct 1%nat 2%nat 2 3 (Excel.CString []) (Excel.CNumber 0));
    [reflexivity | reflexivity | lia].
Defined.

(** ** The upload configuration of server.js *)

Lemma starts_with_app (p q s : jsstring) :
  starts_with (p ++ q) s = true → starts_with p s = true.
Proof.
  revert s. induction p as [|a p IH]; intros s; [done|].
  destruct s as [|b s]; [done|]. cbn [app starts_with].
  intros [-> H]%andb_prop. by rewrite (IH s H).
Qed.

Lemma starts_with_xlsx_xls (s : jsstring) :
  starts_with (js "xlsx") s = true → starts_with (js "xls") s = true.
Proof. apply (starts_with_app (js "xls") [120] s). Qed.

Lemma includes_xlsx_xls (s : jsstring) :
  includes (js "xlsx") s = true → includes (js "xls") s = true.
Proof.
  induction s as [|c s IH].
  - intros H. vm_compute in H. discriminate.
  - cbn [includes]. intros [H|H]%orb_prop.
    + by rewrite (starts_with_xlsx_xls _ H).
    + rewrite (IH H). apply orb_true_r.
Qed.

(** X9. The filter of server.js accepts every file whose extension is
    [.xlsx], [.xls] or [.csv] in any letter case and whose declared type is
    one of the three spreadsheet types it names. *)
Theorem server_filter_accepts_spreadsheets (file : Part) :
  toLowerCase (Path.extname (originalname file))
    ∈ [js ".xlsx"; js ".xls"; js ".csv"] →
  mimetype file
    ∈ [js "application/vnd.openxmlformats-officedocument.spreadsheetml.sheet";
       js "application/vnd.ms-excel"; js "text/csv"] →
  Server.fileFilter file = Ok tt.
Proof.
  intros Hext Hmime. unfold Server.fileFilter.
  assert (Server.allowedTypes_test (toLowerCase (Path.extname (originalname file)))
          = true) as ->.
  { repeat (apply elem_of_cons in Hext as [->|Hext]; [reflexivity|]).
    by apply elem_of_nil in Hext. }
  repeat (apply elem_of_cons in Hmime as [->|Hmime]; [reflexivity|]).
  by apply elem_of_nil in Hmime.
Qed.

Lemma server_filter_accepts_spreadsheets_witness :
  Server.fileFilter
    {| fieldname := js "orderFile"; originalname := js "Orders.XLSX";
       mimetype := js "application/vnd.ms-excel"; filesize := 4; data := js "PK.." |}
  = Ok tt.
Proof.
  apply server_filter_accepts_spreadsheets.
  - apply elem_of_cons. left. reflexivity.
  - apply elem_of_cons. right. apply elem_of_cons. left. reflexivity.
Defined.

(** X10. The multer instance of server.js rejects a named file whose
    extension, in lower case, contains neither [xls] nor [csv], whatever
    type it declares and before anything is stored: the middleware fails
    with the message of the filter, which the error handler of server.js
    answers with status 500 and that message, not with a 400. *)
Theorem server_upload_rejects_other_extensions (name : jsstring)
    (destination : Path.t) (now random : N) (part : Part) (fs : Fs.t) :
  originalname part ≠ [] →
  fieldname part = name →
  includes (js "xls") (toLowerCase (Path.extname (originalname part))) = false →
  includes (js "csv") (toLowerCase (Path.extname (originalname part))) = false →
  ∃ e, Multer.single Server.upload name destination now random (Some part) fs
       = Throw e
     ∧ Server.error_handler e
       = ErrorJson 500 (MessageOf (PlainError Server.unsupported_message)) None.
Proof.
  intros Hnamed Hfield Hxls Hcsv.
  assert (Server.fileFilter part = Throw (PlainError Server.unsupported_message))
    as Hfilter.
  { assert (includes (js "xlsx") (toLowerCase (Path.extname (originalname part)))
            = false) as Hxlsx.
    { destruct (includes (js "xlsx") _) eqn:Hyes; [|done].
      apply includes_xlsx_xls in Hyes. by rewrite Hxls in Hyes. }
    unfold Server.fileFilter, Server.allowedTypes_test.
    rewrite Hxlsx, Hxls, Hcsv. simpl. by rewrite andb_false_r. }
  exists (PlainError Server.unsupported_message). split; [|done].
  unfold Multer.single, bind.
  rewrite decide_False by done. rewrite decide_True by done.
  simpl. by rewrite Hfilter.
Qed.

Lemma server_upload_rejects_other_extensions_witness :
  ∃ e, Multer.single Server.upload (js "orderFile") [js "srv"; js "uploads"]
         Sample.now Sample.random (Some Sample.report_pdf) Sample.booted
       = Throw e
     ∧ Server.error_handler e
       = ErrorJson 500 (MessageOf (PlainError Server.unsupported_message)) None.
Proof.
  apply server_upload_rejects_other_extensions.
  - discriminate.
  - reflexivity.
  - reflexivity.
  - reflexivity.
Defined.

(** ** Names of stored files *)

Lemma uint_units_no_dash (d : Decimal.uint) : 45 ∉ uint_units d.
Proof.
  induction d; simpl; try (by apply not_elem_of_nil);
    apply not_elem_of_cons; split; (done || lia).
Qed.

Lemma split_at_dash (a b x y : jsstring) :
  45 ∉ a → 45 ∉ b → a ++ 45 :: x = b ++ 45 :: y → a = b ∧ x = y.
Proof.
  revert b. induction a as [|c a IH]; intros b Ha Hb Heq.
  - destruct b as [|c b]; simpl in Heq.
    + by injection Heq.
    + injection Heq as <- _. exfalso. apply Hb. left.
  - destruct b as [|c' b]; simpl in Heq.
    + injection Heq as -> _. exfalso. apply Ha. left.
    + injection Heq as -> Heq.
      apply not_elem_of_cons in Ha as [_ Ha]. apply not_elem_of_cons in Hb as [_ Hb].
      destruct (IH b Ha Hb Heq) as [-> ->]. done.
Qed.

(** X11. The name under which an upload is stored determines the time and
    the random draw it was made from: the same file stored at another time,
    or with another draw, gets another name. *)
Theorem stored_names_differ (part : Part) (now1 random1 now2 random2 : N) :
  (now1, random1) ≠ (now2, random2) →
  Multer.filename part now1 random1 ≠ Multer.filename part now2 random2.
Proof.
  intros Hne Heq. apply Hne. unfold Multer.filename in Heq.
  change (js "-") with [45] in Heq.
  apply app_inv_head in Heq. simpl in Heq. injection Heq as Heq.
  rewrite <- !app_assoc in Heq. simpl in Heq.
  apply split_at_dash in Heq as [Hnow Hrest]; [|apply uint_units_no_dash..].
  apply app_inv_tail in Hrest.
  by rewrite (decimal_inj _ _ Hnow), (decimal_inj _ _ Hrest).
Qed.

Lemma stored_names_differ_witness :
  Multer.filename Sample.orders_csv 1700000000000 123456789
  ≠ Multer.filename Sample.orders_csv 1700000000000 12345678.
Proof. apply stored_names_differ. intros Heq. discriminate Heq. Defined.

(** ** Files that stay *)

Lemma read_file_lookup (fs : Fs.t) (p : Path.t) (text : jsstring) :
  Fs.readFileSync fs p = Ok text →
  Fs.valid p = true ∧ Path.has_trailing_slash p = false ∧ p ≠ []
  ∧ fs !! p = Some (Fs.File text).
Proof.
  unfold Fs.readFileSync, Fs.node_at.
  destruct (Fs.valid p); simpl; [|done].
  destruct (Path.has_trailing_slash p).
  - by destruct (Fs.plain_node fs (removelast p)) as [[|]|].
  - destruct p as [|seg p]; [done|]. simpl.
    destruct (fs !! (seg :: p)) as [[|]|]; [|done..]. by intros [= ->].
Qed.

Lemma lookup_read_file (fs : Fs.t) (p : Path.t) (text : jsstring) :
  Fs.valid p = true → Path.has_trailing_slash p = false → p ≠ [] →
  fs !! p = Some (Fs.File text) →
  Fs.readFileSync fs p = Ok text ∧ Fs.existsSync fs p = true.
Proof.
  intros Hvalid Hslash Hne Hfile.
  unfold Fs.readFileSync, Fs.existsSync, Fs.node_at. rewrite Hvalid, Hslash. simpl.
  destruct p; [done|]. simpl. by rewrite Hfile.
Qed.

(** A write is seen at its own path only. *)
Lemma write_frame (fs fs' : Fs.t) (p q : Path.t) (text : jsstring) :
  Fs.writeFileSync fs p text = Ok fs' → q ≠ p →
  Fs.node_at fs' q = Fs.node_at fs q.
Proof.
  intros Hwrite Hne.
  destruct (write_then_read _ _ _ _ Hwrite) as (-> & _ & _).
  assert (Fs.plain_node fs p ≠ Some Fs.Dir ∧ p ≠ []) as [Hnotdir Hp].
  { revert Hwrite. unfold Fs.writeFileSync, Fs.node_at.
    destruct (Fs.valid p); simpl; [|done].
    destruct (Path.has_trailing_slash p) eqn:Hslash; [done|].
    destruct p as [|seg p]; [done|]. simpl.
    by destruct (fs !! (seg :: p)) as [[|]|]. }
  unfold Fs.node_at. destruct (Fs.valid q); simpl; [|done].
  destruct (Path.has_trailing_slash q).
  - destruct (decide (removelast q = p)) as [->|Hother].
    + unfold Fs.plain_node in *. destruct p as [|seg rest]; [done|].
      rewrite lookup_insert_eq.
      destruct (fs !! (seg :: rest)) as [[|]|]; [done| |done].
      by exfalso.
    + unfold Fs.plain_node. destruct (removelast q); [done|].
      by rewrite lookup_insert_ne.
  - unfold Fs.plain_node. destruct q; [done|]. by rewrite lookup_insert_ne.
Qed.

Lemma post_upload_fs (host : Host) (now random : N) (file : option Part)
    (fs : Fs.t) (r : response) (fs' : Fs.t) :
  post_upload host now random file fs = (r, fs') →
  fs' = fs
  ∨ ∃ part, file = Some part
      ∧ Fs.writeFileSync fs
          (Path.join (uploadsDir host) (Multer.filename part now random))
          (data part) = Ok fs'.
Proof.
  unfold post_upload, post_upload_with. rewrite routes_single_cases.
  destruct file as [part|]; [|intros [= _ <-]; by left].
  destruct (decide (originalname part = [])) as [Hnameless|Hnamed];
    [intros [= _ <-]; by left|].
  destruct (decide (fieldname part = js "orderFile")) as [Hfield|Hfield];
    [|intros [= _ <-]; by left].
  destruct (Fs.writeFileSync _ _ _) as [fs1|err] eqn:Hwrite;
    intros [= _ <-]; [right; by exists part | by left].
Qed.

Lemma post_upload_stored (host : Host) (now random : N) (part : Part)
    (fs : Fs.t) (r : UploadResult) (fs' : Fs.t) :
  post_upload host now random (Some part) fs = (UploadJson r, fs') →
  fileId r = Multer.filename part now random
  ∧ Fs.readFileSync fs' (Path.join (uploadsDir host) (fileId r)) = Ok (data part).
Proof.
  unfold post_upload, post_upload_with.
  destruct (Multer.single _ _ _ _ _ _ _) as [[[file|] fs1]|err] eqn:Hstore.
  - destruct (single_stored _ _ _ _ _ _ _ _ _ Hstore) as (Hread & _ & Hname & Hpath).
    unfold upload_handler.
    destruct (read_preview host fs1 file) as [[hs rows]|err]; [|done].
    intros [= <- <-]. simpl. split; [done|]. by rewrite Hname, <- Hpath.
  - done.
  - intros [= Habs _]. by destruct err.
Qed.

(** ** Saving mappings *)

Lemma split_without_separator (sep : N) (s : jsstring) :
  sep ∉ s → split sep s = [s].
Proof.
  induction s as [|c s IH]; [done|].
  intros [Hc Hs]%not_elem_of_cons. cbn [split].
  destruct (N.eqb_spec c sep) as [->|_]; [done|]. by rewrite (IH Hs).
Qed.

Lemma mappingsDir_ends (host : Host) :
  ∃ d, mappingsDir host = d ++ [js "mappings"].
Proof.
  unfold mappingsDir. destruct (production host).
  - by exists [js "tmp"].
  - by exists (removelast (Path.strip (dirname host)) ++ [js "file"]).
Qed.

Lemma no_trailing_slash_snoc (d : Path.t) (seg : jsstring) :
  seg ≠ [] → Path.has_trailing_slash (d ++ [seg]) = false.
Proof.
  intros Hseg. unfold Path.has_trailing_slash. rewrite last_snoc.
  by destruct seg.
Qed.

(** The record of a plain name is the file of that name with [.json]
    appended, in the mappings directory. *)
Lemma mapping_file_plain (host : Host) (name : jsstring) :
  slash ∉ name →
  mapping_file host name = mappingsDir host ++ [name ++ js ".json"].
Proof.
  intros Hplain. unfold mapping_file.
  destruct (mappingsDir_ends host) as [d ->].
  unfold Path.join.
  change (js ".json") with ([46; 106; 115; 111] ++ [110]).
  rewrite app_assoc, last_snoc. simpl.
  rewrite split_without_separator.
  - unfold Path.strip. rewrite no_trailing_slash_snoc by done.
    set (seg := (name ++ [46; 106; 115; 111]) ++ [110]).
    assert (5 ≤ length seg)%nat as Hlen
      by (unfold seg; rewrite !length_app; simpl; lia).
    cbn [fold_left]. unfold Path.segment_step.
    rewrite decide_False by (intros Heq; rewrite Heq in Hlen; simpl in Hlen; lia).
    rewrite decide_False by (intros Heq; rewrite Heq in Hlen; simpl in Hlen; lia).
    rewrite decide_False by (intros Heq; rewrite Heq in Hlen; simpl in Hlen; lia).
    done.
  - rewrite <- app_assoc. intros [Hin|Hin]%elem_of_app; [done|].
    vm_compute in Hin. set_solver.
Qed.

Lemma valid_snoc (d : Path.t) (seg : jsstring) :
  Fs.valid d = true → 0 ∉ seg → Fs.valid (d ++ [seg]) = true.
Proof.
  intros Hd Hseg. unfold Fs.valid in *. rewrite forallb_app, Hd. simpl.
  rewrite andb_true_r. apply negb_true_iff.
  apply not_true_is_false. intros (c & Hin & <-%N.eqb_eq)%existsb_exists.
  apply Hseg. by apply list_elem_of_In.
Qed.

Lemma node_at_valid (fs : Fs.t) (p : Path.t) (n : Fs.node) :
  Fs.node_at fs p = Some n → Fs.valid p = true.
Proof. unfold Fs.node_at. by destruct (Fs.valid p). Qed.

(** X13. When the mappings directory exists, a mapping whose name has no
    slash and no NUL is saved, unless a directory stands where its record
    goes: the answer is success with the name as mappingId, and the only
    change to the file system is the record, the serialized definition, in
    the file of that name with [.json] appended. *)
Theorem plain_mapping_name_is_saved (host : Host) (createdAt : jsstring)
    (body : MappingBody) (fs : Fs.t) :
  Fs.node_at fs (mappingsDir host) = Some Fs.Dir →
  slash ∉ mappingName body →
  0 ∉ mappingName body →
  Fs.node_at fs (mappingsDir host ++ [mappingName body ++ js ".json"])
    ≠ Some Fs.Dir →
  post_mapping host createdAt body fs
  = (MappingJson true mapping_saved_message (mappingName body),
     <[mappingsDir host ++ [mappingName body ++ js ".json"]
       := Fs.File (JSON_stringify host (mappingData createdAt body))]> fs).
Proof.
  intros Hdir Hplain Hnul Hfree.
  unfold post_mapping, Fs.existsSync. rewrite Hdir. simpl.
  rewrite (mapping_file_plain host _ Hplain).
  set (p := mappingsDir host ++ [mappingName body ++ js ".json"]) in *.
  assert (mappingName body ++ js ".json" ≠ []) as Hseg by (by destruct (mappingName body)).
  assert (Fs.valid p = true) as Hvalid.
  { apply valid_snoc; [by apply (node_at_valid fs _ Fs.Dir)|].
    intros [Hin|Hin]%elem_of_app; [done|]. vm_compute in Hin. set_solver. }
  assert (Path.parent p = mappingsDir host) as Hparent.
  { unfold Path.parent, Path.strip, p.
    rewrite no_trailing_slash_snoc by done. apply removelast_last. }
  unfold Fs.writeFileSync. rewrite Hvalid. simpl.
  unfold p at 1. rewrite no_trailing_slash_snoc by done. fold p.
  rewrite Hparent, Hdir.
  by destruct (Fs.node_at fs p) as [[|]|].
Qed.

Lemma plain_mapping_name_is_saved_witness :
  let saved := snd (post_mapping Sample.host Sample.created1 Sample.shop_mapping
                      Sample.booted) in
  post_mapping Sample.host Sample.created2 Sample.shop_mapping2 saved
  = (MappingJson true mapping_saved_message (js "shopA"),
     <[mappingsDir Sample.host ++ [js "shopA" ++ js ".json"]
       := Fs.File (Sample.stringify
                     (mappingData Sample.created2 Sample.shop_mapping2))]> saved).
Proof.
  intros saved.
  apply (plain_mapping_name_is_saved Sample.host Sample.created2
           Sample.shop_mapping2 saved).
  - reflexivity.
  - intros Hin. vm_compute in Hin. set_solver.
  - intros Hin. vm_compute in Hin. set_solver.
  - intros Heq. vm_compute in Heq. discriminate.
Defined.

(** X14. When the mappings directory exists, a request to save a mapping,
    answered with success or not, leaves the record of every other mapping
    as it was: loading a name whose record is another file gives the same
    result before and after. *)
Theorem mapping_save_keeps_other_records (host : Host) (createdAt : jsstring)
    (body : MappingBody) (fs : Fs.t) (r : response) (fs' : Fs.t)
    (other : jsstring) :
  Fs.existsSync fs (mappingsDir host) = true →
  post_mapping host createdAt body fs = (r, fs') →
  mapping_file host other ≠ mapping_file host (mappingName body) →
  load_mapping host fs' other = load_mapping host fs other.
Proof.
  intros Hdir Hsave Hother. revert Hsave.
  unfold post_mapping. rewrite Hdir. simpl.
  destruct (Fs.writeFileSync fs _ _) as [fs2|err] eqn:Hwrite;
    intros [= _ <-]; [|done].
  pose proof (write_frame _ _ _ _ _ Hwrite Hother) as Hsame.
  unfold load_mapping, Fs.existsSync, Fs.readFileSync. by rewrite Hsame.
Qed.

Lemma mapping_save_keeps_other_records_witness :
  let saved := snd (post_mapping Sample.host Sample.created1 Sample.shop_mapping
                      Sample.booted) in
  let saved2 :=
    snd (post_mapping Sample.host Sample.created2
           {| mappingName := js "shopB"; sourceFields := None; targetFields := None;
              mappingRules := None |} saved) in
  load_mapping Sample.host saved2 (js "shopA")
  = Ok (mappingData Sample.created1 Sample.shop_mapping).
Proof.
  intros saved saved2.
  rewrite (mapping_save_keeps_other_records Sample.host Sample.created2
             {| mappingName := js "shopB"; sourceFields := None; targetFields := None;
                mappingRules := None |} saved
             (fst (post_mapping Sample.host Sample.created2
                     {| mappingName := js "shopB"; sourceFields := None;
                        targetFields := None; mappingRules := None |} saved))
             saved2 (js "shopA")).
  - reflexivity.
  - reflexivity.
  - symmetry. apply surjective_pairing.
  - intros Heq. vm_compute in Heq. discriminate.
Defined.

(** ** Generating *)

Lemma generate_reply_status (outcome : result ConversionResult) :
  status_of (generate_reply outcome) ≠ 404.
Proof. destruct outcome; simpl; lia. Qed.

Lemma post_generate_found (host : Host) (body : GenerateBody) (fs : Fs.t) :
  Fs.existsSync fs (Path.join (uploadsDir host) (body_fileId body)) = true →
  status_of (fst (post_generate host body fs)) ≠ 404.
Proof.
  intros Hfound. unfold post_generate. rewrite Hfound. simpl.
  destruct (load_mapping host fs _) as [rules|err]; [|simpl; lia].
  destruct (convertToStandardFormat host fs _ _ rules) as [outcome fs1]. simpl.
  apply generate_reply_status.
Qed.

(** X15. The generate route answers with status 404 exactly when nothing
    exists at the path of the file id in the uploads directory; a missing
    or unreadable mapping record, or a failure of the conversion, never
    gives a 404. *)
Theorem generate_404_only_without_upload (host : Host) (body : GenerateBody)
    (fs : Fs.t) :
  status_of (fst (post_generate host body fs)) = 404
  ↔ Fs.existsSync fs (Path.join (uploadsDir host) (body_fileId body)) = false.
Proof.
  split.
  - intros Hstatus.
    destruct (Fs.existsSync fs _) eqn:Hfound; [|done].
    by apply post_generate_found in Hfound.
  - intros Hmissing. unfold post_generate. by rewrite Hmissing.
Qed.

(** X16. When the uploaded file exists and the record of the mapping exists
    but is not a document [JSON.parse] accepts, the generate route answers
    with status 500, its failure message and the parse error as details;
    the converter is not called and the file system is unchanged. *)
Theorem corrupt_mapping_record_fails_generate (host : Host) (body : GenerateBody)
    (fs : Fs.t) (text : jsstring) (e : error) :
  Fs.existsSync fs (Path.join (uploadsDir host) (body_fileId body)) = true →
  Fs.readFileSync fs (mapping_file host (body_mappingId body)) = Ok text →
  JSON_parse host text = Throw e →
  post_generate host body fs
  = (ErrorJson 500 (Text generate_failed_message) (Some (MessageOf e)), fs).
Proof.
  intros Hupload Hread Hparse.
  destruct (read_file_lookup _ _ _ Hread) as (Hvalid & Hslash & Hne & Hfile).
  destruct (lookup_read_file _ _ _ Hvalid Hslash Hne Hfile) as [_ Hexists].
  unfold post_generate, load_mapping. rewrite Hupload, Hexists, Hread. simpl.
  by rewrite Hparse.
Qed.

Lemma corrupt_mapping_record_fails_generate_witness :
  post_generate Sample.host (Sample.generate_orders (js "bad")) Cases.corrupt_fs
  = (ErrorJson 500 (Text generate_failed_message) (Some (MessageOf SyntaxError)),
     Cases.corrupt_fs).
Proof.
  apply (corrupt_mapping_record_fails_generate Sample.host
           (Sample.generate_orders (js "bad")) Cases.corrupt_fs (js "{oops")).
  - reflexivity.
  - reflexivity.
  - reflexivity.
Defined.

(** X17. After a mapping was saved with success, a generate request that
    names it, for an uploaded file that exists, hands the whole saved
    definition (name, creation time, source fields, target fields, rules)
    to the converter, together with the path of the uploaded file and of the
    template, and answers with the outcome of the conversion; [JSON.parse]
    is taken to read back the document [JSON.stringify] wrote. *)
Theorem saved_mapping_reaches_the_converter (host : Host) (createdAt : jsstring)
    (saved : MappingBody) (fs : Fs.t) (r : response) (fs1 : Fs.t)
    (body : GenerateBody) :
  post_mapping host createdAt saved fs = (r, fs1) →
  status_of r = 200 →
  JSON_parse host (JSON_stringify host (mappingData createdAt saved))
    = Ok (mappingData createdAt saved) →
  body_mappingId body = mappingName saved →
  Fs.existsSync fs1 (Path.join (uploadsDir host) (body_fileId body)) = true →
  post_generate host body fs1
  = (let '(outcome, fs2) :=
       convertToStandardFormat host fs1
         (Path.join (uploadsDir host) (body_fileId body)) (templatePath host)
         (mappingData createdAt saved) in
     (generate_reply outcome, fs2)).
Proof.
  intros Hsave Hok Hcodec Hname Hupload.
  unfold post_generate. rewrite Hupload, Hname. simpl.
  by rewrite (load_after_save host _ _ _ _ _ Hsave Hok), Hcodec.
Qed.

Lemma saved_mapping_reaches_the_converter_witness :
  let fs1 := snd (post_mapping Sample.host Sample.created1 Sample.shop_mapping
                    Sample.uploaded) in
  post_generate Sample.host (Sample.generate_orders (js "shopA")) fs1
  = (let '(outcome, fs2) :=
       Sample.converter fs1
         (Path.join (uploadsDir Sample.host)
            (Multer.filename Sample.orders_csv Sample.now Sample.random))
         (templatePath Sample.host)
         (mappingData Sample.created1 Sample.shop_mapping) in
     (generate_reply outcome, fs2)).
Proof.
  intros fs1.
  apply (saved_mapping_reaches_the_converter Sample.host Sample.created1
           Sample.shop_mapping Sample.uploaded
           (fst (post_mapping Sample.host Sample.created1 Sample.shop_mapping
                   Sample.uploaded))
           fs1 (Sample.generate_orders (js "shopA"))).
  - symmetry. apply surjective_pairing.
  - reflexivity.
  - reflexivity.
  - reflexivity.
  - reflexivity.
Defined.

(** X18. The file id that the upload route returns is accepted by the
    generate route: right after the upload, a generate request with that
    id is never answered with the 404 for a missing upload. *)
Theorem uploaded_file_is_found_by_generate (host : Host) (now random : N)
    (part : Part) (fs : Fs.t) (r : UploadResult) (fs' : Fs.t)
    (body : GenerateBody) :
  post_upload host now random (Some part) fs = (UploadJson r, fs') →
  body_fileId body = fileId r →
  status_of (fst (post_generate host body fs')) ≠ 404.
Proof.
  intros Hupload Hid. apply post_generate_found. rewrite Hid.
  destruct (post_upload_stored _ _ _ _ _ _ _ Hupload) as (_ & Hread).
  destruct (read_file_lookup _ _ _ Hread) as (Hvalid & Hslash & Hne & Hfile).
  by destruct (lookup_read_file _ _ _ Hvalid Hslash Hne Hfile).
Qed.

Lemma uploaded_file_is_found_by_generate_witness :
  status_of (fst (post_generate Sample.host (Sample.generate_orders (js "nope"))
                    Sample.uploaded)) ≠ 404.
Proof.
  destruct (post_upload_csv_id Sample.host Sample.now Sample.random
              Sample.orders_csv Sample.booted
              (Sample.stored_file Sample.orders_csv) Sample.uploaded)
    as (r & Hr & Hid); [reflexivity .. |].
  apply (uploaded_file_is_found_by_generate Sample.host Sample.now Sample.random
           Sample.orders_csv Sample.booted r Sample.uploaded
           (Sample.generate_orders (js "nope")) Hr).
  by rewrite Hid.
Defined.

(** ** Nothing is deleted *)

Lemma insert_keeps (fs : Fs.t) (q p : Path.t) (n : Fs.node) :
  is_Some (fs !! p) → is_Some (<[q := n]> fs !! p).
Proof.
  intros Hp. destruct (decide (q = p)) as [->|Hne].
  - rewrite lookup_insert_eq. by eexists.
  - by rewrite lookup_insert_ne.
Qed.

Lemma write_keeps (fs fs' : Fs.t) (q p : Path.t) (text : jsstring) :
  Fs.writeFileSync fs q text = Ok fs' → is_Some (fs !! p) → is_Some (fs' !! p).
Proof.
  intros Hwrite Hp. destruct (write_then_read _ _ _ _ Hwrite) as (-> & _ & _).
  by apply insert_keeps.
Qed.

Lemma mkdir_below_keeps (todo : list jsstring) (fs : Fs.t) (done : Path.t)
    (fs' : Fs.t) (p : Path.t) :
  Fs.mkdir_below fs done todo = Ok fs' → is_Some (fs !! p) → is_Some (fs' !! p).
Proof.
  revert fs done. induction todo as [|seg rest IH]; intros fs done; simpl.
  - by intros [= <-].
  - destruct (Fs.node_at fs (done ++ [seg])) as [[|]|]; [done| |].
    + apply IH.
    + intros Hrest Hp. apply (IH _ _ Hrest). by apply insert_keeps.
Qed.

Section NothingDeleted.

Context (host : Host).

(** The converter of the host deletes nothing. *)
Hypothesis converter_keeps :
  ∀ fs uploaded template rules p,
    is_Some (fs !! p) →
    is_Some (snd (convertToStandardFormat host fs uploaded template rules) !! p).

Lemma handle_keeps (req : request) (fs : Fs.t) (r : response) (fs' : Fs.t)
    (p : Path.t) :
  handle host req fs = (r, fs') → is_Some (fs !! p) → is_Some (fs' !! p).
Proof.
  destruct req as [now random file|createdAt body|body|name]; simpl.
  - intros Hupload Hp.
    destruct (post_upload_fs _ _ _ _ _ _ _ Hupload) as [->|(part & _ & Hwrite)];
      [done|]. by apply (write_keeps _ _ _ _ _ Hwrite).
  - unfold post_mapping.
    destruct (negb (Fs.existsSync fs (mappingsDir host))).
    + unfold Fs.mkdirSync_recursive.
      destruct (negb (Fs.valid (mappingsDir host))); [by intros [= _ <-]|].
      destruct (Fs.mkdir_below fs [] _) as [fs1|err] eqn:Hmkdir;
        [|by intros [= _ <-]].
      destruct (Fs.writeFileSync fs1 _ _) as [fs2|err] eqn:Hwrite;
        intros [= _ <-] Hp.
      * apply (write_keeps _ _ _ _ _ Hwrite). by apply (mkdir_below_keeps _ _ _ _ _ Hmkdir).
      * by apply (mkdir_below_keeps _ _ _ _ _ Hmkdir).
    + destruct (Fs.writeFileSync fs _ _) as [fs2|err] eqn:Hwrite;
        intros [= _ <-] Hp; [|done].
      by apply (write_keeps _ _ _ _ _ Hwrite).
  - unfold post_generate.
    destruct (negb (Fs.existsSync fs _)); [by intros [= _ <-]|].
    destruct (load_mapping host fs _) as [rules|err]; [|by intros [= _ <-]].
    pose proof (converter_keeps fs
                  (Path.join (uploadsDir host) (body_fileId body))
                  (templatePath host) rules p) as Hkeeps.
    destruct (convertToStandardFormat host fs _ _ rules) as [outcome fs1].
    intros [= _ <-]. exact Hkeeps.
  - by intros [= _ <-].
Qed.

Lemma serve_keeps (reqs : list request) (fs : Fs.t) (rs : list response)
    (fs' : Fs.t) (p : Path.t) :
  serve host reqs fs = (rs, fs') → is_Some (fs !! p) → is_Some (fs' !! p).
Proof.
  revert fs rs. induction reqs as [|req rest IH]; intros fs rs; simpl.
  - by intros [= _ <-].
  - destruct (handle host req fs) as [r fs1] eqn:Hreq.
    destruct (serve host rest fs1) as [rs' fs2] eqn:Hrest.
    intros [= _ <-] Hp. apply (IH _ _ Hrest). by apply (handle_keeps _ _ _ _ _ Hreq).
Qed.

End NothingDeleted.

(** X19. No route deletes: if the converter deletes nothing, then after any
    sequence of upload, mapping, generate and download requests every file
    and directory that existed before still exists (an uploaded file or a
    mapping record may have been overwritten, never removed). *)
Theorem routes_never_delete (host : Host) (reqs : list request) (fs : Fs.t)
    (p : Path.t) :
  (∀ fs0 uploaded template rules q,
     is_Some (fs0 !! q) →
     is_Some (snd (convertToStandardFormat host fs0 uploaded template rules) !! q)) →
  is_Some (fs !! p) →
  is_Some (snd (serve host reqs fs) !! p).
Proof.
  intros Hconverter Hp.
  apply (serve_keeps host Hconverter reqs fs (fst (serve host reqs fs))); [|done].
  apply surjective_pairing.
Qed.

Lemma routes_never_delete_witness :
  is_Some
    (snd (serve Sample.host
            [ PostMapping Sample.created1 Sample.shop_mapping;
              PostGenerate (Sample.generate_orders (js "shopA"));
              PostUpload 1700000000001 5 (Some Sample.report_pdf);
              GetDownload (js "porder-1.xlsx") ]
            Sample.uploaded)
     !! Path.join (uploadsDir Sample.host)
          (Multer.filename Sample.orders_csv Sample.now Sample.random)).
Proof.
  apply routes_never_delete.
  - intros fs0 uploaded template rules q Hq. unfold convertToStandardFormat. simpl.
    unfold Sample.converter.
    destruct (Fs.writeFileSync fs0 _ _) as [fs1|err] eqn:Hwrite; simpl; [|done].
    by apply (write_keeps _ _ _ _ _ Hwrite).
  - vm_compute. by eexists.
Defined.

(** ** Splitting and trimming *)

Lemma split_not_nil (sep : N) (s : jsstring) : split sep s ≠ [].
Proof.
  destruct s as [|c s]; [done|]. cbn [split].
  destruct (c =? sep); [done|]. by destruct (split sep s).
Qed.

Lemma split_cons_other (sep c : N) (s : jsstring) :
  c ≠ sep →
  ∃ field fields, split sep s = field :: fields
                  ∧ split sep (c :: s) = (c :: field) :: fields.
Proof.
  intros Hc. cbn [split]. rewrite (proj2 (N.eqb_neq c sep) Hc).
  destruct (split sep s) as [|field fields] eqn:Hs; [by apply split_not_nil in Hs|].
  by exists field, fields.
Qed.

Lemma split_fields_without_separator (sep : N) (s field : jsstring) :
  field ∈ split sep s → sep ∉ field.
Proof.
  revert field. induction s as [|c s IH]; intros field.
  - intros ->%list_elem_of_singleton. apply not_elem_of_nil.
  - destruct (decide (c = sep)) as [->|Hc].
    + cbn [split]. rewrite N.eqb_refl.
      intros [->|Hin]%elem_of_cons; [apply not_elem_of_nil | by apply IH].
    + destruct (split_cons_other sep c s Hc) as (f & fs & Hs & ->).
      rewrite Hs in IH.
      intros [->|Hin]%elem_of_cons.
      * apply not_elem_of_cons. split; [done|]. apply IH. by left.
      * apply IH. by right.
Qed.

Lemma split_fields_subset (sep : N) (s field : jsstring) (c : N) :
  field ∈ split sep s → c ∈ field → c ∈ s.
Proof.
  revert field. induction s as [|a s IH]; intros field.
  - by intros ->%list_elem_of_singleton.
  - destruct (decide (a = sep)) as [->|Ha].
    + cbn [split]. rewrite N.eqb_refl.
      intros [->|Hin]%elem_of_cons Hc; [by apply elem_of_nil in Hc|].
      right. by apply (IH field).
    + destruct (split_cons_other sep a s Ha) as (f & fs & Hs & ->).
      rewrite Hs in IH.
      intros [->|Hin]%elem_of_cons Hc.
      * apply elem_of_cons in Hc as [->|Hc]; [by left|].
        right. apply (IH f); [by left | done].
      * right. apply (IH field); [by right | done].
Qed.

Lemma split_length (sep : N) (s : jsstring) :
  length (split sep s) = S (length (filter (fun c => c = sep) s)).
Proof.
  induction s as [|c s IH]; [done|].
  destruct (decide (c = sep)) as [->|Hc].
  - cbn [split]. rewrite N.eqb_refl. rewrite filter_cons_True by done.
    simpl. by rewrite IH.
  - destruct (split_cons_other sep c s Hc) as (f & fs & Hs & ->).
    rewrite filter_cons_False by done. by rewrite <- IH, Hs.
Qed.

Lemma split_app_separator (sep : N) (a b : jsstring) :
  split sep (a ++ sep :: b) = split sep a ++ split sep b.
Proof.
  induction a as [|c a IH].
  - simpl. by rewrite N.eqb_refl.
  - destruct (decide (c = sep)) as [->|Hc].
    + cbn [app split]. rewrite N.eqb_refl. by rewrite IH.
    + destruct (split_cons_other sep c a Hc) as (f & fs & Hs & Hcons).
      rewrite Hcons. simpl app.
      destruct (split_cons_other sep c (a ++ sep :: b) Hc) as (f' & fs' & Hs' & ->).
      rewrite IH, Hs in Hs'. simpl in Hs'. by injection Hs' as <- <-.
Qed.

(** Appending a unit that is not the separator extends the last field. *)
Lemma split_snoc (sep c : N) (s : jsstring) :
  c ≠ sep →
  ∃ fields field, split sep s = fields ++ [field]
                  ∧ split sep (s ++ [c]) = fields ++ [field ++ [c]].
Proof.
  intros Hc. induction s as [|a s (fields & field & Hs & Hsc)].
  - exists [], []. split; [done|]. simpl. by rewrite (proj2 (N.eqb_neq c sep) Hc).
  - destruct (decide (a = sep)) as [->|Ha].
    + exists ([] :: fields), field. cbn [app split]. rewrite N.eqb_refl.
      by rewrite Hs, Hsc.
    + destruct (split_cons_other sep a s Ha) as (f & fs & Hs' & ->).
      destruct (split_cons_other sep a (s ++ [c]) Ha) as (g & gs & Hsc' & Hcons).
      simpl app. rewrite Hcons.
      rewrite Hs in Hs'. rewrite Hsc in Hsc'.
      destruct fields as [|f0 fields]; simpl in Hs', Hsc'.
      * injection Hs' as <- <-. injection Hsc' as <- <-.
        by exists [], (a :: field).
      * injection Hs' as <- <-. injection Hsc' as <- <-.
        by exists ((a :: f0) :: fields), field.
Qed.

Lemma trimStart_suffix (s : jsstring) :
  ∃ spaces, s = spaces ++ trimStart s.
Proof.
  induction s as [|c s (spaces & IH)]; [by exists []|]. simpl.
  destruct (is_space c); [|by exists []].
  exists (c :: spaces). simpl. by rewrite <- IH.
Qed.

Lemma trimStart_head (s : jsstring) (c : N) :
  head (trimStart s) = Some c → is_space c = false.
Proof.
  induction s as [|a s IH]; [done|]. simpl.
  destruct (is_space a) eqn:Ha; [done|]. simpl. by intros [= <-].
Qed.

Lemma trimStart_snoc (s : jsstring) (c : N) :
  is_space c = true →
  trimStart (s ++ [c]) = match trimStart s with
                         | [] => []
                         | _ => trimStart s ++ [c]
                         end.
Proof.
  intros Hc. induction s as [|a s IH]; simpl.
  - by rewrite Hc.
  - destruct (is_space a); [done|]. done.
Qed.

Lemma elem_of_rev (l : jsstring) (c : N) : c ∈ rev l ↔ c ∈ l.
Proof. rewrite !list_elem_of_In. symmetry. apply in_rev. Qed.

Lemma trim_subset (s : jsstring) (c : N) : c ∈ trim s → c ∈ s.
Proof.
  unfold trim, trimEnd. intros Hin. apply (proj1 (elem_of_rev _ _)) in Hin.
  destruct (trimStart_suffix (rev (trimStart s))) as (spaces & Hrev).
  pose proof (proj2 (elem_of_app spaces _ c) (or_intror Hin)) as Hin'.
  rewrite <- Hrev in Hin'. apply (proj1 (elem_of_rev _ _)) in Hin'.
  destruct (trimStart_suffix s) as (spaces' & Hs).
  pose proof (proj2 (elem_of_app spaces' _ c) (or_intror Hin')) as Hin''.
  by rewrite <- Hs in Hin''.
Qed.

Lemma head_rev_last (l : jsstring) : head (rev l) = last l.
Proof.
  induction l as [|a l IH] using rev_ind; [done|].
  by rewrite rev_app_distr, last_snoc.
Qed.

(** A trimmed string neither starts nor ends with white space. *)
Lemma trim_ends (s : jsstring) (c : N) :
  head (trim s) = Some c ∨ last (trim s) = Some c → is_space c = false.
Proof.
  unfold trim, trimEnd.
  set (u := trimStart s). set (w := trimStart (rev u)). intros [Hhead|Hlast].
  - destruct (trimStart_suffix (rev u)) as (spaces & Hrev). fold w in Hrev.
    assert (u = rev w ++ rev spaces) as Hu.
    { rewrite <- rev_app_distr, <- Hrev. by rewrite rev_involutive. }
    apply (trimStart_head s). fold u. rewrite Hu.
    by destruct (rev w).
  - apply (trimStart_head (rev u)). fold w.
    rewrite <- head_rev_last, rev_involutive in Hlast. done.
Qed.

Lemma trimEnd_snoc (s : jsstring) (c : N) :
  is_space c = true → trimEnd (s ++ [c]) = trimEnd s.
Proof.
  intros Hc. unfold trimEnd. rewrite rev_app_distr. simpl. by rewrite Hc.
Qed.

(** White space at the end of a string does not change what it trims to. *)
Lemma trim_snoc (s : jsstring) (c : N) :
  is_space c = true → trim (s ++ [c]) = trim s.
Proof.
  intros Hc. unfold trim. rewrite (trimStart_snoc s c Hc).
  destruct (trimStart s) as [|a u]; [done|].
  by apply trimEnd_snoc.
Qed.

(** ** What the CSV reader makes of a text *)

Lemma forEach_assign_values (cell : nat → jsstring) (headers : list jsstring)
    (index : nat) (rowData : RowData) (h v : jsstring) :
  Reader.forEach_assign cell headers index rowData !! h = Some v →
  rowData !! h = Some v ∨ ∃ i, v = cell i.
Proof.
  revert index rowData. induction headers as [|header rest IH];
    intros index rowData; simpl; [by left|].
  intros [Hin|Hcell]%IH; [|by right].
  rewrite assign_lookup in Hin.
  destruct (decide (h = header ∧ header ≠ js "__proto__")) as [_|_].
  - injection Hin as <-. right. by eexists.
  - by left.
Qed.

Lemma csv_line_in_text (csvData line : jsstring) :
  line ∈ Reader.csv_lines csvData → newline ∉ line.
Proof.
  unfold Reader.csv_lines. intros [_ Hin]%list_elem_of_filter.
  by apply (split_fields_without_separator newline csvData).
Qed.

Lemma csv_field_is_clean (line field : jsstring) :
  newline ∉ line → field ∈ split comma line →
  (comma ∉ trim field) ∧ (newline ∉ trim field)
  ∧ ∀ c, head (trim field) = Some c ∨ last (trim field) = Some c →
         is_space c = false.
Proof.
  intros Hline Hfield. split; [|split].
  - intros Hin%trim_subset. by apply (split_fields_without_separator comma line field).
  - intros Hin%trim_subset. apply Hline.
    by apply (split_fields_subset comma line field).
  - apply trim_ends.
Qed.

Lemma empty_is_clean :
  (comma ∉ @nil N) ∧ (newline ∉ @nil N)
  ∧ ∀ c, head (@nil N) = Some c ∨ last (@nil N) = Some c → is_space c = false.
Proof.
  split; [apply not_elem_of_nil|]. split; [apply not_elem_of_nil|].
  by intros c [H|H].
Qed.

(** X20. Every header and every cell value in the preview of a CSV text is
    free of commas and of line feeds, and has no white space at its start
    or at its end. *)
Theorem csv_preview_texts_are_clean (csvData text : jsstring) :
  text ∈ fst (Reader.csv_preview csvData)
  ∨ (∃ row h, row ∈ snd (Reader.csv_preview csvData) ∧ row !! h = Some text) →
  (comma ∉ text) ∧ (newline ∉ text)
  ∧ ∀ c, head text = Some c ∨ last text = Some c → is_space c = false.
Proof.
  intros [Hheader|(row & h & Hrow & Hcell)].
  - rewrite csv_preview_headers in Hheader. unfold Reader.csv_headers in Hheader.
    destruct (Reader.csv_lines csvData) as [|first rest] eqn:Hlines;
      [by apply elem_of_nil in Hheader|].
    apply list_elem_of_fmap in Hheader as (field & -> & Hfield).
    apply (csv_field_is_clean first); [|done].
    apply (csv_line_in_text csvData). rewrite Hlines. by left.
  - apply list_elem_of_lookup in Hrow as [k Hk].
    destruct (csv_preview_row _ _ _ Hk) as (line & Hline & ->).
    unfold Reader.csv_row in Hcell.
    apply forEach_assign_values in Hcell as [Hcell|[i ->]]; [done|].
    unfold Reader.value_or_empty.
    destruct (map trim (split comma line) !! i) as [v|] eqn:Hv.
    + destruct (decide (truthy v)); [|apply empty_is_clean].
      apply list_elem_of_lookup_2 in Hv.
      apply list_elem_of_fmap in Hv as (field & -> & Hfield).
      apply (csv_field_is_clean line); [|done].
      apply (csv_line_in_text csvData). by apply list_elem_of_lookup_2 in Hline.
    + apply empty_is_clean.
Qed.

Lemma csv_preview_texts_are_clean_witness :
  (comma ∉ js "qty") ∧ (newline ∉ js "qty")
  ∧ ∀ c, head (js "qty") = Some c ∨ last (js "qty") = Some c → is_space c = false.
Proof.
  apply (csv_preview_texts_are_clean (js " id , qty ")). left.
  apply list_elem_of_lookup. by exists 1%nat.
Defined.

(** X21. The header list of a CSV text has one more entry than the first
    line that is not blank has commas: every comma separates, also inside
    quotes, and an empty name between two commas is a header. *)
Theorem csv_header_count (csvData first : jsstring) (rest : list jsstring) :
  Reader.csv_lines csvData = first :: rest →
  length (fst (Reader.csv_preview csvData)) = S (Cases.commas first).
Proof.
  intros Hlines. rewrite csv_preview_headers. unfold Reader.csv_headers.
  rewrite Hlines, length_map. apply split_length.
Qed.

Lemma csv_header_count_witness :
  fst (Reader.csv_preview [34; 97; 44; 98; 34; 44; 44; 99])
  = [[34; 97]; [98; 34]; []; [99]]
  ∧ length (fst (Reader.csv_preview [34; 97; 44; 98; 34; 44; 44; 99])) = 4%nat.
Proof.
  split; [reflexivity|].
  apply (csv_header_count [34; 97; 44; 98; 34; 44; 44; 99]
           [34; 97; 44; 98; 34; 44; 44; 99] []).
  reflexivity.
Defined.

Lemma csv_fields_snoc (line : jsstring) (c : N) :
  is_space c = true → c ≠ comma →
  map trim (split comma (line ++ [c])) = map trim (split comma line).
Proof.
  intros Hspace Hc.
  destruct (split_snoc comma c line Hc) as (fields & field & -> & ->).
  rewrite !map_app. simpl. by rewrite (trim_snoc field c Hspace).
Qed.

Lemma csv_row_snoc (headers : list jsstring) (line : jsstring) (c : N) :
  is_space c = true → c ≠ comma →
  Reader.csv_row headers (line ++ [c]) = Reader.csv_row headers line.
Proof. intros Hspace Hc. unfold Reader.csv_row. by rewrite csv_fields_snoc. Qed.

Lemma split_text_of (eol : jsstring) (lines : list jsstring) :
  Forall (fun line => newline ∉ line ++ eol) lines →
  split newline (Cases.text_of (eol ++ [newline]) lines)
  = map (fun line => line ++ eol) lines ++ [[]].
Proof.
  induction 1 as [|line lines Hline _ IH]; [done|].
  unfold Cases.text_of in *. simpl.
  rewrite <- !app_assoc. simpl. rewrite (app_assoc line eol).
  rewrite split_app_separator, (split_without_separator _ _ Hline). simpl.
  by rewrite IH.
Qed.

Lemma csv_lines_text_of (eol : N) (lines : list jsstring) :
  is_space eol = true → eol ≠ newline →
  Forall (fun line => newline ∉ line) lines →
  Reader.csv_lines (Cases.text_of [eol; newline] lines)
  = map (fun line => line ++ [eol])
      (filter (fun line => truthy (trim line)) lines)
  ∧ Reader.csv_lines (Cases.text_of [newline] lines)
    = filter (fun line => truthy (trim line)) lines.
Proof.
  intros Hspace Heol Hlines. unfold Reader.csv_lines. split.
  - change [eol; newline] with ([eol] ++ [newline]).
    rewrite (split_text_of [eol] lines).
    + rewrite filter_app, filter_cons_False, filter_nil, app_nil_r by (by intros ?).
      clear Hlines. induction lines as [|line lines IH]; [done|]. simpl.
      destruct (decide (truthy (trim line))) as [Hyes|Hno].
      * rewrite !filter_cons_True; [|done|by rewrite trim_snoc]. simpl. by rewrite IH.
      * rewrite !filter_cons_False; [done|done|by rewrite trim_snoc].
    + eapply Forall_impl; [exact Hlines|]. simpl.
      intros line Hline [Hin|Hin%list_elem_of_singleton]%elem_of_app; [done|].
      by apply Heol.
  - change [newline] with ([] ++ [newline]) at 1.
    rewrite (split_text_of [] lines).
    + rewrite filter_app, filter_cons_False, filter_nil, app_nil_r by (by intros ?).
      f_equal. clear. induction lines as [|line lines IH]; [done|]. simpl.
      by rewrite app_nil_r, IH.
    + eapply Forall_impl; [exact Hlines|]. simpl. intros line Hline.
      by rewrite app_nil_r.
Qed.

Lemma slice_map {A B} (f : A → B) (from to : nat) (l : list A) :
  Reader.slice from to (map f l) = map f (Reader.slice from to l).
Proof. unfold Reader.slice. by rewrite <- fmap_drop, <- fmap_take. Qed.

(** X22. A CSV text whose lines end in carriage return and line feed has the
    same headers and the same preview rows as the text with the same lines
    ending in a line feed only. *)
Theorem csv_crlf_reads_like_lf (lines : list jsstring) :
  Forall (fun line => newline ∉ line) lines →
  Reader.csv_preview (Cases.text_of [13; newline] lines)
  = Reader.csv_preview (Cases.text_of [newline] lines).
Proof.
  intros Hlines.
  destruct (csv_lines_text_of 13 lines eq_refl ltac:(done) Hlines) as [Hcrlf Hlf].
  unfold Reader.csv_preview. rewrite Hcrlf, Hlf.
  destruct (filter _ lines) as [|first rest]; [done|].
  cbn [map]. rewrite (csv_fields_snoc first 13) by done.
  f_equal. change ((first ++ [13]) :: map (fun line => line ++ [13]) rest)
    with (map (fun line => line ++ [13]) (first :: rest)).
  rewrite slice_map, map_map.
  apply map_ext. intros line. by apply csv_row_snoc.
Qed.

Lemma csv_crlf_reads_like_lf_witness :
  Reader.csv_preview (js "id,qty" ++ [13; 10] ++ js "1,5" ++ [13; 10])
  = ([js "id"; js "qty"], [ {[ js "id" := js "1"; js "qty" := js "5" ]} ]).
Proof.
  change (js "id,qty" ++ [13; 10] ++ js "1,5" ++ [13; 10])
    with (Cases.text_of [13; newline] [js "id,qty"; js "1,5"]).
  rewrite csv_crlf_reads_like_lf.
  - reflexivity.
  - repeat constructor; intros Hin; vm_compute in Hin; set_solver.
Defined.

Lemma csv_preview_of_lines (a b : jsstring) :
  Reader.csv_lines a = Reader.csv_lines b →
  Reader.csv_preview a = Reader.csv_preview b.
Proof. intros Heq. unfold Reader.csv_preview. by rewrite Heq. Qed.

Lemma csv_lines_app (a b : jsstring) :
  Reader.csv_lines (a ++ newline :: b) = Reader.csv_lines a ++ Reader.csv_lines b.
Proof. unfold Reader.csv_lines. by rewrite split_app_separator, filter_app. Qed.

(** X23. Blank lines do not count: lines of white space only, at the start
    of a CSV text, between two of its lines or at its end (the line feed
    after the last line among them), change neither the headers nor the
    preview rows. *)
Theorem csv_blank_lines_are_skipped (blank before after : jsstring) :
  Forall (fun line => trim line = []) (split newline blank) →
  Reader.csv_preview (blank ++ newline :: after) = Reader.csv_preview after
  ∧ Reader.csv_preview (before ++ newline :: blank ++ newline :: after)
    = Reader.csv_preview (before ++ newline :: after)
  ∧ Reader.csv_preview (before ++ newline :: blank) = Reader.csv_preview before.
Proof.
  intros Hblank%csv_lines_blank.
  repeat split; apply csv_preview_of_lines; rewrite !csv_lines_app, Hblank;
    by rewrite ?app_nil_r.
Qed.

Lemma csv_blank_lines_are_skipped_witness :
  Reader.csv_preview (js "id,qty" ++ [newline] ++ js "  " ++ [newline] ++ js "1,5")
  = Reader.csv_preview (js "id,qty" ++ [newline] ++ js "1,5")
  ∧ Reader.csv_preview (js "id,qty" ++ [newline])
    = Reader.csv_preview (js "id,qty").
Proof.
  split.
  - apply (csv_blank_lines_are_skipped (js "  ") (js "id,qty") (js "1,5")).
    by repeat constructor.
  - apply (csv_blank_lines_are_skipped [] (js "id,qty") []).
    by repeat constructor.
Defined.

(** ** The extension of a file name *)

Lemma ext_loop_scanned (p units_rev : jsstring) (i : nat) (st : Path.ext_state) :
  units_rev = rev (take (length units_rev) p) →
  (length units_rev ≤ length p)%nat →
  (units_rev = [] ∨ length units_rev = S i) →
  Cases.ext_scanned p (length units_rev) st →
  ∃ n, Cases.ext_scanned p n (Path.ext_loop units_rev i st).
Proof.
  revert i st. induction units_rev as [|code rest IH]; intros i st Hunits Hlen Hi Hst.
  - by exists 0%nat.
  - destruct Hi as [Hi|Hi]; [done|]. simpl in Hi. injection Hi as Hi.
    simpl in Hlen. simpl length in Hunits, Hst.
    destruct (p !! length rest) as [c|] eqn:Hc;
      [|apply lookup_ge_None in Hc; lia].
    rewrite (take_S_r _ _ _ Hc), rev_app_distr in Hunits. simpl in Hunits.
    injection Hunits as -> Hrest.
    assert (rest = [] ∨ length rest = S (pred i)) as Hnext.
    { destruct rest as [|c' rest']; [by left|]. right. simpl in *. lia. }
    cbn [Path.ext_loop].
    destruct (N.eqb_spec c slash) as [->|Hcode].
    + destruct (Path.matchedSlash st) eqn:Hmatched; simpl.
      * apply (IH (pred i) st Hrest ltac:(lia) Hnext).
        unfold Cases.ext_scanned in *.
        destruct (Path.end_ st); [|done]. destruct Hst as [Hfalse _]. congruence.
      * exists (S (length rest)). unfold Cases.ext_scanned in *. simpl.
        destruct (Path.end_ st).
        -- destruct Hst as [_ Hst]. by split.
        -- destruct Hst. congruence.
    + apply (IH (pred i) _ Hrest ltac:(lia) Hnext).
      assert (∀ j e, (S (length rest) ≤ j < e → p !! j ≠ Some slash)%nat →
                (length rest ≤ j < e)%nat → p !! j ≠ Some slash) as Hextend.
      { intros j e Hold Hj. destruct (decide (j = length rest)) as [->|Hne].
        - rewrite Hc. by intros [= ->].
        - apply Hold. lia. }
      unfold Cases.ext_scanned in *. subst i.
      destruct (Path.end_ st) as [e|] eqn:Hend.
      * destruct Hst as (Hslash & Hlt & Hrange & Hdot).
        destruct (c =? dot); destruct (Path.startDot st) as [sd|] eqn:Hsd;
          try destruct (negb (Path.preDotState st =? 1)%Z);
          simpl; rewrite ?Hend, ?Hsd; simpl;
          (split; [done|]); (split; [lia|]);
          (split; [intros j Hj; apply (Hextend j e); [apply Hrange | lia]|]);
          intros sd' [= <-]; try specialize (Hdot _ eq_refl); lia.
      * destruct Hst as [Hnodot Hmatched].
        destruct (c =? dot); simpl; rewrite ?Hnodot; simpl;
          (split; [done|]); (split; [lia|]);
          (split; [intros j Hj; replace j with (length rest) by lia;
                   rewrite Hc; by intros [= ->]|]);
          intros sd' Hsd'; simplify_eq; lia.
Qed.

(** The extension [path.extname] finds contains no slash. *)
Lemma extname_no_slash (p : jsstring) : slash ∉ Path.extname p.
Proof.
  unfold Path.extname.
  destruct (ext_loop_scanned p (rev p) (pred (length p))
              {| Path.startDot := None; Path.startPart := 0; Path.end_ := None;
                 Path.matchedSlash := true; Path.preDotState := 0 |})
    as [n Hn].
  - by rewrite length_rev, firstn_all.
  - by rewrite length_rev.
  - rewrite length_rev. destruct p; [by left|]. right. simpl. lia.
  - done.
  - set (st := Path.ext_loop _ _ _) in *. unfold Cases.ext_scanned in Hn.
    destruct (Path.startDot st) as [sd|] eqn:Hsd; [|apply not_elem_of_nil].
    destruct (Path.end_ st) as [e|]; [|apply not_elem_of_nil].
    destruct Hn as (_ & _ & Hrange & Hdot). specialize (Hdot sd eq_refl).
    destruct (_ || _); [apply not_elem_of_nil|].
    intros [k Hk]%list_elem_of_lookup.
    apply lookup_take_Some in Hk as [Hk Hlt]. rewrite lookup_drop in Hk.
    apply (Hrange (sd + k)%nat); [lia | done].
Qed.

(** The extension is a piece of the name. *)
Lemma extname_subset (p : jsstring) (c : N) : c ∈ Path.extname p → c ∈ p.
Proof.
  unfold Path.extname.
  destruct (Path.startDot _) as [sd|]; [|by intros ?%elem_of_nil].
  destruct (Path.end_ _) as [e|]; [|by intros ?%elem_of_nil].
  destruct (_ || _); [by intros ?%elem_of_nil|].
  intros [k Hk]%list_elem_of_lookup.
  apply lookup_take_Some in Hk as [Hk _]. rewrite lookup_drop in Hk.
  by apply list_elem_of_lookup_2 in Hk.
Qed.

(** ** Storing an upload *)

Lemma uint_units_digits (d : Decimal.uint) (c : N) :
  c ∈ uint_units d → 48 ≤ c ≤ 57.
Proof.
  induction d; simpl; try (by intros ?%elem_of_nil);
    intros [->|Hin]%elem_of_cons; (lia || by apply IHd).
Qed.

Lemma stored_name_units (part : Part) (now random c : N) :
  fieldname part = js "orderFile" →
  c ∈ Multer.filename part now random →
  c ∈ js "orderFile-" ∨ 48 ≤ c ≤ 57 ∨ c ∈ Path.extname (originalname part).
Proof.
  intros Hfield. unfold Multer.filename. rewrite Hfield.
  change (js "-") with [45]. change (js "orderFile") with (removelast (js "orderFile-")).
  rewrite !elem_of_app. unfold decimal.
  intros [Hin|[Hin|[[Hin|[Hin|Hin]]|Hin]]].
  - left. vm_compute in Hin |- *. set_solver.
  - left. apply list_elem_of_singleton in Hin as ->. vm_compute. set_solver.
  - right. left. by apply (uint_units_digits _ _ Hin).
  - left. apply list_elem_of_singleton in Hin as ->. vm_compute. set_solver.
  - right. left. by apply (uint_units_digits _ _ Hin).
  - by right; right.
Qed.

Lemma uploadsDir_ends (host : Host) :
  ∃ d, uploadsDir host = d ++ [js "uploads"].
Proof.
  unfold uploadsDir. destruct (production host).
  - by exists [js "tmp"].
  - by exists (removelast (Path.strip (dirname host))).
Qed.

Lemma join_plain (dir : Path.t) (name : jsstring) (c : N) :
  Path.has_trailing_slash dir = false →
  slash ∉ name → head name = Some c → c ≠ dot →
  Path.join dir name = dir ++ [name].
Proof.
  intros Hdir Hplain Hhead Hc. unfold Path.join.
  destruct (last name) as [l|] eqn:Hlast;
    [|apply last_None in Hlast; by subst name].
  assert (l ≠ slash) as Hl.
  { intros ->. apply Hplain. apply last_Some in Hlast as [name' ->].
    apply elem_of_app. right. by left. }
  rewrite (proj2 (N.eqb_neq l slash) Hl). simpl.
  rewrite (split_without_separator _ _ Hplain). unfold Path.strip. rewrite Hdir.
  simpl. unfold Path.segment_step.
  destruct name as [|a name]; [done|]. injection Hhead as ->.
  rewrite decide_False by done.
  rewrite decide_False by (by intros [= -> _]).
  by rewrite decide_False by (by intros [= -> _]).
Qed.

(** The path an upload of the field [orderFile] is stored at: the stored
    name, in the uploads directory. *)
Lemma stored_path (host : Host) (part : Part) (now random : N) :
  fieldname part = js "orderFile" →
  Path.join (uploadsDir host) (Multer.filename part now random)
  = uploadsDir host ++ [Multer.filename part now random].
Proof.
  intros Hfield. destruct (uploadsDir_ends host) as [d Hd].
  apply (join_plain _ _ 111).
  - rewrite Hd. by apply no_trailing_slash_snoc.
  - intros [Hin|[Hin|Hin]]%(stored_name_units _ _ _ _ Hfield).
    + vm_compute in Hin. set_solver.
    + unfold slash in Hin. lia.
    + by apply extname_no_slash in Hin.
  - unfold Multer.filename. by rewrite Hfield.
  - done.
Qed.

(** X24. When the uploads directory exists, the middleware of the upload
    route stores every named file of the field [orderFile] whose name has
    no NUL, under the stored name in that directory, unless a directory
    stands there; the file system changes at that path only, and [req.file]
    names the original file, the stored file and its path. *)
Theorem upload_is_stored (host : Host) (now random : N) (part : Part) (fs : Fs.t) :
  Fs.node_at fs (uploadsDir host) = Some Fs.Dir →
  originalname part ≠ [] →
  fieldname part = js "orderFile" →
  0 ∉ originalname part →
  Fs.node_at fs (uploadsDir host ++ [Multer.filename part now random])
    ≠ Some Fs.Dir →
  Multer.single upload (js "orderFile") (uploadsDir host) now random (Some part) fs
  = Ok (Some {| file_originalname := originalname part;
                file_filename := Multer.filename part now random;
                file_path := uploadsDir host ++ [Multer.filename part now random];
                file_size := filesize part |},
        <[uploadsDir host ++ [Multer.filename part now random]
          := Fs.File (data part)]> fs).
Proof.
  intros Hdir Hnamed Hfield Hnul Hfree.
  rewrite routes_single_cases.
  rewrite decide_False by done. rewrite decide_True by done.
  rewrite (stored_path host part now random Hfield).
  set (p := uploadsDir host ++ [Multer.filename part now random]) in *.
  assert (Multer.filename part now random ≠ []) as Hseg
    by (unfold Multer.filename; by rewrite Hfield).
  assert (Fs.valid p = true) as Hvalid.
  { apply valid_snoc; [by apply (node_at_valid fs _ Fs.Dir)|].
    intros [Hin|[Hin|Hin]]%(stored_name_units _ _ _ _ Hfield).
    - vm_compute in Hin. set_solver.
    - lia.
    - by apply Hnul, extname_subset. }
  assert (Path.parent p = uploadsDir host) as Hparent.
  { unfold Path.parent, Path.strip, p.
    rewrite no_trailing_slash_snoc by done. apply removelast_last. }
  unfold Fs.writeFileSync. rewrite Hvalid. simpl.
  unfold p at 1. rewrite no_trailing_slash_snoc by done. fold p.
  rewrite Hparent, Hdir.
  by destruct (Fs.node_at fs p) as [[|]|].
Qed.

Lemma upload_is_stored_witness :
  Multer.single upload (js "orderFile") (uploadsDir Sample.host) Sample.now
    Sample.random (Some Sample.orders_csv) Sample.booted
  = Ok (Some {| file_originalname := js "orders.csv";
                file_filename := js "orderFile-1700000000000-123456789.csv";
                file_path := uploadsDir Sample.host
                             ++ [js "orderFile-1700000000000-123456789.csv"];
                file_size := 15 |},
        <[uploadsDir Sample.host ++ [js "orderFile-1700000000000-123456789.csv"]
          := Fs.File (data Sample.orders_csv)]> Sample.booted).
Proof.
  apply (upload_is_stored Sample.host Sample.now Sample.random Sample.orders_csv
           Sample.booted).
  - reflexivity.
  - discriminate.
  - reflexivity.
  - intros Hin. vm_compute in Hin. set_solver.
  - intros Heq. vm_compute in Heq. discriminate.
Defined.

(** X25. When nothing exists at the path of the uploads directory, a named
    file of the field [orderFile] is not stored: the error of the file
    system goes to the error handler of server.js, which answers with
    status 500 and the message of that error, and the file system is
    unchanged. *)
Theorem upload_without_directory_fails (host : Host) (now random : N)
    (part : Part) (fs : Fs.t) :
  Fs.node_at fs (uploadsDir host) = None →
  originalname part ≠ [] →
  fieldname part = js "orderFile" →
  ∃ e, post_upload host now random (Some part) fs
       = (ErrorJson 500 (MessageOf e) None, fs).
Proof.
  intros Hdir Hnamed Hfield.
  unfold post_upload, post_upload_with. rewrite routes_single_cases.
  rewrite decide_False by done. rewrite decide_True by done.
  rewrite (stored_path host part now random Hfield).
  set (p := uploadsDir host ++ [Multer.filename part now random]) in *.
  assert (Multer.filename part now random ≠ []) as Hseg
    by (unfold Multer.filename; by rewrite Hfield).
  assert (Path.parent p = uploadsDir host) as Hparent.
  { unfold Path.parent, Path.strip, p.
    rewrite no_trailing_slash_snoc by done. apply removelast_last. }
  unfold Fs.writeFileSync.
  destruct (Fs.valid p); simpl; [|by eexists].
  unfold p at 1. rewrite no_trailing_slash_snoc by done. fold p.
  rewrite Hparent, Hdir.
  destruct (Fs.node_at fs p) as [[|]|]; by eexists.
Qed.

Lemma upload_without_directory_fails_witness :
  ∃ e, post_upload Sample.host Sample.now Sample.random (Some Sample.orders_csv) ∅
       = (ErrorJson 500 (MessageOf e) None, ∅).
Proof.
  apply upload_without_directory_fails; [reflexivity | discriminate | reflexivity].
Defined.

(** ** Downloading *)

Lemma basename_plain (name : jsstring) : slash ∉ name → Path.basename name = name.
Proof.
  intros Hplain. unfold Path.basename.
  assert (Path.drop_slashes (rev name) = rev name) as ->.
  { destruct (rev name) as [|c rest] eqn:Hrev; [done|]. simpl.
    destruct (N.eqb_spec c slash) as [->|_]; [|done].
    exfalso. apply Hplain. apply elem_of_rev. rewrite Hrev. left. }
  by rewrite rev_involutive, (split_without_separator _ _ Hplain).
Qed.

Lemma stored_name_plain (part : Part) (now random : N) :
  fieldname part = js "orderFile" → slash ∉ Multer.filename part now random.
Proof.
  intros Hfield [Hin|[Hin|Hin]]%(stored_name_units _ _ _ _ Hfield).
  - vm_compute in Hin. set_solver.
  - unfold slash in Hin. lia.
  - by apply extname_no_slash in Hin.
Qed.

(** An answer with a preview was given to a file of the field
    [orderFile]. *)
Lemma post_upload_field (host : Host) (now random : N) (part : Part)
    (fs : Fs.t) (r : UploadResult) (fs' : Fs.t) :
  post_upload host now random (Some part) fs = (UploadJson r, fs') →
  fieldname part = js "orderFile".
Proof.
  unfold post_upload, post_upload_with. rewrite routes_single_cases.
  destruct (decide (originalname part = [])) as [Hnameless|Hnamed]; [done|].
  by destruct (decide (fieldname part = js "orderFile")) as [Hfield|Hfield].
Qed.

(** A stored upload that can be read is sent under its stored name. *)
Lemma download_of_stored (host : Host) (now random : N) (part : Part) (fs : Fs.t)
    (content : jsstring) :
  fieldname part = js "orderFile" →
  Fs.readFileSync fs (Path.join (uploadsDir host) (Multer.filename part now random))
    = Ok content →
  get_download host (Multer.filename part now random) fs
  = Attachment (Multer.filename part now random) content.
Proof.
  intros Hfield Hread. rewrite get_download_cases.
  rewrite (basename_plain _ (stored_name_plain part now random Hfield)).
  assert (is_dot_file (Path.join (uploadsDir host) (Multer.filename part now random))
          = false) as ->.
  { rewrite (stored_path host part now random Hfield).
    unfold is_dot_file, Path.strip.
    rewrite no_trailing_slash_snoc by (unfold Multer.filename; by rewrite Hfield).
    rewrite last_snoc. unfold Multer.filename. by rewrite Hfield. }
  unfold Fs.readFileSync in Hread.
  destruct (Fs.valid _); [|done]. simpl in Hread.
  by destruct (Fs.node_at fs _) as [[|]|]; simplify_eq.
Qed.



(** X12. A file that was uploaded stays available when another request to
    the upload route follows, as long as that one is stored under another
    path: a download of the first file still returns its data. *)
Theorem later_upload_keeps_earlier_file (host : Host) (now1 random1 : N)
    (part1 : Part) (now2 random2 : N) (file2 : option Part) (fs : Fs.t)
    (r1 : UploadResult) (fs1 : Fs.t) (r2 : response) (fs2 : Fs.t) :
  post_upload host now1 random1 (Some part1) fs = (UploadJson r1, fs1) →
  post_upload host now2 random2 file2 fs1 = (r2, fs2) →
  (∀ part2, file2 = Some part2 →
     Path.join (uploadsDir host) (Multer.filename part2 now2 random2)
     ≠ Path.join (uploadsDir host) (Multer.filename part1 now1 random1)) →
  get_download host (fileId r1) fs2 = Attachment (fileId r1) (data part1).
Proof.
  intros Hfirst Hsecond Hother.
  destruct (post_upload_stored _ _ _ _ _ _ _ Hfirst) as (Hid & Hread).
  pose proof (post_upload_field _ _ _ _ _ _ _ Hfirst) as Hfield.
  assert (Fs.node_at fs2 (Path.join (uploadsDir host) (fileId r1))
          = Fs.node_at fs1 (Path.join (uploadsDir host) (fileId r1))) as Hsame.
  { destruct (post_upload_fs _ _ _ _ _ _ _ Hsecond) as [->|(part2 & -> & Hwrite)];
      [done|].
    apply (write_frame _ _ _ _ _ Hwrite). rewrite Hid.
    intros Heq. by apply (Hother part2 eq_refl). }
  rewrite Hid in Hread, Hsame |- *.
  apply download_of_stored; [done|].
  unfold Fs.readFileSync in Hread |- *. rewrite Hsame.
  by destruct (Fs.valid _).
Qed.

Lemma later_upload_keeps_earlier_file_witness :
  let fs2 := snd (post_upload Sample.host 1700000000001 5 (Some Sample.report_pdf)
                    Sample.uploaded) in
  get_download Sample.host (Multer.filename Sample.orders_csv Sample.now Sample.random)
    fs2
  = Attachment (Multer.filename Sample.orders_csv Sample.now Sample.random)
      (data Sample.orders_csv).
Proof.
  intros fs2.
  destruct (post_upload_csv_id Sample.host Sample.now Sample.random
              Sample.orders_csv Sample.booted
              (Sample.stored_file Sample.orders_csv) Sample.uploaded)
    as (r & Hr & Hid); [reflexivity .. |].
  rewrite <- Hid.
  apply (later_upload_keeps_earlier_file Sample.host Sample.now Sample.random
           Sample.orders_csv 1700000000001 5 (Some Sample.report_pdf) Sample.booted
           r Sample.uploaded
           (fst (post_upload Sample.host 1700000000001 5 (Some Sample.report_pdf)
                   Sample.uploaded))).
  - exact Hr.
  - symmetry. apply surjective_pairing.
  - intros part2 [= <-] Heq. vm_compute in Heq. discriminate.
Defined.

(** ** Loading the routes module *)

Lemma valid_app (a b : Path.t) :
  Fs.valid (a ++ b) = true → Fs.valid a = true ∧ Fs.valid b = true.
Proof. unfold Fs.valid. rewrite forallb_app. apply andb_prop. Qed.

Lemma node_at_plain (fs : Fs.t) (d : Path.t) (seg : jsstring) :
  Fs.valid (d ++ [seg]) = true → seg ≠ [] →
  Fs.node_at fs (d ++ [seg]) = fs !! (d ++ [seg]).
Proof.
  intros Hvalid Hseg. unfold Fs.node_at.
  rewrite Hvalid, (no_trailing_slash_snoc d seg Hseg). simpl.
  unfold Fs.plain_node. by destruct d.
Qed.

Lemma mkdir_below_dir (todo : list jsstring) (fs : Fs.t) (done : Path.t)
    (fs' : Fs.t) :
  Forall (fun seg => seg ≠ []) todo →
  Fs.valid (done ++ todo) = true →
  Fs.node_at fs done = Some Fs.Dir →
  Fs.mkdir_below fs done todo = Ok fs' →
  Fs.node_at fs' (done ++ todo) = Some Fs.Dir
  ∧ ∀ p, is_Some (fs !! p) → fs' !! p = fs !! p.
Proof.
  intros Hsegs. revert fs done.
  induction Hsegs as [|seg rest Hseg _ IH]; intros fs done Hvalid Hdone; simpl.
  - intros [= <-]. by rewrite app_nil_r.
  - replace (done ++ seg :: rest) with ((done ++ [seg]) ++ rest) in *
      by (by rewrite <- app_assoc).
    destruct (valid_app _ _ Hvalid) as [Hd _].
    rewrite (node_at_plain fs done seg Hd Hseg).
    destruct (fs !! (done ++ [seg])) as [[|]|] eqn:Hnode; [done| |].
    + apply IH; [done|]. by rewrite (node_at_plain fs done seg Hd Hseg).
    + intros Hrest.
      destruct (IH _ _ Hvalid
                  (node_at_insert fs (done ++ [seg]) Fs.Dir Hd
                     (no_trailing_slash_snoc done seg Hseg)
                     ltac:(by destruct done)) Hrest) as [Hdir Hkept].
      split; [done|]. intros p Hp.
      assert (p ≠ done ++ [seg]) as Hne
        by (intros ->; rewrite Hnode in Hp; by destruct Hp).
      rewrite Hkept; rewrite lookup_insert_ne by done; done.
Qed.

(** X26. Loading the routes module makes sure the uploads directory exists:
    when the load succeeds, something exists at its path (the directory
    itself when nothing was there before), and every file and directory
    that existed before is unchanged. *)
Theorem module_load_makes_uploads_dir (host : Host) (fs fs' : Fs.t) :
  Forall (fun seg => seg ≠ []) (uploadsDir host) →
  load_module host fs = Ok fs' →
  Fs.existsSync fs' (uploadsDir host) = true
  ∧ (Fs.existsSync fs (uploadsDir host) = false →
     Fs.node_at fs' (uploadsDir host) = Some Fs.Dir)
  ∧ ∀ p, is_Some (fs !! p) → fs' !! p = fs !! p.
Proof.
  intros Hsegs. unfold load_module.
  destruct (Fs.existsSync fs (uploadsDir host)) eqn:Hexists; simpl.
  - intros [= <-]. done.
  - unfold Fs.mkdirSync_recursive.
    destruct (Fs.valid (uploadsDir host)) eqn:Hvalid; simpl; [|done].
    destruct (uploadsDir_ends host) as [d Hd].
    assert (Path.strip (uploadsDir host) = uploadsDir host) as ->.
    { unfold Path.strip. rewrite Hd. by rewrite no_trailing_slash_snoc. }
    intros Hmkdir.
    destruct (mkdir_below_dir (uploadsDir host) fs [] fs' Hsegs Hvalid eq_refl Hmkdir)
      as [Hdir Hkept].
    simpl in Hdir. split; [|done]. unfold Fs.existsSync. by rewrite Hdir.
Qed.

Lemma module_load_makes_uploads_dir_witness :
  Fs.node_at Sample.booted (uploadsDir Sample.host) = Some Fs.Dir.
Proof.
  destruct (module_load_makes_uploads_dir Sample.host ∅ Sample.booted)
    as (_ & Hdir & _).
  - repeat constructor; discriminate.
  - reflexivity.
  - apply Hdir. reflexivity.
Defined.

(** ** Mapping names are paths *)

Lemma join_json (dir : Path.t) (name : jsstring) :
  Path.has_trailing_slash dir = false → slash ∉ name →
  Path.join dir (name ++ js ".json") = dir ++ [name ++ js ".json"].
Proof.
  intros Hdir Hplain. unfold Path.join.
  change (js ".json") with ([46; 106; 115; 111] ++ [110]).
  rewrite app_assoc, last_snoc. simpl.
  rewrite split_without_separator.
  - unfold Path.strip. rewrite Hdir.
    set (seg := (name ++ [46; 106; 115; 111]) ++ [110]).
    assert (5 ≤ length seg)%nat as Hlen
      by (unfold seg; rewrite !length_app; simpl; lia).
    cbn [fold_left]. unfold Path.segment_step.
    rewrite decide_False by (intros Heq; rewrite Heq in Hlen; simpl in Hlen; lia).
    rewrite decide_False by (intros Heq; rewrite Heq in Hlen; simpl in Hlen; lia).
    rewrite decide_False by (intros Heq; rewrite Heq in Hlen; simpl in Hlen; lia).
    done.
  - rewrite <- app_assoc. intros [Hin|Hin]%elem_of_app; [done|].
    vm_compute in Hin. set_solver.
Qed.

Lemma segment_step_up (p : Path.t) : Path.segment_step p [dot; dot] = removelast p.
Proof. reflexivity. Qed.

Lemma segment_step_named (p : Path.t) (seg : jsstring) :
  (3 ≤ length seg)%nat → Path.segment_step p seg = p ++ [seg].
Proof.
  intros Hlen. unfold Path.segment_step.
  rewrite decide_False by (intros Heq; rewrite Heq in Hlen; simpl in Hlen; lia).
  rewrite decide_False by (intros Heq; rewrite Heq in Hlen; simpl in Hlen; lia).
  by rewrite decide_False by (intros Heq; rewrite Heq in Hlen; simpl in Hlen; lia).
Qed.

(** The record of the name [../../uploads/n] is the file [n.json] of the
    uploads directory. *)
Lemma mapping_file_in_uploads (host : Host) (n : jsstring) :
  production host = false → slash ∉ n →
  mapping_file host (js "../../uploads/" ++ n)
  = Path.join (uploadsDir host) (n ++ js ".json").
Proof.
  intros Hdev Hplain. unfold mapping_file, mappingsDir, uploadsDir. rewrite Hdev.
  set (base := removelast (Path.strip (dirname host))).
  change (Path.join (dirname host) (js "../file/mappings"))
    with ((base ++ [js "file"]) ++ [js "mappings"]).
  change (Path.join (dirname host) (js "../uploads")) with (base ++ [js "uploads"]).
  rewrite (join_json (base ++ [js "uploads"]) n);
    [|by apply no_trailing_slash_snoc|done].
  set (rel := n ++ js ".json").
  assert (slash ∉ rel) as Hseg.
  { intros [Hin|Hin]%elem_of_app; [done|]. vm_compute in Hin. set_solver. }
  assert (3 ≤ length rel)%nat as Hlen
    by (unfold rel; rewrite length_app; simpl; lia).
  assert (last ((js "../../uploads/" ++ n) ++ js ".json") = Some 110) as Hlast.
  { change (js ".json") with ([46; 106; 115; 111] ++ [110]).
    by rewrite app_assoc, last_snoc. }
  assert (split slash ((js "../../uploads/" ++ n) ++ js ".json")
          = [[dot; dot]; [dot; dot]; js "uploads"; rel]) as Hsplit.
  { rewrite <- app_assoc. fold rel.
    change (js "../../uploads/" ++ rel)
      with ([dot; dot] ++ slash :: [dot; dot] ++ slash :: js "uploads" ++ slash :: rel).
    by rewrite !split_app_separator, (split_without_separator _ _ Hseg). }
  unfold Path.join. rewrite Hlast, Hsplit.
  unfold Path.strip. rewrite no_trailing_slash_snoc by done.
  cbn [fold_left].
  rewrite !segment_step_up, !removelast_last.
  rewrite (segment_step_named _ (js "uploads")) by (simpl; lia).
  rewrite (segment_step_named _ rel Hlen).
  change (110 =? slash) with false. simpl. by rewrite <- app_assoc.
Qed.

(** X27. A mapping name is joined to the mappings directory as a path and
    is not confined to it: outside production, a mapping saved with success
    under the name [../../uploads/n] has its record in the file [n.json] of
    the uploads directory, where the generate route accepts it as the file
    id of an upload. *)
Theorem mapping_name_can_reach_uploads (host : Host) (createdAt : jsstring)
    (body : MappingBody) (n : jsstring) (fs : Fs.t) (r : response) (fs' : Fs.t) :
  production host = false →
  slash ∉ n →
  mappingName body = js "../../uploads/" ++ n →
  post_mapping host createdAt body fs = (r, fs') →
  status_of r = 200 →
  Fs.readFileSync fs' (Path.join (uploadsDir host) (n ++ js ".json"))
  = Ok (JSON_stringify host (mappingData createdAt body))
  ∧ ∀ request, body_fileId request = n ++ js ".json" →
      status_of (fst (post_generate host request fs')) ≠ 404.
Proof.
  intros Hdev Hplain Hname Hsave Hok.
  destruct (post_mapping_saved host _ _ _ _ _ Hsave Hok) as (fs1 & Hwrite).
  rewrite Hname, (mapping_file_in_uploads host n Hdev Hplain) in Hwrite.
  destruct (write_then_read _ _ _ _ Hwrite) as (_ & Hexists & Hread).
  split; [done|]. intros request Hid. apply post_generate_found. by rewrite Hid.
Qed.

Lemma mapping_name_can_reach_uploads_witness :
  let body := {| mappingName := js "../../uploads/planted"; sourceFields := None;
                 targetFields := None; mappingRules := None |} in
  let fs' := snd (post_mapping Sample.host Sample.created1 body Sample.booted) in
  Fs.readFileSync fs' (uploadsDir Sample.host ++ [js "planted.json"])
  = Ok (Sample.stringify (mappingData Sample.created1 body)).
Proof.
  intros body fs'.
  destruct (mapping_name_can_reach_uploads Sample.host Sample.created1 body
              (js "planted") Sample.booted
              (fst (post_mapping Sample.host Sample.created1 body Sample.booted)) fs')
    as [Hread _].
  - reflexivity.
  - intros Hin. vm_compute in Hin. set_solver.
  - reflexivity.
  - symmetry. apply surjective_pairing.
  - reflexivity.
  - exact Hread.
Defined.
